(** * Operating-room waiting times: a shallow embedding of [model_ors]

    The development follows [or_wait_times.py]: the argument checks of
    [model_ors], the minute-by-minute loop (arrivals, release of rooms,
    day/night capacity, admission per class, utilization histogram) and
    the final utilization table.  The random draws of [numpy.random] are
    an oracle, a parameter of every definition and theorem.

    Python numbers that may be [int], [long] or [float] are rationals
    when they are finite, and the arithmetic on them is exact: the
    rounding of a [float] to 53 bits is not modelled.  The values NaN
    and infinity of [float] are modelled: the checks of [model_ors] let
    NaN and positive infinity through, and [Full] carries them through
    the rest of the function. *)

From Stdlib Require Import ZArith QArith Qround Lia String.
From stdpp Require Import base list sorting pretty.

Local Open Scope Z_scope.
Local Set Warnings "-register-all".

(** ** Exceptions and the error monad *)

Inductive exn : Set :=
  | TypeError
  | ValueError
  | IndexError
  | ZeroDivisionError
  | UnboundLocalError
  | NameError
  | OverflowError.

Inductive result (A : Type) : Type :=
  | Ok (a : A)
  | Raise (e : exn).
Arguments Ok {A} a.
Arguments Raise {A} e.

Global Instance result_ret : MRet result := fun A a => Ok a.
Global Instance result_bind : MBind result := fun A B k m =>
  match m with
  | Ok a => k a
  | Raise e => Raise e
  end.

Global Instance result_fmap : FMap result := fun A B g m =>
  match m with
  | Ok a => Ok (g a)
  | Raise e => Raise e
  end.

Definition is_config_error (e : exn) : bool :=
  match e with
  | TypeError | ValueError => true
  | _ => false
  end.

(** ** Python comparisons on rationals *)

(** [x > y] of Python, on numbers. *)
Definition Qgt_bool (x y : Q) : bool := negb (Qle_bool x y).

(** [int(x)]: truncation toward zero. *)
Definition py_int (x : Q) : Z :=
  if Qle_bool 0 x then Qfloor x else Qceiling x.

(** [round(x)] of Python 2: to the nearest integer, halves away from
    zero. *)
Definition py_round (x : Q) : Z :=
  if Qle_bool 0 x then Qfloor (x + (1 # 2)) else Qceiling (x - (1 # 2)).

(** ** Numbers with NaN and infinity *)

(** A number that has passed [x < 0]: a finite value, or one of the
    two values of [float] for which [x < 0] is false as well, NaN and
    positive infinity. *)
Inductive number : Type :=
  | Fin (q : Q)
  | NaN
  | Inf.

(** [int(x)] raises [ValueError] on NaN and [OverflowError] on
    infinity. *)
Definition int_of_number (x : number) : result Z :=
  match x with
  | Fin q => Ok (py_int q)
  | NaN => Raise ValueError
  | Inf => Raise OverflowError
  end.

(** [round(x)], a [float] again. *)
Definition round_number (x : number) : number :=
  match x with
  | Fin q => Fin (inject_Z (py_round q))
  | _ => x
  end.

(** ** Dynamically typed arguments *)

Inductive pyval : Type :=
  | PyNone
  | PyBool (b : bool)
  | PyInt (z : Z)
  | PyLong (z : Z)
  | PyFloat (q : Q)
  | PyNaN
  | PyInf (negative : bool)
  | PyStr (s : string)
  | PyList (l : list pyval)
  | PyTuple (l : list pyval).

(** The keyword arguments of [model_ors], as the caller passes them. *)
Record args : Type := {
  arg_n_day_oprooms : pyval;
  arg_distribution_parameters : pyval;
  arg_n_night_oprooms : pyval;
  arg_min_dayonly_class : pyval;
  arg_night_length : pyval;
  arg_converge_time : pyval;
  arg_experiment_length : pyval;
  arg_cleaning_time : pyval
}.

(** The arguments once they have passed the checks, when every number
    among them is finite. [min_dayonly_class] is carried as it came:
    the function body never reads it. *)
Record config : Type := {
  n_day_oprooms : Z;
  distribution_parameters : list (Q * Q * Q);
  n_night_oprooms : Z;
  min_dayonly_class : pyval;
  night_length : Q;
  converge_time : Q;
  experiment_length : Q;
  cleaning_time : Q
}.

(** [type(x) not in (int, float, long)] raises [TypeError], then
    [x < 0] raises [ValueError].  NaN and infinity are of type
    [float]; [x < 0] is false of NaN and of positive infinity, and
    true of negative infinity. *)
Definition check_number (v : pyval) : result number :=
  match v with
  | PyInt z | PyLong z =>
      if z <? 0 then Raise ValueError else Ok (Fin (inject_Z z))
  | PyFloat q =>
      if Qgt_bool 0 q then Raise ValueError else Ok (Fin q)
  | PyNaN => Ok NaN
  | PyInf negative => if negative then Raise ValueError else Ok Inf
  | _ => Raise TypeError
  end.

(** One element of [distribution_parameters]: a list or tuple
    (else [TypeError]) of exactly three items (else [ValueError]),
    each a non-negative number, checked from left to right. *)
Definition check_elem (elem : pyval)
  : result (number * number * number) :=
  match elem with
  | PyList items | PyTuple items =>
      match items with
      | [a; b; c] =>
          a' ← check_number a;
          b' ← check_number b;
          c' ← check_number c;
          Ok (a', b', c')
      | _ => Raise ValueError
      end
  | _ => Raise TypeError
  end.

Fixpoint check_elems (elems : list pyval)
  : result (list (number * number * number)) :=
  match elems with
  | [] => Ok []
  | elem :: rest =>
      e ← check_elem elem;
      r ← check_elems rest;
      Ok (e :: r)
  end.

Definition check_distribution_parameters (v : pyval)
  : result (list (number * number * number)) :=
  match v with
  | PyList elems | PyTuple elems => check_elems elems
  | _ => Raise TypeError
  end.

Definition check_n_day_oprooms (v : pyval) : result Z :=
  match v with
  | PyInt z => if z <=? 0 then Raise ValueError else Ok z
  | _ => Raise TypeError
  end.

(** The check of [n_night_oprooms] runs under [is not None]; after the
    defaulting of line 76 the value is [None] only when [n_day_oprooms]
    is, which the first check has rejected by then. *)
Definition check_n_night_oprooms (n_day : Z) (v : pyval) : result Z :=
  match v with
  | PyInt z =>
      if z >? n_day then Raise ValueError
      else if z <? 0 then Raise ValueError
      else Ok z
  | PyNone => Ok n_day
  | _ => Raise TypeError
  end.

(** ** Lists as Python uses them *)

(** [l[i]] raises [IndexError] out of range. *)
Definition getitem {A} (l : list A) (i : nat) : result A :=
  match l !! i with
  | Some x => Ok x
  | None => Raise IndexError
  end.

(** [l.remove(x)]: drops the first element equal to [x], and raises
    [ValueError] when there is none. *)
Fixpoint py_remove (x : Z) (l : list Z) : result (list Z) :=
  match l with
  | [] => Raise ValueError
  | y :: l' =>
      if y =? x then Ok l'
      else r ← py_remove x l'; Ok (y :: r)
  end.

(** A [for] loop whose body may raise. *)
Fixpoint foldM {A S} (f : S -> A -> result S) (s : S) (l : list A)
  : result S :=
  match l with
  | [] => Ok s
  | a :: l' => s' ← f s a; foldM f s' l'
  end.

(** [range(n)] as the integers it yields. *)
Definition range (n : Z) : list Z := Z.of_nat <$> seq 0 (Z.to_nat n).

(** ** The random source *)

(** [poisson time j lam] is the draw [numpy.random.poisson(lam)] made
    for class [j] at minute [time]; [lognormal time j mu sigma] is
    [int(round(numpy.random.lognormal(mu, sigma)))] for the patient of
    class [j] admitted at minute [time].  Both are for finite
    parameters.  What numpy answers to a rate that is NaN or infinite
    (a draw, or an exception) is [poisson_special], and the [float] it
    returns for a [mu] or [sigma] that is NaN or infinite is
    [lognormal_special]. *)
Record sampler : Type := {
  poisson : Z -> nat -> Q -> nat;
  lognormal : Z -> nat -> Q -> Q -> Z;
  poisson_special : Z -> nat -> number -> result nat;
  lognormal_special : Z -> nat -> number -> number -> number
}.

(** ** Simulation state *)

(** One row of [results]. *)
Record outcome : Type := {
  o_class : nat;
  o_arrival : Z;
  o_time_of_day : string;
  o_wait_time : Z;
  o_surgery_time : Z
}.

(** The local variables of [model_ors] that the loop updates.
    [n_oprooms] is unbound until the first minute has run. *)
Record state : Type := {
  operating_rooms : list Q;
  queues : list (list Z);
  utilization_frac : list Z;
  results : list outcome;
  n_oprooms : option Z
}.

Definition day_to_min : Z := 1440.
Definition hour_to_min : Z := 60.

Definition n_classes (cfg : config) : nat :=
  length (distribution_parameters cfg).

Definition init_state (cfg : config) : state :=
  {| operating_rooms := [];
     queues := replicate (n_classes cfg) [];
     utilization_frac := replicate (Z.to_nat (n_day_oprooms cfg + 1)) 0;
     results := [];
     n_oprooms := None |}.

(** [time % day_to_min > night_length * hour_to_min], the test of
    line 161 (on the current minute) and of line 181 (on an arrival
    time); it is the body of [is_day] in the earlier script.  The
    product is the exact one: for a [night_length] that is a [float]
    and not a whole number, Python compares with the product rounded
    to a [float], which can differ at the one minute next to it. *)
Definition is_day (cfg : config) (time : Z) : bool :=
  Qgt_bool (inject_Z (time mod day_to_min))
           (night_length cfg * inject_Z hour_to_min).

(** Lines 161 to 164. *)
Definition capacity_at (cfg : config) (time : Z) : Z :=
  if is_day cfg time then n_day_oprooms cfg else n_night_oprooms cfg.

Definition time_of_day (cfg : config) (arrival : Z) : string :=
  if is_day cfg arrival then "day"%string else "night"%string.

(** Lines 148 and 149. *)
Definition n_patients (cfg : config) (smp : sampler) (time : Z) : list nat :=
  imap (fun j x => poisson smp time j x.1.1) (distribution_parameters cfg).

(** Lines 152 to 154, one class. *)
Definition enqueue (time : Z) (counts : list nat)
    (qs : list (list Z)) (j : nat) : result (list (list Z)) :=
  n ← getitem counts j;
  if decide (n = 0%nat) then Ok qs
  else q ← getitem qs j; Ok (<[j := q ++ replicate n time]> qs).

(** Line 157. *)
Definition release (time : Z) (rooms : list Q) : list Q :=
  List.filter (fun x => negb (Qeq_bool x (inject_Z time))) rooms.

(** Lines 169 to 197: the body of the loop over classes, for class [j]
    at minute [time] with [n] rooms open. *)
Definition admit_class (cfg : config) (smp : sampler) (time n : Z)
    (st : state) (j : nat) : result state :=
  if Z.of_nat (length (operating_rooms st)) <? n then
    q ← getitem (queues st) j;
    match q with
    | [] => Ok st
    | head :: _ =>
        let wait_time := time - head in
        x ← getitem (distribution_parameters cfg) j;
        let surgery_time := lognormal smp time j x.1.2 x.2 in
        let results' :=
          if Qgt_bool (inject_Z head) (converge_time cfg) then
            results st ++
              [ {| o_class := j;
                   o_arrival := py_int (inject_Z head - converge_time cfg);
                   o_time_of_day := time_of_day cfg head;
                   o_wait_time := wait_time;
                   o_surgery_time := surgery_time |} ]
          else results st in
        q' ← py_remove head q;
        let out_time :=
          (inject_Z time + inject_Z surgery_time + cleaning_time cfg)%Q in
        Ok {| operating_rooms := operating_rooms st ++ [out_time];
              queues := <[j := q']> (queues st);
              utilization_frac := utilization_frac st;
              results := results';
              n_oprooms := n_oprooms st |}
    end
  else Ok st.

(** Lines 199 and 200. *)
Definition record_utilization (cfg : config) (time : Z) (st : state)
  : result state :=
  if Qgt_bool (inject_Z time) (converge_time cfg) then
    let i := length (operating_rooms st) in
    c ← getitem (utilization_frac st) i;
    Ok {| operating_rooms := operating_rooms st;
          queues := queues st;
          utilization_frac := <[i := c + 1]> (utilization_frac st);
          results := results st;
          n_oprooms := n_oprooms st |}
  else Ok st.

(** The state in which the loop over classes starts: arrivals are in
    the queues [qs], the rooms due at [time] are released (line 157) and
    [n_oprooms] is set (lines 161 to 164). *)
Definition open_minute (cfg : config) (time : Z) (st : state)
    (qs : list (list Z)) : state :=
  {| operating_rooms := release time (operating_rooms st);
     queues := qs;
     utilization_frac := utilization_frac st;
     results := results st;
     n_oprooms := Some (capacity_at cfg time) |}.

(** One minute: lines 147 to 200. *)
Definition tick (cfg : config) (smp : sampler) (st : state) (time : Z)
  : result state :=
  let classes := seq 0 (n_classes cfg) in
  qs ← foldM (enqueue time (n_patients cfg smp time)) (queues st) classes;
  st2 ← foldM (admit_class cfg smp time (capacity_at cfg time))
        (open_minute cfg time st qs) classes;
  record_utilization cfg time st2.

(** The number of minutes stepped through: the argument of [range] on
    line 146. *)
Definition total_ticks (cfg : config) : Z :=
  py_int (experiment_length cfg + converge_time cfg).

(** The state after the first [k] minutes. *)
Definition run_ticks (cfg : config) (smp : sampler) (k : nat) : result state :=
  foldM (tick cfg smp) (init_state cfg) (Z.of_nat <$> seq 0 k).

(** The whole loop of line 146. *)
Definition run (cfg : config) (smp : sampler) : result state :=
  foldM (tick cfg smp) (init_state cfg) (range (total_ticks cfg)).

(** One row of the utilization table, line 204: the label is built
    first, the quotient second. *)
Definition utilization_row (cfg : config) (st : state) (i : nat) (elem : Z)
  : result (string * Q) :=
  match n_oprooms st with
  | None => Raise UnboundLocalError
  | Some n =>
      let d := (experiment_length cfg - converge_time cfg)%Q in
      if Qeq_bool d 0 then Raise ZeroDivisionError
      else Ok ((pretty (Z.of_nat i) +:+ "/" +:+ pretty n)%string,
               (inject_Z elem / d)%Q)
  end.

Fixpoint utilization_rows (cfg : config) (st : state) (i : nat)
    (elems : list Z) : result (list (string * Q)) :=
  match elems with
  | [] => Ok []
  | elem :: rest =>
      r ← utilization_row cfg st i elem;
      rs ← utilization_rows cfg st (S i) rest;
      Ok (r :: rs)
  end.

(** Lines 202 to 205. *)
Definition utilization_results (cfg : config) (st : state)
  : result (list (string * Q)) :=
  utilization_rows cfg st 0 (utilization_frac st).

(** The simulation proper, once the arguments are checked. *)
Definition simulate (cfg : config) (smp : sampler)
  : result (list outcome * list (string * Q)) :=
  st ← run cfg smp;
  table ← utilization_results cfg st;
  Ok (results st, table).

(** ** The function on every number

    The definitions above are the code of [model_ors] for numbers that
    are finite.  [Full] is the same code for the numbers that pass the
    checks, NaN and infinity among them: [x > y] is false when [y] is
    NaN or infinite, [x != y] is true, a sum with NaN is NaN and a sum
    with infinity is infinite. *)
Module Full.

(** The arguments once they have passed the checks. *)
Record config : Type := {
  n_day_oprooms : Z;
  distribution_parameters : list (number * number * number);
  n_night_oprooms : Z;
  min_dayonly_class : pyval;
  night_length : number;
  converge_time : number;
  experiment_length : number;
  cleaning_time : number
}.

Record state : Type := {
  operating_rooms : list number;
  queues : list (list Z);
  utilization_frac : list Z;
  results : list outcome;
  n_oprooms : option Z
}.

Definition n_classes (cfg : config) : nat :=
  length (distribution_parameters cfg).

Definition init_state (cfg : config) : state :=
  {| operating_rooms := [];
     queues := replicate (n_classes cfg) [];
     utilization_frac := replicate (Z.to_nat (n_day_oprooms cfg + 1)) 0;
     results := [];
     n_oprooms := None |}.

(** [time % day_to_min > night_length * hour_to_min]: the product of
    NaN is NaN and that of infinity is infinite. *)
Definition is_day (cfg : config) (time : Z) : bool :=
  match night_length cfg with
  | Fin q =>
      Qgt_bool (inject_Z (time mod day_to_min)) (q * inject_Z hour_to_min)
  | _ => false
  end.

Definition capacity_at (cfg : config) (time : Z) : Z :=
  if is_day cfg time then n_day_oprooms cfg else n_night_oprooms cfg.

Definition time_of_day (cfg : config) (arrival : Z) : string :=
  if is_day cfg arrival then "day"%string else "night"%string.

(** [numpy.random.poisson(lam)]. *)
Definition draw_arrivals (smp : sampler) (time : Z) (j : nat) (lam : number)
  : result nat :=
  match lam with
  | Fin q => Ok (poisson smp time j q)
  | _ => poisson_special smp time j lam
  end.

(** Lines 148 and 149, from class [j] on. *)
Fixpoint n_patients_from (smp : sampler) (time : Z) (j : nat)
    (params : list (number * number * number)) : result (list nat) :=
  match params with
  | [] => Ok []
  | x :: rest =>
      n ← draw_arrivals smp time j x.1.1;
      ns ← n_patients_from smp time (S j) rest;
      Ok (n :: ns)
  end.

Definition n_patients (cfg : config) (smp : sampler) (time : Z)
  : result (list nat) :=
  n_patients_from smp time 0 (distribution_parameters cfg).

(** Line 157. *)
Definition release (time : Z) (rooms : list number) : list number :=
  List.filter
    (fun x => match x with
              | Fin q => negb (Qeq_bool q (inject_Z time))
              | _ => true
              end)
    rooms.

(** [int(round(numpy.random.lognormal(mu, sigma)))], lines 176
    and 177. *)
Definition draw_surgery (smp : sampler) (time : Z) (j : nat)
    (mu sigma : number) : result Z :=
  match mu, sigma with
  | Fin m, Fin s => Ok (lognormal smp time j m s)
  | _, _ =>
      int_of_number (round_number (lognormal_special smp time j mu sigma))
  end.

(** [time + surgery_time + cleaning_time], line 193. *)
Definition out_time (time surgery_time : Z) (cleaning : number) : number :=
  match cleaning with
  | Fin q => Fin (inject_Z time + inject_Z surgery_time + q)%Q
  | _ => cleaning
  end.

(** Lines 169 to 197.  [w] is [converge_time], finite once line 146
    has run. *)
Definition admit_class (cfg : config) (w : Q) (smp : sampler) (time n : Z)
    (st : state) (j : nat) : result state :=
  if Z.of_nat (length (operating_rooms st)) <? n then
    q ← getitem (queues st) j;
    match q with
    | [] => Ok st
    | head :: _ =>
        let wait_time := time - head in
        x ← getitem (distribution_parameters cfg) j;
        surgery_time ← draw_surgery smp time j x.1.2 x.2;
        let results' :=
          if Qgt_bool (inject_Z head) w then
            results st ++
              [ {| o_class := j;
                   o_arrival := py_int (inject_Z head - w);
                   o_time_of_day := time_of_day cfg head;
                   o_wait_time := wait_time;
                   o_surgery_time := surgery_time |} ]
          else results st in
        q' ← py_remove head q;
        Ok {| operating_rooms :=
                operating_rooms st
                ++ [out_time time surgery_time (cleaning_time cfg)];
              queues := <[j := q']> (queues st);
              utilization_frac := utilization_frac st;
              results := results';
              n_oprooms := n_oprooms st |}
    end
  else Ok st.

(** Lines 199 and 200. *)
Definition record_utilization (w : Q) (time : Z) (st : state)
  : result state :=
  if Qgt_bool (inject_Z time) w then
    let i := length (operating_rooms st) in
    c ← getitem (utilization_frac st) i;
    Ok {| operating_rooms := operating_rooms st;
          queues := queues st;
          utilization_frac := <[i := c + 1]> (utilization_frac st);
          results := results st;
          n_oprooms := n_oprooms st |}
  else Ok st.

Definition open_minute (cfg : config) (time : Z) (st : state)
    (qs : list (list Z)) : state :=
  {| operating_rooms := release time (operating_rooms st);
     queues := qs;
     utilization_frac := utilization_frac st;
     results := results st;
     n_oprooms := Some (capacity_at cfg time) |}.

(** One minute: lines 147 to 200. *)
Definition tick (cfg : config) (w : Q) (smp : sampler) (st : state)
    (time : Z) : result state :=
  let classes := seq 0 (n_classes cfg) in
  counts ← n_patients cfg smp time;
  qs ← foldM (enqueue time counts) (queues st) classes;
  st2 ← foldM (admit_class cfg w smp time (capacity_at cfg time))
        (open_minute cfg time st qs) classes;
  record_utilization w time st2.

(** Line 204, with the finite lengths [e] and [w]. *)
Definition utilization_row (e w : Q) (st : state) (i : nat) (elem : Z)
  : result (string * Q) :=
  match n_oprooms st with
  | None => Raise UnboundLocalError
  | Some n =>
      let d := (e - w)%Q in
      if Qeq_bool d 0 then Raise ZeroDivisionError
      else Ok ((pretty (Z.of_nat i) +:+ "/" +:+ pretty n)%string,
               (inject_Z elem / d)%Q)
  end.

Fixpoint utilization_rows (e w : Q) (st : state) (i : nat)
    (elems : list Z) : result (list (string * Q)) :=
  match elems with
  | [] => Ok []
  | elem :: rest =>
      r ← utilization_row e w st i elem;
      rs ← utilization_rows e w st (S i) rest;
      Ok (r :: rs)
  end.

(** Lines 137 to 207.  Line 146 takes [int] of the sum of the two
    lengths: the sum is NaN when one of them is, and [int] then raises
    [ValueError]; it is infinite when one of them is and none is NaN,
    and [int] then raises [OverflowError].  So the loop runs with
    finite lengths only. *)
Definition simulate (cfg : config) (smp : sampler)
  : result (list outcome * list (string * Q)) :=
  let st0 := init_state cfg in
  match experiment_length cfg, converge_time cfg with
  | Fin e, Fin w =>
      st ← foldM (tick cfg w smp) st0 (range (py_int (e + w)));
      table ← utilization_rows e w st 0 (utilization_frac st);
      Ok (results st, table)
  | NaN, _ | _, NaN => Raise ValueError
  | _, _ => Raise OverflowError
  end.

End Full.

(** ** The whole function *)

(** Lines 76 to 131 of [model_ors]. *)
Definition typecheck (a : args) : result Full.config :=
  let n_night :=
    match arg_n_night_oprooms a with
    | PyNone => arg_n_day_oprooms a
    | v => v
    end in
  n_day ← check_n_day_oprooms (arg_n_day_oprooms a);
  dist ← check_distribution_parameters (arg_distribution_parameters a);
  n_night' ← check_n_night_oprooms n_day n_night;
  nl ← check_number (arg_night_length a);
  ct ← check_number (arg_converge_time a);
  el ← check_number (arg_experiment_length a);
  cl ← check_number (arg_cleaning_time a);
  Ok {| Full.n_day_oprooms := n_day;
        Full.distribution_parameters := dist;
        Full.n_night_oprooms := n_night';
        Full.min_dayonly_class := arg_min_dayonly_class a;
        Full.night_length := nl;
        Full.converge_time := ct;
        Full.experiment_length := el;
        Full.cleaning_time := cl |}.

Definition model_ors (a : args) (smp : sampler)
  : result (list outcome * list (string * Q)) :=
  cfg ← typecheck a;
  Full.simulate cfg smp.

(** A configuration of finite numbers among the checked arguments. *)
Definition embed (cfg : config) : Full.config :=
  {| Full.n_day_oprooms := n_day_oprooms cfg;
     Full.distribution_parameters :=
       (fun x => (Fin x.1.1, Fin x.1.2, Fin x.2))
         <$> distribution_parameters cfg;
     Full.n_night_oprooms := n_night_oprooms cfg;
     Full.min_dayonly_class := min_dayonly_class cfg;
     Full.night_length := Fin (night_length cfg);
     Full.converge_time := Fin (converge_time cfg);
     Full.experiment_length := Fin (experiment_length cfg);
     Full.cleaning_time := Fin (cleaning_time cfg) |}.

(** A state of the loop of finite numbers among the states of
    [Full]. *)
Definition embed_state (st : state) : Full.state :=
  {| Full.operating_rooms := Fin <$> operating_rooms st;
     Full.queues := queues st;
     Full.utilization_frac := utilization_frac st;
     Full.results := results st;
     Full.n_oprooms := n_oprooms st |}.


(** ** The admission step, written out *)

(** What [admit_class] does to a state whose class [j] has queue [q]. *)
Definition admitted (cfg : config) (smp : sampler) (time : Z)
    (st : state) (j : nat) (head : Z) (rest : list Z) (x : Q * Q * Q)
  : state :=
  let surgery_time := lognormal smp time j x.1.2 x.2 in
  {| operating_rooms :=
       operating_rooms st ++
         [(inject_Z time + inject_Z surgery_time + cleaning_time cfg)%Q];
     queues := <[j := rest]> (queues st);
     utilization_frac := utilization_frac st;
     results :=
       if Qgt_bool (inject_Z head) (converge_time cfg) then
         results st ++
           [ {| o_class := j;
                o_arrival := py_int (inject_Z head - converge_time cfg);
                o_time_of_day := time_of_day cfg head;
                o_wait_time := time - head;
                o_surgery_time := surgery_time |} ]
       else results st;
     n_oprooms := n_oprooms st |}.

(** The three cases of one class's turn. *)
Inductive admit_case (cfg : config) (smp : sampler) (time n : Z)
    (st : state) (j : nat) : state -> Prop :=
  | admit_none_full :
      Z.of_nat (length (operating_rooms st)) >= n ->
      admit_case cfg smp time n st j st
  | admit_none_empty :
      Z.of_nat (length (operating_rooms st)) < n ->
      queues st !! j = Some [] ->
      admit_case cfg smp time n st j st
  | admit_one head rest x :
      Z.of_nat (length (operating_rooms st)) < n ->
      queues st !! j = Some (head :: rest) ->
      distribution_parameters cfg !! j = Some x ->
      admit_case cfg smp time n st j (admitted cfg smp time st j head rest x).

(** ** Well-formed states and valid configurations *)

(** The range constraint on the two capacities, as lines 89 to 115
    leave it. *)
Definition valid (cfg : config) : Prop :=
  0 <= n_night_oprooms cfg <= n_day_oprooms cfg.

Definition occupied (st : state) : Z := Z.of_nat (length (operating_rooms st)).

Record wf (cfg : config) (st : state) : Prop := {
  wf_queues : length (queues st) = n_classes cfg;
  wf_hist : length (utilization_frac st) = Z.to_nat (n_day_oprooms cfg + 1);
  wf_rooms : occupied st <= n_day_oprooms cfg
}.


(** ** Concrete configurations *)

(** The keyword defaults of the signature of [model_ors]. *)
Definition default_args (n_day : Z) (dist : list pyval) : args :=
  {| arg_n_day_oprooms := PyInt n_day;
     arg_distribution_parameters := PyTuple dist;
     arg_n_night_oprooms := PyNone;
     arg_min_dayonly_class := PyInt 3;
     arg_night_length := PyInt 8;
     arg_converge_time := PyFloat 100000;
     arg_experiment_length := PyFloat 2000000;
     arg_cleaning_time := PyInt 60 |}.

(** A class whose three parameters are zero. *)
Definition zero_class : Q * Q * Q := (0%Q, 0%Q, 0%Q).

(** A checked configuration with [k] classes, no warm-up and no
    cleaning time. *)
Definition small_config (n_day n_night : Z) (k : nat) (night_hours : Z)
    (length_ : Z) : config :=
  {| n_day_oprooms := n_day;
     distribution_parameters := replicate k zero_class;
     n_night_oprooms := n_night;
     min_dayonly_class := PyInt 3;
     night_length := inject_Z night_hours;
     converge_time := 0;
     experiment_length := inject_Z length_;
     cleaning_time := 0 |}.

(** Arguments that the checks turn into [small_config]. *)
Definition small_args (n_day n_night : Z) (k : nat) (night_hours : Z)
    (length_ : Z) : args :=
  {| arg_n_day_oprooms := PyInt n_day;
     arg_distribution_parameters :=
       PyList (replicate k (PyTuple [PyInt 0; PyInt 0; PyInt 0]));
     arg_n_night_oprooms := PyInt n_night;
     arg_min_dayonly_class := PyInt 3;
     arg_night_length := PyInt night_hours;
     arg_converge_time := PyInt 0;
     arg_experiment_length := PyInt length_;
     arg_cleaning_time := PyInt 0 |}.

(** A random source that delivers one patient of class [j] at each
    minute listed in [arrivals] as [(minute, j)], and makes every
    surgery last [surgery] minutes.  On parameters that are not finite
    it answers as numpy 1.x does: no arrival for a rate that is NaN
    and [ValueError] for an infinite one; a NaN draw when [mu] or
    [sigma] is NaN and an infinite one otherwise. *)
Definition scripted (arrivals : list (Z * nat)) (surgery : Z) : sampler :=
  {| poisson := fun time j _ =>
       length (List.filter (fun a => (a.1 =? time) && Nat.eqb a.2 j) arrivals);
     lognormal := fun _ _ _ _ => surgery;
     poisson_special := fun _ _ lam =>
       match lam with
       | NaN => Ok 0%nat
       | _ => Raise ValueError
       end;
     lognormal_special := fun _ _ mu sigma =>
       match mu, sigma with
       | NaN, _ | _, NaN => NaN
       | _, _ => Inf
       end |}.

(** Two patients of one class arrive on the last two minutes of the
    first day and stay ten minutes each; two rooms by day, one by
    night. *)
Definition evening_config : config := small_config 2 1 1 8 1441.
Definition evening_sampler : sampler :=
  scripted [(1438, 0%nat); (1439, 0%nat)] 10.

(** One room, one class, no warm-up and no cleaning time, twelve
    minutes; one patient arrives at minute 0, where the warm-up ends,
    and one at minute 1; every surgery lasts ten minutes. *)
Definition threshold_args : args :=
  {| arg_n_day_oprooms := PyInt 1;
     arg_distribution_parameters :=
       PyTuple [PyTuple [PyFloat (1 # 1000); PyInt 5; PyInt 1]];
     arg_n_night_oprooms := PyNone;
     arg_min_dayonly_class := PyInt 3;
     arg_night_length := PyInt 8;
     arg_converge_time := PyInt 0;
     arg_experiment_length := PyInt 12;
     arg_cleaning_time := PyInt 0 |}.

Definition threshold_config : config :=
  {| n_day_oprooms := 1;
     distribution_parameters := [(1 # 1000, inject_Z 5, inject_Z 1)];
     n_night_oprooms := 1;
     min_dayonly_class := PyInt 3;
     night_length := inject_Z 8;
     converge_time := inject_Z 0;
     experiment_length := inject_Z 12;
     cleaning_time := inject_Z 0 |}.

Definition threshold_sampler : sampler :=
  scripted [(0, 0%nat); (1, 0%nat)] 10.

(** ** Vocabulary of the statements *)

(** Class [j] has a patient waiting in [qs]. *)
Definition waiting (qs : list (list Z)) (j : nat) : bool :=
  match qs !! j with
  | Some (_ :: _) => true
  | _ => false
  end.

(** The classes of [l] with a patient waiting, in the order of [l]. *)
Definition waiting_classes (qs : list (list Z)) (l : list nat) : list nat :=
  filter (fun j => waiting qs j = true) l.

(** The admission rule in the words of the specification: the classes
    served in one minute that starts in state [st] with [n] rooms open
    are as many of the waiting classes, lowest ordinal first, as there
    are free rooms. *)
Definition spec_served (n : Z) (st : state) (l : list nat) : list nat :=
  take (Z.to_nat (n - occupied st)) (waiting_classes (queues st) l).

(** Three classes: one patient of class 0, none of class 1 and two of
    class 2 wait, all arrived at minute 0; no room is occupied. *)
Definition waiting_room : state :=
  {| operating_rooms := [];
     queues := [[0]; []; [0; 0]];
     utilization_frac := [0; 0; 0];
     results := [];
     n_oprooms := None |}.

(** One patient who arrived at minute 480 waits; no room is occupied. *)
Definition late_arrival : state :=
  {| operating_rooms := [];
     queues := [[480]];
     utilization_frac := [0; 0];
     results := [];
     n_oprooms := None |}.

(** The queue operation of the specification: the head is taken by
    position, and an empty queue gives nothing. *)
Definition spec_pop_head (q : list Z) : option (Z * list Z) :=
  match q with
  | [] => None
  | head :: rest => Some (head, rest)
  end.

(** A queue as the run keeps it: non-decreasing, with arrival times
    below [bound]. *)
Definition queue_ok (bound : Z) (q : list Z) : Prop :=
  StronglySorted Z.le q /\ Forall (fun a => a < bound) q.

(** ** Conforming arguments, in the words of the specification *)

(** An integer. *)
Definition spec_integer (v : pyval) : option Z :=
  match v with
  | PyInt z | PyLong z => Some z
  | _ => None
  end.

(** A non-negative number: a number [x] with [0 <= x], which NaN is
    not. *)
Definition spec_nonneg_number (v : pyval) : bool :=
  match v with
  | PyInt z | PyLong z => 0 <=? z
  | PyFloat q => Qle_bool 0 q
  | PyInf negative => negb negative
  | _ => false
  end.

(** A triple (arrival rate, service mu, service sigma), each component
    non-negative. *)
Definition spec_triple (v : pyval) : bool :=
  match v with
  | PyList items | PyTuple items =>
      Nat.eqb (length items) 3 && forallb spec_nonneg_number items
  | _ => false
  end.

(** An ordered sequence of triples, one per class. *)
Definition spec_distribution_parameters (v : pyval) : bool :=
  match v with
  | PyList elems | PyTuple elems => forallb spec_triple elems
  | _ => false
  end.

(** [day_capacity] is a positive integer; [night_capacity] is an
    integer between 0 and [day_capacity], or is left out. *)
Definition spec_capacities (day night : pyval) : bool :=
  match spec_integer day with
  | Some d =>
      (0 <? d) &&
      match night with
      | PyNone => true
      | _ =>
          match spec_integer night with
          | Some n => (0 <=? n) && (n <=? d)
          | None => false
          end
      end
  | None => false
  end.

(** [min_dayonly_class] is an ordinal threshold: an integer. *)
Definition spec_threshold (v : pyval) : bool :=
  match spec_integer v with
  | Some _ => true
  | None => false
  end.

(** The inputs as the interface section constrains them. *)
Definition spec_conforming (a : args) : bool :=
  spec_capacities (arg_n_day_oprooms a) (arg_n_night_oprooms a) &&
  spec_distribution_parameters (arg_distribution_parameters a) &&
  spec_nonneg_number (arg_night_length a) &&
  spec_nonneg_number (arg_converge_time a) &&
  spec_nonneg_number (arg_experiment_length a) &&
  spec_nonneg_number (arg_cleaning_time a) &&
  spec_threshold (arg_min_dayonly_class a).

(** ** The arguments that the checks accept *)

(** A number that is not negative: an [int], a [long] or a [float]
    [x] of which [x < 0] is false.  NaN is one. *)
Definition accepted_number (v : pyval) : bool :=
  match v with
  | PyInt z | PyLong z => negb (z <? 0)
  | PyFloat q => negb (Qgt_bool 0 q)
  | PyNaN => true
  | PyInf negative => negb negative
  | _ => false
  end.

Definition accepted_triple (v : pyval) : bool :=
  match v with
  | PyList items | PyTuple items =>
      Nat.eqb (length items) 3 && forallb accepted_number items
  | _ => false
  end.

Definition accepted_distribution_parameters (v : pyval) : bool :=
  match v with
  | PyList elems | PyTuple elems => forallb accepted_triple elems
  | _ => false
  end.

(** The capacities are of type [int], not [long]. *)
Definition accepted_capacities (day night : pyval) : bool :=
  match day with
  | PyInt d =>
      (0 <? d) &&
      match night with
      | PyNone => true
      | PyInt n => (0 <=? n) && (n <=? d)
      | _ => false
      end
  | _ => false
  end.

(** What lines 87 to 131 ask: nothing of [min_dayonly_class]. *)
Definition accepted (a : args) : bool :=
  accepted_capacities (arg_n_day_oprooms a) (arg_n_night_oprooms a) &&
  accepted_distribution_parameters (arg_distribution_parameters a) &&
  accepted_number (arg_night_length a) &&
  accepted_number (arg_converge_time a) &&
  accepted_number (arg_experiment_length a) &&
  accepted_number (arg_cleaning_time a).

(** A value of the type that the checks ask of a number. *)
Definition typed_number (v : pyval) : bool :=
  match v with
  | PyInt _ | PyLong _ | PyFloat _ | PyNaN | PyInf _ => true
  | _ => false
  end.

Definition typed_elems (v : pyval) : bool :=
  match v with
  | PyList elems | PyTuple elems =>
      forallb (fun elem =>
                 match elem with
                 | PyList items | PyTuple items =>
                     match items with
                     | [a; b; c] =>
                         typed_number a && typed_number b && typed_number c
                     | _ => true
                     end
                 | _ => false
                 end) elems
  | _ => false
  end.

(** Capacities of type [int], the second one left out or not. *)
Definition int_capacities (a : args) : bool :=
  match arg_n_day_oprooms a, arg_n_night_oprooms a with
  | PyInt _, (PyInt _ | PyNone) => true
  | _, _ => false
  end.

(** Arguments of the types that the checks ask for. *)
Definition well_typed (a : args) : bool :=
  int_capacities a &&
  typed_elems (arg_distribution_parameters a) &&
  typed_number (arg_night_length a) &&
  typed_number (arg_converge_time a) &&
  typed_number (arg_experiment_length a) &&
  typed_number (arg_cleaning_time a).

(** Capacities neither of which is a [long]. *)
Definition no_long_capacity (a : args) : bool :=
  match arg_n_day_oprooms a, arg_n_night_oprooms a with
  | PyLong _, _ | _, PyLong _ => false
  | _, _ => true
  end.

(** A value that is neither NaN nor infinite. *)
Definition finite_number (v : pyval) : bool :=
  match v with
  | PyNaN | PyInf _ => false
  | _ => true
  end.

Definition finite_elems (v : pyval) : bool :=
  match v with
  | PyList elems | PyTuple elems =>
      forallb (fun elem =>
                 match elem with
                 | PyList items | PyTuple items => forallb finite_number items
                 | _ => true
                 end) elems
  | _ => true
  end.

(** Arguments none of whose numbers is NaN or infinite. *)
Definition finite_args (a : args) : bool :=
  finite_elems (arg_distribution_parameters a) &&
  finite_number (arg_night_length a) &&
  finite_number (arg_converge_time a) &&
  finite_number (arg_experiment_length a) &&
  finite_number (arg_cleaning_time a).

Definition is_ok {A} (m : result A) : bool :=
  match m with
  | Ok _ => true
  | Raise _ => false
  end.

(** A computation that raises nothing but [TypeError] or
    [ValueError]. *)
Definition config_only {A} (m : result A) : Prop :=
  match m with
  | Ok _ => True
  | Raise e => is_config_error e = true
  end.

Definition set_min_dayonly_class (v : pyval) (a : args) : args :=
  {| arg_n_day_oprooms := arg_n_day_oprooms a;
     arg_distribution_parameters := arg_distribution_parameters a;
     arg_n_night_oprooms := arg_n_night_oprooms a;
     arg_min_dayonly_class := v;
     arg_night_length := arg_night_length a;
     arg_converge_time := arg_converge_time a;
     arg_experiment_length := arg_experiment_length a;
     arg_cleaning_time := arg_cleaning_time a |}.

(** Arguments that conform, and arguments whose third class has a
    negative sigma. *)
Definition good_args : args :=
  default_args 2 [PyTuple [PyFloat (1 # 10); PyInt 5; PyFloat (1 # 2)]].
Definition bad_args : args :=
  default_args 2 [PyTuple [PyInt 0; PyInt 5; PyInt 1];
                  PyList [PyInt 0; PyInt 5; PyInt 1];
                  PyTuple [PyInt 0; PyInt 5; PyFloat (-1 # 2)]].

(** Two rooms by day and one by night, the other arguments at their
    defaults: the night lasts eight hours. *)
Definition boundary_args : args :=
  {| arg_n_day_oprooms := PyInt 2;
     arg_distribution_parameters := PyTuple [];
     arg_n_night_oprooms := PyInt 1;
     arg_min_dayonly_class := PyInt 3;
     arg_night_length := PyInt 8;
     arg_converge_time := PyFloat 100000;
     arg_experiment_length := PyFloat 2000000;
     arg_cleaning_time := PyInt 60 |}.

(** Four classes, one room, the defaults otherwise: class 3 is the
    lowest day-only class.  One patient of class 3 arrives at
    minute 0. *)
Definition dayonly_args : args :=
  default_args 1 (replicate 4 (PyTuple [PyFloat (1 # 1000); PyInt 5; PyInt 1])).
Definition dayonly_sampler : sampler := scripted [(0, 3%nat)] 10.

(** ** The earlier script

    [code/or_wait_times.py] writes the same loop unrolled over six
    named queues; its test for the classes from [urgent2] on carries
    [is_day(time)]. *)
Module Script.

(** The two global names that [is_day] reads, as the module binds
    them: [None] is a name that is not bound. *)
Record globals : Type := {
  g_day_to_min : option Z;
  g_hour_to_min : option Z
}.

(** The script binds neither: [day_to_min] and [hour_to_min] are
    assigned on lines 91 and 92, inside [model_ors], whose locals they
    are; no statement of the module assigns them. *)
Definition module_globals : globals :=
  {| g_day_to_min := None; g_hour_to_min := None |}.

(** Reading a global name raises [NameError] when it is not bound. *)
Definition read (v : option Z) : result Z :=
  match v with
  | Some z => Ok z
  | None => Raise NameError
  end.

(** [is_day(time, night_hours=8)], lines 178 to 186:
    [time % day_to_min > night_hours * hour_to_min]. *)
Definition is_day (g : globals) (time night_hours : Z) : result bool :=
  d ← read (g_day_to_min g);
  if d =? 0 then Raise ZeroDivisionError
  else
    h ← read (g_hour_to_min g);
    Ok (night_hours * h <? time mod d).

(** A Python value that is a [bool] or an [int], as the operands of
    the test are. *)
Inductive intlike : Set :=
  | B (b : bool)
  | I (z : Z).

Definition truthy (v : intlike) : bool :=
  match v with
  | B b => b
  | I z => negb (z =? 0)
  end.

Definition to_Z (v : intlike) : Z :=
  match v with
  | B true => 1
  | B false => 0
  | I z => z
  end.

(** [x and y]: the first operand when it is false, else the second. *)
Definition py_and (x y : intlike) : intlike :=
  if truthy x then y else x.

(** The test of lines 286 and 287:
    [(len(operating_rooms) < n_oprooms and len(urgent2_queue) and
      is_day(time)) > 0]; [is_day] is called only when the two
    operands before it are true. *)
Definition dayonly_test (g : globals) (occupied n_oprooms : Z)
    (queue : list Z) (time : Z) : result bool :=
  let ab := py_and (B (occupied <? n_oprooms))
                   (I (Z.of_nat (length queue))) in
  if truthy ab then
    d ← is_day g time 8;
    Ok (to_Z (B d) >? 0)
  else Ok (to_Z ab >? 0).

(** The test of lines 241 and 270, for [emergent] and [urgent1]. *)
Definition anytime_test (occupied n_oprooms : Z) (queue : list Z) : bool :=
  truthy (py_and (B (occupied <? n_oprooms))
                 (B (0 <? Z.of_nat (length queue)))).

End Script.

(** The sum of the buckets of a histogram. *)
Definition total (hist : list Z) : Z := foldr Z.add 0 hist.

(** The minutes among the first [k] at which line 199 lets the
    histogram be updated. *)
Definition sampled_minutes (cfg : config) (k : nat) : list Z :=
  filter (fun t => Qgt_bool (inject_Z t) (converge_time cfg) = true)
         (Z.of_nat <$> seq 0 k).

(** No class, one room, integer warm-up [w] and experiment length [e]. *)
Definition idle_config (w e : Z) : config :=
  {| n_day_oprooms := 1;
     distribution_parameters := [];
     n_night_oprooms := 1;
     min_dayonly_class := PyInt 3;
     night_length := 8;
     converge_time := inject_Z w;
     experiment_length := inject_Z e;
     cleaning_time := 60 |}.

Definition idle_args (w e : Z) : args :=
  {| arg_n_day_oprooms := PyInt 1;
     arg_distribution_parameters := PyTuple [];
     arg_n_night_oprooms := PyNone;
     arg_min_dayonly_class := PyInt 3;
     arg_night_length := PyInt 8;
     arg_converge_time := PyInt w;
     arg_experiment_length := PyInt e;
     arg_cleaning_time := PyInt 60 |}.

Definition no_arrivals : sampler := scripted [] 0.

(** [idle_args 2 3] with one room given as a [long], with a warm-up
    that is NaN, and with a [min_dayonly_class] that is a string. *)
Definition long_args : args :=
  {| arg_n_day_oprooms := PyLong 1;
     arg_distribution_parameters := PyTuple [];
     arg_n_night_oprooms := PyNone;
     arg_min_dayonly_class := PyInt 3;
     arg_night_length := PyInt 8;
     arg_converge_time := PyInt 2;
     arg_experiment_length := PyInt 3;
     arg_cleaning_time := PyInt 60 |}.

Definition nan_args : args :=
  {| arg_n_day_oprooms := PyInt 1;
     arg_distribution_parameters := PyTuple [];
     arg_n_night_oprooms := PyNone;
     arg_min_dayonly_class := PyInt 3;
     arg_night_length := PyInt 8;
     arg_converge_time := PyNaN;
     arg_experiment_length := PyInt 3;
     arg_cleaning_time := PyInt 60 |}.

Definition string_threshold_args : args :=
  set_min_dayonly_class (PyStr "three") (idle_args 2 3).

(** One class whose [mu] is NaN, one room, five minutes: a patient
    arrives at minute 2. *)
Definition nan_mu_args : args :=
  {| arg_n_day_oprooms := PyInt 1;
     arg_distribution_parameters :=
       PyTuple [PyTuple [PyFloat (1 # 1000); PyNaN; PyInt 1]];
     arg_n_night_oprooms := PyNone;
     arg_min_dayonly_class := PyInt 3;
     arg_night_length := PyInt 8;
     arg_converge_time := PyInt 0;
     arg_experiment_length := PyInt 5;
     arg_cleaning_time := PyInt 60 |}.


(** ** Vocabulary of the further properties *)

(** The number of occupied rooms at the end of minute [t]. *)
Definition occupancy_at (cfg : config) (smp : sampler) (t : Z) : option nat :=
  match run_ticks cfg smp (S (Z.to_nat t)) with
  | Ok st => Some (length (operating_rooms st))
  | Raise _ => None
  end.

(** The minutes, among the first [k], that the histogram counts in
    bucket [i]. *)
Definition minutes_at_level (cfg : config) (smp : sampler) (k i : nat)
  : list Z :=
  filter (fun t => occupancy_at cfg smp t = Some i) (sampled_minutes cfg k).

(** The rate handed to [numpy.random.poisson] for class [j]. *)
Definition arrival_rate (cfg : config) (j : nat) : Q :=
  match distribution_parameters cfg !! j with
  | Some x => x.1.1
  | None => 0%Q
  end.

(** The arrival times of the patients of class [j] over the first [k]
    minutes, in the order in which line 154 appends them. *)
Fixpoint arrival_stream (cfg : config) (smp : sampler) (j k : nat) : list Z :=
  match k with
  | O => []
  | S k' =>
      arrival_stream cfg smp j k' ++
      replicate (poisson smp (Z.of_nat k') j (arrival_rate cfg j))
                (Z.of_nat k')
  end.

(** A random source that never delivers a patient. *)
Definition silent (smp : sampler) : Prop :=
  forall time j lam, poisson smp time j lam = 0%nat.

(** One class and one room; two patients arrive at minute 0 and one at
    minute 1, and every surgery takes nine minutes. *)
Definition one_room : config := small_config 1 1 1 8 5.
Definition crowded : sampler :=
  scripted [(0, 0%nat); (0, 0%nat); (1, 0%nat)] 9.

(** The minute at which the patient of a row entered surgery, when the
    warm-up is [w] minutes: arrival and wait added up. *)
Definition admission_minute (w : Z) (r : outcome) : Z :=
  o_arrival r + w + o_wait_time r.

(** A row that the first [k] minutes can have produced. *)
Definition row_ok (cfg : config) (smp : sampler) (w k : Z) (r : outcome)
  : Prop :=
  (o_class r < n_classes cfg)%nat /\
  0 <= o_wait_time r /\
  1 <= o_arrival r /\
  admission_minute w r < k /\
  o_time_of_day r = time_of_day cfg (o_arrival r + w) /\
  exists x,
    distribution_parameters cfg !! o_class r = Some x /\
    o_surgery_time r
    = lognormal smp (admission_minute w r) (o_class r) x.1.2 x.2.

(** The order of the rows: by minute of admission, within a minute by
    class; and rows of one class by arrival. *)
Definition row_before (w : Z) (r1 r2 : outcome) : Prop :=
  (admission_minute w r1 < admission_minute w r2 \/
   (admission_minute w r1 = admission_minute w r2 /\
    (o_class r1 < o_class r2)%nat)) /\
  (o_class r1 = o_class r2 -> o_arrival r1 <= o_arrival r2).

(** What the loop over classes keeps, at class [j] of minute [time]. *)
Record rows_inv (cfg : config) (smp : sampler) (w time : Z) (j : nat)
    (s : state) : Prop := {
  ri_len : length (queues s) = n_classes cfg;
  ri_queues : Forall (queue_ok (time + 1)) (queues s);
  ri_rows : Forall (row_ok cfg smp w (time + 1)) (results s);
  ri_turn : Forall (fun r => admission_minute w r = time ->
                             (o_class r < j)%nat) (results s);
  ri_sorted : StronglySorted (row_before w) (results s);
  ri_behind : forall r q a,
      r ∈ results s -> queues s !! o_class r = Some q -> a ∈ q ->
      o_arrival r + w <= a
}.

(** The table that line 204 builds from a histogram, when [n] is the
    last value of [n_oprooms] and [d] the divisor. *)
Definition table_of (n : Z) (d : Q) (hist : list Z) : list (string * Q) :=
  imap (fun i elem =>
          ((pretty (Z.of_nat i) +:+ "/" +:+ pretty n)%string,
           (inject_Z elem / d)%Q))
       hist.

(** ** The command line of [or_wait_times.py] *)

(** Lines 221 to 226. *)
Definition DISTRIBUTION_PARAMETERS : pyval :=
  PyTuple
    [ PyTuple [PyFloat (1607686 # 1000000000); PyFloat (500716 # 100000);
               PyFloat (583642 # 1000000)];
      PyTuple [PyFloat (3232496 # 1000000000); PyFloat (496477 # 100000);
               PyFloat (677607 # 1000000)];
      PyTuple [PyFloat (2665525 # 1000000000); PyFloat (505842 # 100000);
               PyFloat (651279 # 1000000)];
      PyTuple [PyFloat (334855 # 1000000000); PyFloat (500069 # 100000);
               PyFloat (570812 # 1000000)];
      PyTuple [PyFloat 0; PyFloat (495519 # 100000);
               PyFloat (665382 # 1000000)];
      PyTuple [PyFloat (1288052 # 1000000000); PyFloat (501655 # 100000);
               PyFloat (713405 # 1000000)] ].

(** The call of lines 228 and 229:
    [model_ors(N_DAY_OPROOMS, DISTRIBUTION_PARAMETERS,
               experiment_length=2e5)]. *)
Definition main_args (N_DAY_OPROOMS : pyval) : args :=
  {| arg_n_day_oprooms := N_DAY_OPROOMS;
     arg_distribution_parameters := DISTRIBUTION_PARAMETERS;
     arg_n_night_oprooms := PyNone;
     arg_min_dayonly_class := PyInt 3;
     arg_night_length := PyInt 8;
     arg_converge_time := PyFloat 100000;
     arg_experiment_length := PyFloat 200000;
     arg_cleaning_time := PyInt 60 |}.

(** How the program ends: the usage message and exit status 1, an
    exception, or the rows on the standard output and the table on the
    standard error. *)
Inductive main_outcome : Type :=
  | Usage
  | Exception (e : exn)
  | Printed (RESULTS : list outcome) (UTILIZATION_RESULTS : list (string * Q)).

(** Lines 209 to 239. [int] is the builtin applied to [sys.argv[1]]:
    it raises, or gives an [int], or a [long] for a numeral beyond
    [sys.maxint]. *)
Definition main (int : string -> result pyval) (argv : list string)
    (smp : sampler) : main_outcome :=
  match argv with
  | [_; s] =>
      match int s with
      | Raise e => Exception e
      | Ok N_DAY_OPROOMS =>
          match model_ors (main_args N_DAY_OPROOMS) smp with
          | Raise e => Exception e
          | Ok (RESULTS, UTILIZATION_RESULTS) =>
              Printed RESULTS UTILIZATION_RESULTS
          end
      end
  | _ => Usage
  end.

(** The sum of the fractions of a table. *)
Definition sum_fractions (table : list (string * Q)) : Q :=
  foldr Qplus 0%Q (snd <$> table).

(** The configuration that the checks make of [main_args (PyInt n)]. *)
Definition main_config (n : Z) : config :=
  {| n_day_oprooms := n;
     distribution_parameters :=
       [ (1607686 # 1000000000, 500716 # 100000, 583642 # 1000000);
         (3232496 # 1000000000, 496477 # 100000, 677607 # 1000000);
         (2665525 # 1000000000, 505842 # 100000, 651279 # 1000000);
         (334855 # 1000000000, 500069 # 100000, 570812 # 1000000);
         (0, 495519 # 100000, 665382 # 1000000);
         (1288052 # 1000000000, 501655 # 100000, 713405 # 1000000) ]%Q;
     n_night_oprooms := n;
     min_dayonly_class := PyInt 3;
     night_length := inject_Z 8;
     converge_time := 100000;
     experiment_length := 200000;
     cleaning_time := inject_Z 60 |}.

(** ** Arguments that are not finite *)

Definition set_night_length (v : pyval) (a : args) : args :=
  {| arg_n_day_oprooms := arg_n_day_oprooms a;
     arg_distribution_parameters := arg_distribution_parameters a;
     arg_n_night_oprooms := arg_n_night_oprooms a;
     arg_min_dayonly_class := arg_min_dayonly_class a;
     arg_night_length := v;
     arg_converge_time := arg_converge_time a;
     arg_experiment_length := arg_experiment_length a;
     arg_cleaning_time := arg_cleaning_time a |}.

Definition with_night_length (v : number) (c : Full.config) : Full.config :=
  {| Full.n_day_oprooms := Full.n_day_oprooms c;
     Full.distribution_parameters := Full.distribution_parameters c;
     Full.n_night_oprooms := Full.n_night_oprooms c;
     Full.min_dayonly_class := Full.min_dayonly_class c;
     Full.night_length := v;
     Full.converge_time := Full.converge_time c;
     Full.experiment_length := Full.experiment_length c;
     Full.cleaning_time := Full.cleaning_time c |}.

(** Two rooms by day and one by night, a night length that is NaN,
    six minutes. *)
Definition nan_night_args : args :=
  {| arg_n_day_oprooms := PyInt 2;
     arg_distribution_parameters :=
       PyTuple [PyTuple [PyFloat (1 # 1000); PyInt 5; PyInt 1]];
     arg_n_night_oprooms := PyInt 1;
     arg_min_dayonly_class := PyInt 3;
     arg_night_length := PyNaN;
     arg_converge_time := PyInt 0;
     arg_experiment_length := PyInt 6;
     arg_cleaning_time := PyInt 0 |}.

(** ** The earlier script, in full

    [code/or_wait_times.py] holds a first [model_ors], which only
    checks its arguments, and the simulation itself as statements of
    the module: six named queues, the six admission blocks written out
    one after the other, fixed parameters. *)
Module ScriptLoop.

(** *** The function [model_ors] of the script (lines 27 to 138) *)

(** The checks reach line 108, [for elem in distirbution_parameters],
    where the misspelt name is looked up: no such local or global
    exists.  The body of that loop, which holds every later check, is
    never entered; the function has no other statement. *)
Definition model_ors (n_day_oprooms n_classes distribution_parameters
    n_night_oprooms night_length converge_time : pyval) : result unit :=
  match n_day_oprooms with
  | PyInt d =>
      if d <=? 0 then Raise ValueError
      else
        match n_classes with
        | PyInt c =>
            if c <=? 0 then Raise ValueError
            else
              match distribution_parameters with
              | PyList elems | PyTuple elems =>
                  if negb (Z.of_nat (length elems) =? c)
                  then Raise ValueError
                  else Raise NameError
              | _ => Raise TypeError
              end
        | _ => Raise TypeError
        end
  | _ => Raise TypeError
  end.

(** *** The statements of the module (lines 140 to 360) *)

Inductive patient_class : Set :=
  | emergent
  | urgent1
  | urgent2
  | urgent3
  | urgent4
  | AE.

Definition classes : list patient_class :=
  [emergent; urgent1; urgent2; urgent3; urgent4; AE].

(** The place of a class in the order of the blocks. *)
Definition ordinal (c : patient_class) : nat :=
  match c with
  | emergent => 0
  | urgent1 => 1
  | urgent2 => 2
  | urgent3 => 3
  | urgent4 => 4
  | AE => 5
  end.

(** The word that the block of a class prints first. *)
Definition class_name (c : patient_class) : string :=
  match c with
  | emergent => "emergent"
  | urgent1 => "urgent1"
  | urgent2 => "urgent2"
  | urgent3 => "urgent3"
  | urgent4 => "urgent4"
  | AE => "AE"
  end.

(** Lines 156 to 161. *)
Definition p_in (c : patient_class) : Q :=
  match c with
  | emergent => 1607686 # 1000000000
  | urgent1 => 3232496 # 1000000000
  | urgent2 => 2665525 # 1000000000
  | urgent3 => 334855 # 1000000000
  | urgent4 => 0
  | AE => 1288052 # 1000000000
  end.

(** Lines 164 to 169. *)
Definition mean_surg_time (c : patient_class) : Q :=
  match c with
  | emergent => 500716 # 100000
  | urgent1 => 496477 # 100000
  | urgent2 => 505842 # 100000
  | urgent3 => 500069 # 100000
  | urgent4 => 495519 # 100000
  | AE => 501655 # 100000
  end.

(** Lines 171 to 176. *)
Definition sigma_surg_time (c : patient_class) : Q :=
  match c with
  | emergent => 583642 # 1000000
  | urgent1 => 677607 # 1000000
  | urgent2 => 651279 # 1000000
  | urgent3 => 570812 # 1000000
  | urgent4 => 665382 # 1000000
  | AE => 713405 # 1000000
  end.

(** Whether the test of the block of a class carries [is_day(time)]:
    it does from [urgent2] on (lines 286, 303, 320 and 337). *)
Definition day_only (c : patient_class) : bool :=
  match c with
  | emergent | urgent1 => false
  | _ => true
  end.

(** Lines 190 and 192: [1e5] and [int(2e5)]. *)
Definition converge_time : Z := 100000.
Definition experiment_length : Z := 200000.

(** Lines 142 to 149, from the two numbers read off the command line:
    the larger one is the number of rooms by day. *)
Definition capacities (argv1 argv2 : Z) : Z * Z :=
  if argv1 <? argv2 then (argv2, argv1) else (argv1, argv2).

(** One printed line of the standard output. *)
Record row : Type := {
  r_class : string;
  r_arrival : Z;
  r_time_of_day : string;
  r_wait_time : Z;
  r_surgery_time : Z
}.

(** The global variables that the loop updates, and what it has
    printed. [n_oprooms] is not defined before line 235 or 237 has
    run. *)
Record state : Type := {
  time : Z;
  operating_rooms : list Z;
  emergent_queue : list Z;
  urgent1_queue : list Z;
  urgent2_queue : list Z;
  urgent3_queue : list Z;
  urgent4_queue : list Z;
  AE_queue : list Z;
  utilization_frac : list Z;
  n_oprooms : option Z;
  stdout : list row
}.

Definition queue (c : patient_class) (s : state) : list Z :=
  match c with
  | emergent => emergent_queue s
  | urgent1 => urgent1_queue s
  | urgent2 => urgent2_queue s
  | urgent3 => urgent3_queue s
  | urgent4 => urgent4_queue s
  | AE => AE_queue s
  end.

(** The assignment to the queue of class [c], to the rooms and to the
    output that ends a block. *)
Definition update (c : patient_class) (rooms q : list Z) (out : list row)
    (s : state) : state :=
  {| time := time s;
     operating_rooms := rooms;
     emergent_queue := match c with emergent => q | _ => emergent_queue s end;
     urgent1_queue := match c with urgent1 => q | _ => urgent1_queue s end;
     urgent2_queue := match c with urgent2 => q | _ => urgent2_queue s end;
     urgent3_queue := match c with urgent3 => q | _ => urgent3_queue s end;
     urgent4_queue := match c with urgent4 => q | _ => urgent4_queue s end;
     AE_queue := match c with AE => q | _ => AE_queue s end;
     utilization_frac := utilization_frac s;
     n_oprooms := n_oprooms s;
     stdout := out |}.

(** Lines 193 to 203. *)
Definition init_state (n_day_oprooms : Z) : state :=
  {| time := 0;
     operating_rooms := [];
     emergent_queue := [];
     urgent1_queue := [];
     urgent2_queue := [];
     urgent3_queue := [];
     urgent4_queue := [];
     AE_queue := [];
     utilization_frac := replicate (Z.to_nat (n_day_oprooms + 1)) 0;
     n_oprooms := None;
     stdout := [] |}.

(** Lines 208 to 227, for one class: the draw and the appends. *)
Definition arrive (smp : sampler) (s : state) (c : patient_class) : state :=
  update c (operating_rooms s)
    (queue c s ++
     replicate (poisson smp (time s) (ordinal c) (p_in c)) (time s))
    (stdout s) s.

(** The test of a block: lines 241 and 270, or lines 286, 303, 320
    and 337. *)
Definition test (c : patient_class) (s : state) (n : Z) : result bool :=
  if day_only c
  then Script.dayonly_test Script.module_globals
         (Z.of_nat (length (operating_rooms s))) n (queue c s) (time s)
  else Ok (Script.anytime_test (Z.of_nat (length (operating_rooms s))) n
             (queue c s)).

(** One block, lines 241 to 268 for [emergent] and the like for the
    other classes. *)
Definition block (smp : sampler) (n : Z) (s : state) (c : patient_class)
  : result state :=
  t ← test c s n;
  if t : bool then
    head ← getitem (queue c s) 0;
    let wait_time := time s - head in
    let surgery_time :=
      lognormal smp (time s) (ordinal c) (mean_surg_time c)
        (sigma_surg_time c) in
    out ←
      (if converge_time <? time s then
         day ← Script.is_day Script.module_globals head 8;
         Ok (stdout s ++
               [ {| r_class := class_name c;
                    r_arrival := head;
                    r_time_of_day := if day : bool then "day" else "night";
                    r_wait_time := wait_time;
                    r_surgery_time := surgery_time |} ])
       else Ok (stdout s));
    q ← py_remove head (queue c s);
    let out_time := time s + surgery_time + 60 in
    Ok (update c (operating_rooms s ++ [out_time]) q out s)
  else Ok s.

(** Line 230 and lines 234 to 237: the rooms due are released, then
    [is_day(time)] is called and [n_oprooms] assigned. *)
Definition open_minute (n_day_oprooms n_night_oprooms : Z) (s : state)
  : result state :=
  let rooms :=
    List.filter (fun x => negb (x =? time s)) (operating_rooms s) in
  day ← Script.is_day Script.module_globals (time s) 8;
  Ok {| time := time s;
        operating_rooms := rooms;
        emergent_queue := emergent_queue s;
        urgent1_queue := urgent1_queue s;
        urgent2_queue := urgent2_queue s;
        urgent3_queue := urgent3_queue s;
        urgent4_queue := urgent4_queue s;
        AE_queue := AE_queue s;
        utilization_frac := utilization_frac s;
        n_oprooms :=
          Some (if day : bool then n_day_oprooms else n_night_oprooms);
        stdout := stdout s |}.

(** Lines 353 to 355. *)
Definition close_minute (s : state) : result state :=
  hist ←
    (if converge_time <? time s then
       let i := length (operating_rooms s) in
       c ← getitem (utilization_frac s) i;
       Ok (<[i := c + 1]> (utilization_frac s))
     else Ok (utilization_frac s));
  Ok {| time := time s + 1;
        operating_rooms := operating_rooms s;
        emergent_queue := emergent_queue s;
        urgent1_queue := urgent1_queue s;
        urgent2_queue := urgent2_queue s;
        urgent3_queue := urgent3_queue s;
        urgent4_queue := urgent4_queue s;
        AE_queue := AE_queue s;
        utilization_frac := hist;
        n_oprooms := n_oprooms s;
        stdout := stdout s |}.

(** The body of the loop of line 206. *)
Definition tick (smp : sampler) (n_day_oprooms n_night_oprooms : Z)
    (s : state) : result state :=
  let s1 := foldl (arrive smp) s classes in
  s2 ← open_minute n_day_oprooms n_night_oprooms s1;
  s3 ← foldM (fun s c =>
                match n_oprooms s with
                | Some n => block smp n s c
                | None => Raise NameError
                end) s2 classes;
  close_minute s3.

(** The first [k] turns of the loop; its variable [i] is not read. *)
Definition run_ticks (smp : sampler) (n_day_oprooms n_night_oprooms : Z)
    (k : nat) : result state :=
  foldM (fun s (_ : nat) => tick smp n_day_oprooms n_night_oprooms s)
        (init_state n_day_oprooms) (seq 0 k).

(** The script from the two numbers of its command line to what it
    prints: the lines of the patients, and for each bucket its index,
    the last [n_oprooms] and its fraction (lines 357 to 360). *)
Definition script (smp : sampler) (argv1 argv2 : Z)
  : result (list row * list (nat * Z * Q)) :=
  let '(n_day_oprooms, n_night_oprooms) := capacities argv1 argv2 in
  s ← run_ticks smp n_day_oprooms n_night_oprooms
        (Z.to_nat experiment_length);
  match n_oprooms s with
  | None => Raise NameError
  | Some n =>
      Ok (stdout s,
          imap (fun i elem =>
                  (i, n,
                   (inject_Z elem
                    / inject_Z (experiment_length - converge_time))%Q))
               (utilization_frac s))
  end.

End ScriptLoop.
(** ** Generic facts: the error monad and loops *)

Section Loops.
Context {A S : Type}.
Implicit Types (f : S -> A -> result S) (l : list A) (s : S).

Lemma bind_Ok {B C} (m : result B) (k : B -> result C) c :
  m ≫= k = Ok c -> exists b, m = Ok b /\ k b = Ok c.
Proof. destruct m as [b|e]; simpl; [eauto | discriminate]. Qed.

Lemma foldM_app f s l1 l2 :
  foldM f s (l1 ++ l2) = s' ← foldM f s l1; foldM f s' l2.
Proof.
  revert s; induction l1 as [|a l1 IH]; intros s; simpl; [reflexivity|].
  destruct (f s a) as [s'|e]; simpl; [apply IH | reflexivity].
Qed.

(** A loop whose body keeps an invariant and never raises under it
    runs to its end and keeps the invariant. *)
Lemma foldM_inv f (P : S -> Prop) (D : A -> Prop) l s :
  Forall D l -> P s ->
  (forall s a, D a -> P s -> exists s', f s a = Ok s' /\ P s') ->
  exists s', foldM f s l = Ok s' /\ P s'.
Proof.
  intros Hl Hs Hstep; revert s Hs.
  induction Hl as [|a l Ha _ IH]; intros s Hs; simpl; [eauto|].
  destruct (Hstep s a Ha Hs) as (s' & -> & Hs'); simpl. apply IH, Hs'.
Qed.

(** The partial form: what holds before a loop that ends without
    raising holds after it, when each turn preserves it. *)
Lemma foldM_inv_Ok f (P : S -> Prop) (D : A -> Prop) l s s' :
  Forall D l -> P s ->
  (forall s a s', D a -> P s -> f s a = Ok s' -> P s') ->
  foldM f s l = Ok s' -> P s'.
Proof.
  intros Hl Hs Hstep; revert s Hs.
  induction Hl as [|a l Ha _ IH]; intros s Hs H; simpl in H.
  - injection H as <-. exact Hs.
  - apply bind_Ok in H as (s1 & H1 & H2).
    apply (IH s1); [eapply Hstep; eassumption | exact H2].
Qed.

(** The same for a relation between the state before and after. *)
Lemma foldM_rel f (R : S -> S -> Prop) l s s' :
  (forall s, R s s) ->
  (forall s1 s2 s3, R s1 s2 -> R s2 s3 -> R s1 s3) ->
  (forall s a s', In a l -> f s a = Ok s' -> R s s') ->
  foldM f s l = Ok s' -> R s s'.
Proof.
  intros Hrefl Htrans; revert s.
  induction l as [|a l IH]; intros s Hstep H; simpl in H.
  - injection H as <-. apply Hrefl.
  - apply bind_Ok in H as (s1 & H1 & H2).
    apply Htrans with s1.
    + apply (Hstep s a s1); [left; reflexivity | exact H1].
    + apply IH; [|exact H2]. intros; eapply Hstep; [right|]; eassumption.
Qed.
End Loops.

Lemma getitem_Ok {A} (l : list A) i x : l !! i = Some x -> getitem l i = Ok x.
Proof. unfold getitem; intros ->; reflexivity. Qed.

Lemma getitem_lt {A} (l : list A) i :
  (i < length l)%nat -> exists x, l !! i = Some x /\ getitem l i = Ok x.
Proof.
  intros H. destruct (lookup_lt_is_Some_2 l i H) as [x Hx].
  exists x; split; [exact Hx | apply getitem_Ok, Hx].
Qed.

Lemma Forall_seq_lt n : Forall (fun j => (j < n)%nat) (seq 0 n).
Proof. apply Forall_forall. intros j Hj. apply elem_of_seq in Hj. lia. Qed.

(** ** The queue discipline *)

(** Removing the value found at the head removes the head itself. *)
Lemma py_remove_head x l : py_remove x (x :: l) = Ok l.
Proof. simpl. rewrite Z.eqb_refl. reflexivity. Qed.

(** ** The admission step *)

Lemma admit_class_full cfg smp time n st j :
  Z.of_nat (length (operating_rooms st)) >= n ->
  admit_class cfg smp time n st j = Ok st.
Proof.
  intros H. unfold admit_class.
  destruct (Z.ltb_spec (Z.of_nat (length (operating_rooms st))) n);
    [lia | reflexivity].
Qed.

Lemma admit_class_empty cfg smp time n st j :
  queues st !! j = Some [] ->
  admit_class cfg smp time n st j = Ok st.
Proof.
  intros Hq. unfold admit_class.
  destruct (_ <? n); [|reflexivity].
  rewrite (getitem_Ok _ _ _ Hq). reflexivity.
Qed.

Lemma admit_class_admits cfg smp time n st j head rest x :
  Z.of_nat (length (operating_rooms st)) < n ->
  queues st !! j = Some (head :: rest) ->
  distribution_parameters cfg !! j = Some x ->
  admit_class cfg smp time n st j = Ok (admitted cfg smp time st j head rest x).
Proof.
  intros Hn Hq Hx. unfold admit_class.
  destruct (Z.ltb_spec (Z.of_nat (length (operating_rooms st))) n); [|lia].
  rewrite (getitem_Ok _ _ _ Hq). simpl.
  rewrite (getitem_Ok _ _ _ Hx). simpl.
  rewrite Z.eqb_refl. reflexivity.
Qed.

Lemma admit_class_cases cfg smp time n st j :
  length (queues st) = n_classes cfg -> (j < n_classes cfg)%nat ->
  exists st', admit_class cfg smp time n st j = Ok st' /\
              admit_case cfg smp time n st j st'.
Proof.
  intros Hlen Hj.
  destruct (Z_lt_ge_dec (Z.of_nat (length (operating_rooms st))) n) as [Hn|Hn].
  - destruct (getitem_lt (queues st) j) as (q & Hq & _); [lia|].
    destruct q as [|head rest].
    + exists st. split; [eapply admit_class_empty; eauto|].
      apply admit_none_empty; assumption.
    + destruct (getitem_lt (distribution_parameters cfg) j) as (x & Hx & _);
        [exact Hj|].
      exists (admitted cfg smp time st j head rest x).
      split; [apply admit_class_admits; assumption|].
      apply admit_one; assumption.
  - exists st. split; [apply admit_class_full; assumption|].
    apply admit_none_full; assumption.
Qed.

Lemma admit_class_inv cfg smp time n st j st' :
  admit_class cfg smp time n st j = Ok st' ->
  length (queues st) = n_classes cfg -> (j < n_classes cfg)%nat ->
  admit_case cfg smp time n st j st'.
Proof.
  intros H Hlen Hj.
  destruct (admit_class_cases cfg smp time n st j Hlen Hj) as (st1 & H1 & Hc).
  congruence.
Qed.

(** ** Totality of the loop *)

Lemma capacity_at_le_day cfg time :
  valid cfg -> capacity_at cfg time <= n_day_oprooms cfg.
Proof. unfold valid, capacity_at. destruct (is_day cfg time); lia. Qed.

Lemma init_state_wf cfg : valid cfg -> wf cfg (init_state cfg).
Proof.
  intros Hv. split; simpl.
  - apply length_replicate.
  - apply length_replicate.
  - unfold occupied; simpl. unfold valid in Hv. lia.
Qed.

Lemma length_n_patients cfg smp time :
  length (n_patients cfg smp time) = n_classes cfg.
Proof. unfold n_patients. apply length_imap. Qed.

Lemma length_release time rooms :
  (length (release time rooms) <= length rooms)%nat.
Proof. apply List.filter_length_le. Qed.

Lemma enqueue_total time counts qs j :
  (j < length counts)%nat -> (j < length qs)%nat ->
  exists qs', enqueue time counts qs j = Ok qs' /\ length qs' = length qs.
Proof.
  intros Hc Hq. unfold enqueue.
  destruct (getitem_lt counts j Hc) as (n & _ & ->); simpl.
  destruct (decide (n = 0%nat)); [eauto|].
  destruct (getitem_lt qs j Hq) as (q & _ & ->); simpl.
  eexists; split; [reflexivity | apply length_insert].
Qed.

Lemma arrivals_total cfg smp time qs :
  length qs = n_classes cfg ->
  exists qs',
    foldM (enqueue time (n_patients cfg smp time)) qs (seq 0 (n_classes cfg))
      = Ok qs' /\ length qs' = n_classes cfg.
Proof.
  intros Hq.
  apply (foldM_inv _ (fun qs => length qs = n_classes cfg)
           (fun j => (j < n_classes cfg)%nat));
    [apply Forall_seq_lt | exact Hq |].
  intros qs0 j Hj Hq0.
  destruct (enqueue_total time (n_patients cfg smp time) qs0 j)
    as (qs' & H1 & H2); [rewrite length_n_patients; lia | lia |].
  exists qs'; split; [exact H1 | lia].
Qed.

Lemma admitted_wf cfg smp time n st j head rest x :
  n <= n_day_oprooms cfg -> occupied st < n ->
  wf cfg st -> wf cfg (admitted cfg smp time st j head rest x).
Proof.
  intros Hn Hocc [Hq Hh Hr]. split; simpl.
  - rewrite length_insert. exact Hq.
  - exact Hh.
  - unfold occupied in *; simpl. rewrite length_app; simpl. lia.
Qed.

Lemma admit_case_wf cfg smp time n st j st' :
  n <= n_day_oprooms cfg -> wf cfg st ->
  admit_case cfg smp time n st j st' -> wf cfg st'.
Proof.
  intros Hn Hwf Hc. destruct Hc; try exact Hwf.
  apply (admitted_wf cfg smp time n); assumption.
Qed.

Lemma admissions_total cfg smp time n st :
  n <= n_day_oprooms cfg -> wf cfg st ->
  exists st',
    foldM (admit_class cfg smp time n) st (seq 0 (n_classes cfg)) = Ok st' /\
    wf cfg st'.
Proof.
  intros Hn Hwf.
  apply (foldM_inv _ (wf cfg) (fun j => (j < n_classes cfg)%nat));
    [apply Forall_seq_lt | exact Hwf |].
  intros s j Hj Hs.
  destruct (admit_class_cases cfg smp time n s j (wf_queues _ _ Hs) Hj)
    as (s' & H1 & Hc).
  exists s'; split; [exact H1 | eapply admit_case_wf; eassumption].
Qed.

Lemma record_utilization_total cfg time st :
  0 <= n_day_oprooms cfg -> wf cfg st ->
  exists st', record_utilization cfg time st = Ok st' /\ wf cfg st' /\
              operating_rooms st' = operating_rooms st /\
              queues st' = queues st /\ results st' = results st /\
              n_oprooms st' = n_oprooms st.
Proof.
  intros Hd [Hq Hh Hr]. unfold record_utilization.
  destruct (Qgt_bool _ _); [|exists st; repeat split; assumption].
  destruct (getitem_lt (utilization_frac st) (length (operating_rooms st)))
    as (c & _ & ->); [unfold occupied in Hr; lia|]; simpl.
  eexists; split; [reflexivity|]. repeat split; simpl; try assumption.
  rewrite length_insert. exact Hh.
Qed.

(** A minute never raises from a well-formed state, and leaves one. *)
Lemma tick_total cfg smp st time :
  valid cfg -> wf cfg st ->
  exists st', tick cfg smp st time = Ok st' /\ wf cfg st'.
Proof.
  intros Hv Hwf. unfold tick.
  destruct (arrivals_total cfg smp time (queues st) (wf_queues _ _ Hwf))
    as (qs & -> & Hqs); simpl.
  set (st1 := open_minute cfg time st qs).
  assert (Hwf1 : wf cfg st1).
  { destruct Hwf as [Hq Hh Hr]. split; simpl; [exact Hqs | exact Hh |].
    unfold occupied in *; simpl.
    pose proof (length_release time (operating_rooms st)). lia. }
  destruct (admissions_total cfg smp time (capacity_at cfg time) st1)
    as (st2 & -> & Hwf2); [apply capacity_at_le_day, Hv | exact Hwf1 |]; simpl.
  destruct (record_utilization_total cfg time st2) as (st3 & H3 & Hwf3 & _);
    [unfold valid in Hv; lia | exact Hwf2 |].
  exists st3; split; assumption.
Qed.

Lemma run_ticks_S cfg smp k :
  run_ticks cfg smp (S k)
  = st ← run_ticks cfg smp k; tick cfg smp st (Z.of_nat k).
Proof.
  unfold run_ticks. rewrite seq_S, fmap_app, foldM_app. simpl.
  destruct (foldM _ _ _) as [st|e]; simpl; [|reflexivity].
  destruct (tick cfg smp st (Z.of_nat k)); reflexivity.
Qed.

(** Every prefix of the run ends in a well-formed state. *)
Lemma run_ticks_total cfg smp k :
  valid cfg -> exists st, run_ticks cfg smp k = Ok st /\ wf cfg st.
Proof.
  intros Hv. induction k as [|k (st & Hk & Hwf)].
  - exists (init_state cfg); split; [reflexivity | apply init_state_wf, Hv].
  - rewrite run_ticks_S, Hk; simpl. apply tick_total; assumption.
Qed.

Lemma run_run_ticks cfg smp :
  run cfg smp = run_ticks cfg smp (Z.to_nat (total_ticks cfg)).
Proof. reflexivity. Qed.

(** ** Occupancy *)

(** The configurations of the examples are what the checks make of
    conforming arguments. *)
Lemma typecheck_small_args n_day n_night k night_hours length_ :
  0 < n_day -> 0 <= n_night <= n_day -> 0 <= night_hours -> 0 <= length_ ->
  typecheck (small_args n_day n_night k night_hours length_)
  = Ok (embed (small_config n_day n_night k night_hours length_)).
Proof.
  intros Hd Hn Hh Hl. unfold typecheck, small_args, embed; simpl.
  destruct (Z.leb_spec n_day 0); [lia|]; simpl.
  assert (Hk : check_elems (replicate k (PyTuple [PyInt 0; PyInt 0; PyInt 0]))
               = Ok ((fun x : Q * Q * Q => (Fin x.1.1, Fin x.1.2, Fin x.2))
                       <$> replicate k zero_class)).
  { induction k as [|k IH]; simpl; [reflexivity|]. rewrite IH. reflexivity. }
  rewrite Hk; simpl.
  destruct (Z.gtb_spec n_night n_day); [lia|].
  destruct (Z.ltb_spec n_night 0); [lia|]; simpl.
  destruct (Z.ltb_spec night_hours 0); [lia|]; simpl.
  destruct (Z.ltb_spec length_ 0); [lia|]; simpl.
  reflexivity.
Qed.

(** C10: under a valid configuration every prefix of the run ends
    without an exception in a state whose number of occupied rooms is
    at most [n_day_oprooms]; the histogram has [n_day_oprooms + 1]
    buckets, so the bucket indexed by the number of occupied rooms
    exists and the increment of line 200 never raises [IndexError]. *)
Theorem C10_histogram_index_in_range cfg smp k :
  valid cfg ->
  exists st,
    run_ticks cfg smp k = Ok st /\
    occupied st <= n_day_oprooms cfg /\
    Z.of_nat (length (utilization_frac st)) = n_day_oprooms cfg + 1 /\
    is_Some (utilization_frac st !! length (operating_rooms st)) /\
    run_ticks cfg smp (S k) <> Raise IndexError.
Proof.
  intros Hv.
  destruct (run_ticks_total cfg smp k Hv) as (st & Hst & [Hq Hh Hr]).
  exists st. split; [exact Hst|].
  assert (Hd : 0 <= n_day_oprooms cfg) by (unfold valid in Hv; lia).
  split; [exact Hr|]. split; [rewrite Hh; lia|].
  split.
  - apply lookup_lt_is_Some_2. unfold occupied in Hr. lia.
  - destruct (run_ticks_total cfg smp (S k) Hv) as (st' & -> & _).
    discriminate.
Qed.

Lemma C10_histogram_index_in_range_witness :
  valid (small_config 2 1 1 8 5) /\
  exists st,
    run_ticks (small_config 2 1 1 8 5) (scripted [(0, 0%nat)] 3) 4 = Ok st /\
    occupied st <= 2 /\
    Z.of_nat (length (utilization_frac st)) = 2 + 1 /\
    is_Some (utilization_frac st !! length (operating_rooms st)) /\
    run_ticks (small_config 2 1 1 8 5) (scripted [(0, 0%nat)] 3) 5
      <> Raise IndexError.
Proof.
  split; [unfold valid; simpl; lia|].
  apply (C10_histogram_index_in_range (small_config 2 1 1 8 5)
           (scripted [(0, 0%nat)] 3) 4).
  unfold valid; simpl; lia.
Defined.

Lemma tick_inv cfg smp st time st' :
  tick cfg smp st time = Ok st' ->
  exists qs st2,
    foldM (enqueue time (n_patients cfg smp time)) (queues st)
      (seq 0 (n_classes cfg)) = Ok qs /\
    foldM (admit_class cfg smp time (capacity_at cfg time))
      (open_minute cfg time st qs) (seq 0 (n_classes cfg)) = Ok st2 /\
    record_utilization cfg time st2 = Ok st'.
Proof.
  unfold tick. intros H.
  apply bind_Ok in H as (qs & Hqs & H).
  apply bind_Ok in H as (st2 & H2 & H3).
  exists qs, st2. auto.
Qed.

Lemma record_utilization_rooms cfg time st st' :
  record_utilization cfg time st = Ok st' ->
  operating_rooms st' = operating_rooms st /\ queues st' = queues st /\
  results st' = results st /\ n_oprooms st' = n_oprooms st.
Proof.
  unfold record_utilization. destruct (Qgt_bool _ _).
  - intros H. apply bind_Ok in H as (c & _ & H). injection H as <-. auto.
  - intros H. injection H as <-. auto.
Qed.

(** The loop over classes never lets the number of occupied rooms pass
    the larger of the capacity and what it started with. *)
Lemma admissions_bound cfg smp time n st1 st2 :
  length (queues st1) = n_classes cfg ->
  foldM (admit_class cfg smp time n) st1 (seq 0 (n_classes cfg)) = Ok st2 ->
  occupied st1 <= occupied st2 <= Z.max n (occupied st1).
Proof.
  intros Hq H.
  refine (proj2 (foldM_inv_Ok _
    (fun s => length (queues s) = n_classes cfg /\
              occupied st1 <= occupied s <= Z.max n (occupied st1))
    (fun j => (j < n_classes cfg)%nat) _ _ _ (Forall_seq_lt _) _ _ H)).
  - split; [exact Hq | lia].
  - intros s j s' Hj [Hqs Hb] Hs.
    apply admit_class_inv in Hs; [|assumption..].
    destruct Hs; [auto | auto |].
    split; simpl; [rewrite length_insert; exact Hqs|].
    unfold occupied in *; simpl. rewrite length_app; simpl. lia.
Qed.

(** C2, as the code has it: under a valid configuration, the number of
    occupied rooms at the end of minute [k] is at most the larger of
    [capacity_at k] and the number of rooms still occupied once the
    rooms due at [k] are released; so it is at most [n_day_oprooms]
    always and at most [capacity_at k] on every minute of the day.  A
    room taken by day is kept through the night until its surgery
    ends. *)
Theorem C2_occupancy_bound cfg smp k :
  valid cfg ->
  exists st st',
    run_ticks cfg smp k = Ok st /\
    run_ticks cfg smp (S k) = Ok st' /\
    occupied st' <=
      Z.max (capacity_at cfg (Z.of_nat k))
            (Z.of_nat (length (release (Z.of_nat k) (operating_rooms st)))) /\
    occupied st' <= n_day_oprooms cfg /\
    (is_day cfg (Z.of_nat k) = true ->
     occupied st' <= capacity_at cfg (Z.of_nat k)).
Proof.
  intros Hv.
  destruct (run_ticks_total cfg smp k Hv) as (st & Hst & Hwf).
  destruct (run_ticks_total cfg smp (S k) Hv) as (st' & Hst' & Hwf').
  exists st, st'. split; [exact Hst|]. split; [exact Hst'|].
  rewrite run_ticks_S, Hst in Hst'; simpl in Hst'.
  apply tick_inv in Hst' as (qs & st2 & Hqs & H2 & H3).
  apply record_utilization_rooms in H3 as (Hrooms & _).
  assert (Hlen : length qs = n_classes cfg).
  { destruct (arrivals_total cfg smp (Z.of_nat k) (queues st)
                (wf_queues _ _ Hwf)) as (qs' & Hqs' & Hl).
    congruence. }
  apply admissions_bound in H2; [|exact Hlen].
  unfold occupied in *; simpl in H2. rewrite Hrooms.
  pose proof (wf_rooms _ _ Hwf') as Hr'. unfold occupied in Hr'.
  rewrite Hrooms in Hr'.
  split; [lia|]. split; [exact Hr'|].
  intros Hday. unfold capacity_at. rewrite Hday. exact Hr'.
Qed.

Lemma C2_occupancy_bound_witness :
  valid evening_config /\
  exists st st',
    run_ticks evening_config evening_sampler 1440 = Ok st /\
    run_ticks evening_config evening_sampler 1441 = Ok st' /\
    occupied st' <=
      Z.max (capacity_at evening_config (Z.of_nat 1440))
            (Z.of_nat (length (release (Z.of_nat 1440) (operating_rooms st)))) /\
    occupied st' <= 2 /\
    (is_day evening_config (Z.of_nat 1440) = true ->
     occupied st' <= capacity_at evening_config (Z.of_nat 1440)).
Proof.
  split; [unfold valid; simpl; lia|].
  apply (C2_occupancy_bound evening_config evening_sampler 1440).
  unfold valid; simpl; lia.
Defined.

(** C2 as stated fails: in [evening_config] both rooms are taken at
    minutes 1438 and 1439, by day; minute 1440 is a minute of the night,
    one room is open, and the two surgeries still occupy two. *)
Lemma C2_counterexample :
  valid evening_config /\
  is_day evening_config 1440 = false /\
  capacity_at evening_config 1440 = n_night_oprooms evening_config /\
  exists st,
    run_ticks evening_config evening_sampler 1441 = Ok st /\
    occupied st = 2 /\
    ~ occupied st <= capacity_at evening_config 1440.
Proof.
  split; [unfold valid; simpl; lia|].
  split; [reflexivity|]. split; [reflexivity|].
  eexists. split; [vm_compute; reflexivity|].
  split; [reflexivity|]. vm_compute. intros H; apply H; reflexivity.
Qed.

(** ** Priority order of the admissions *)

Lemma waiting_classes_insert qs j q l :
  j ∉ l -> waiting_classes (<[j := q]> qs) l = waiting_classes qs l.
Proof.
  intros Hj. unfold waiting_classes.
  induction l as [|i l IH]; [reflexivity|].
  apply not_elem_of_cons in Hj as [Hne Hj].
  assert (Hw : waiting (<[j := q]> qs) i = waiting qs i).
  { unfold waiting. rewrite list_lookup_insert_ne by exact Hne. reflexivity. }
  rewrite !filter_cons, Hw, (IH Hj). reflexivity.
Qed.

Lemma served_subseteq n st l : spec_served n st l ⊆ l.
Proof.
  unfold spec_served, waiting_classes. intros j Hj.
  apply subseteq_take in Hj. apply list_elem_of_filter in Hj. tauto.
Qed.

(** The loop over a list [l] of distinct classes serves exactly
    [spec_served n st l]: one patient leaves the head of each of these
    queues, the others are untouched. *)
Lemma admissions_served cfg smp time n l :
  NoDup l -> Forall (fun j => (j < n_classes cfg)%nat) l ->
  forall st, length (queues st) = n_classes cfg ->
  exists st',
    foldM (admit_class cfg smp time n) st l = Ok st' /\
    length (queues st') = n_classes cfg /\
    occupied st' = occupied st + Z.of_nat (length (spec_served n st l)) /\
    forall j,
      queues st' !! j =
        if bool_decide (j ∈ spec_served n st l) then tail <$> queues st !! j
        else queues st !! j.
Proof.
  induction l as [|j0 l IH]; intros Hnd Hlt st Hlen.
  - exists st. unfold spec_served, waiting_classes.
    rewrite filter_nil, take_nil.
    split; [reflexivity|]. split; [exact Hlen|]. split; [simpl; lia|].
    intros j. rewrite bool_decide_eq_false_2 by apply not_elem_of_nil.
    reflexivity.
  - apply NoDup_cons in Hnd as [Hj0 Hnd].
    apply Forall_cons in Hlt as [Hj0lt Hlt].
    destruct (admit_class_cases cfg smp time n st j0 Hlen Hj0lt)
      as (st1 & H1 & Hcase).
    simpl. rewrite H1; simpl.
    destruct Hcase as [Hfull | Hfree Hq | head rest x Hfree Hq Hx].
    + destruct (IH Hnd Hlt st Hlen) as (st' & H' & Hlen' & Hocc & Hqs).
      exists st'. split; [exact H'|]. split; [exact Hlen'|].
      assert (Hz : Z.to_nat (n - occupied st) = 0%nat)
        by (unfold occupied; lia).
      unfold spec_served in *. rewrite Hz in *. rewrite take_0 in *.
      split; [exact Hocc | exact Hqs].
    + destruct (IH Hnd Hlt st Hlen) as (st' & H' & Hlen' & Hocc & Hqs).
      exists st'. split; [exact H'|]. split; [exact Hlen'|].
      assert (Hw : spec_served n st (j0 :: l) = spec_served n st l).
      { unfold spec_served, waiting_classes. rewrite filter_cons_False; [done|].
        unfold waiting. rewrite Hq. discriminate. }
      rewrite Hw. split; [exact Hocc | exact Hqs].
    + set (st1 := admitted cfg smp time st j0 head rest x).
      assert (Hlen1 : length (queues st1) = n_classes cfg)
        by (simpl; rewrite length_insert; exact Hlen).
      destruct (IH Hnd Hlt st1 Hlen1) as (st' & H' & Hlen' & Hocc & Hqs).
      exists st'. split; [exact H'|]. split; [exact Hlen'|].
      assert (Hocc1 : occupied st1 = occupied st + 1).
      { unfold occupied; simpl. rewrite length_app; simpl. lia. }
      assert (Hw : spec_served n st (j0 :: l) = j0 :: spec_served n st1 l).
      { unfold spec_served, waiting_classes.
        rewrite filter_cons_True by (unfold waiting; rewrite Hq; done).
        replace (Z.to_nat (n - occupied st))
          with (S (Z.to_nat (n - occupied st1)))
          by (unfold occupied in *; lia).
        simpl. f_equal. f_equal.
        symmetry. apply (waiting_classes_insert (queues st) j0 rest l Hj0). }
      rewrite Hw. split; [simpl length; lia|].
      intros j. rewrite Hqs.
      destruct (decide (j = j0)) as [->|Hne].
      * rewrite bool_decide_eq_false_2
          by (intros Hin; apply served_subseteq in Hin; contradiction).
        rewrite bool_decide_eq_true_2 by apply list_elem_of_here.
        simpl. rewrite list_lookup_insert_eq by lia. rewrite Hq. reflexivity.
      * simpl queues. rewrite list_lookup_insert_ne by congruence.
        destruct (decide (j ∈ spec_served n st1 l)) as [Hin|Hnin].
        -- rewrite !bool_decide_eq_true_2;
             [reflexivity | apply list_elem_of_further, Hin | exact Hin].
        -- rewrite !bool_decide_eq_false_2; [reflexivity | | exact Hnin].
           intros Hin. apply elem_of_cons in Hin as [?|?]; contradiction.
Qed.

Lemma StronglySorted_seq i n : StronglySorted lt (seq i n).
Proof.
  revert i; induction n as [|n IH]; intros i; simpl; constructor.
  - apply IH.
  - apply Forall_forall. intros j Hj. apply elem_of_seq in Hj. lia.
Qed.

Lemma StronglySorted_sublist {A} (R : relation A) (l1 l2 : list A) :
  l1 `sublist_of` l2 -> StronglySorted R l2 -> StronglySorted R l1.
Proof.
  induction 1 as [|x l1 l2 Hsub IH|x l1 l2 Hsub IH]; intros Hs.
  - constructor.
  - apply StronglySorted_cons in Hs as [Hall Hs].
    apply StronglySorted_cons. split; [|apply IH, Hs].
    apply Forall_forall. intros y Hy.
    apply (proj1 (Forall_forall _ _) Hall), (sublist_subseteq _ _ Hsub), Hy.
  - apply StronglySorted_cons in Hs as [_ Hs]. apply IH, Hs.
Qed.

Lemma waiting_classes_sorted qs n :
  StronglySorted lt (waiting_classes qs (seq 0 n)).
Proof.
  eapply StronglySorted_sublist; [apply sublist_filter|].
  apply StronglySorted_seq.
Qed.

(** C6: the loop over classes of one minute, started in any state with
    one queue per class and [n] rooms open, ends without raising and
    serves exactly [spec_served]: the waiting classes in ascending ordinal,
    as many as there are free rooms.  Each served class loses the one
    patient at the head of its queue, every other queue is unchanged;
    the served classes are strictly ascending; and a class is never
    served while a class of lower ordinal with a waiting patient is
    not. *)
Theorem C6_admission_priority cfg smp time n st :
  length (queues st) = n_classes cfg ->
  exists st',
    foldM (admit_class cfg smp time n) st (seq 0 (n_classes cfg)) = Ok st' /\
    occupied st' =
      occupied st + Z.of_nat (length (spec_served n st (seq 0 (n_classes cfg)))) /\
    (forall j q,
       queues st !! j = Some q ->
       queues st' !! j =
         Some (if bool_decide (j ∈ spec_served n st (seq 0 (n_classes cfg)))
               then tail q else q)) /\
    StronglySorted lt (spec_served n st (seq 0 (n_classes cfg))) /\
    (forall i j,
       (i < j)%nat -> waiting (queues st) i = true ->
       j ∈ spec_served n st (seq 0 (n_classes cfg)) ->
       i ∈ spec_served n st (seq 0 (n_classes cfg))).
Proof.
  intros Hlen.
  destruct (admissions_served cfg smp time n (seq 0 (n_classes cfg))
              (NoDup_seq _ _) (Forall_seq_lt _) st Hlen)
    as (st' & H' & _ & Hocc & Hqs).
  exists st'. split; [exact H'|]. split; [exact Hocc|].
  pose proof (waiting_classes_sorted (queues st) (n_classes cfg)) as Hsorted.
  split; [|split].
  - intros j q Hq. rewrite Hqs, Hq. destruct (bool_decide _); reflexivity.
  - unfold spec_served. rewrite <- (take_drop (Z.to_nat (n - occupied st))) in Hsorted.
    apply StronglySorted_app_1_l in Hsorted. exact Hsorted.
  - intros i j Hij Hw Hj.
    destruct (decide (i ∈ spec_served n st (seq 0 (n_classes cfg)))) as [Hi|Hi];
      [exact Hi | exfalso].
    assert (Hiw : i ∈ waiting_classes (queues st) (seq 0 (n_classes cfg))).
    { apply list_elem_of_filter. split; [exact Hw|].
      apply served_subseteq, elem_of_seq in Hj. apply elem_of_seq. lia. }
    unfold spec_served in *.
    rewrite <- (take_drop (Z.to_nat (n - occupied st))) in Hiw, Hsorted.
    apply elem_of_app in Hiw as [Hiw|Hiw]; [contradiction|].
    pose proof (StronglySorted_app_1_elem_of _ _ _ _ _ Hsorted Hj Hiw). lia.
Qed.

Lemma C6_admission_priority_witness :
  length (queues waiting_room)
    = n_classes (small_config 2 1 3 8 5) /\
  exists st',
    foldM (admit_class (small_config 2 1 3 8 5) (scripted [] 3) 7 1)
      waiting_room
      (seq 0 (n_classes (small_config 2 1 3 8 5))) = Ok st' /\
    occupied st' =
      occupied waiting_room +
      Z.of_nat (length (spec_served 1 waiting_room
                          (seq 0 (n_classes (small_config 2 1 3 8 5))))) /\
    (forall j q,
       queues waiting_room !! j = Some q ->
       queues st' !! j =
         Some (if bool_decide
                    (j ∈ spec_served 1 waiting_room
                           (seq 0 (n_classes (small_config 2 1 3 8 5))))
               then tail q else q)) /\
    StronglySorted lt (spec_served 1 waiting_room
                         (seq 0 (n_classes (small_config 2 1 3 8 5)))) /\
    (forall i j,
       (i < j)%nat ->
       waiting (queues waiting_room) i = true ->
       j ∈ spec_served 1 waiting_room
             (seq 0 (n_classes (small_config 2 1 3 8 5))) ->
       i ∈ spec_served 1 waiting_room
             (seq 0 (n_classes (small_config 2 1 3 8 5)))).
Proof.
  split; [reflexivity|].
  apply (C6_admission_priority (small_config 2 1 3 8 5) (scripted [] 3) 7 1
           waiting_room).
  reflexivity.
Defined.


(** The loop of a whole minute is this loop, started once the arrivals
    are queued and the due rooms released, with the capacity of the
    minute. *)
Lemma tick_serves cfg smp st time :
  valid cfg -> wf cfg st ->
  exists qs st',
    foldM (enqueue time (n_patients cfg smp time)) (queues st)
      (seq 0 (n_classes cfg)) = Ok qs /\
    tick cfg smp st time = Ok st' /\
    forall j q,
      qs !! j = Some q ->
      queues st' !! j =
        Some (if bool_decide
                   (j ∈ spec_served (capacity_at cfg time)
                          (open_minute cfg time st qs) (seq 0 (n_classes cfg)))
              then tail q else q).
Proof.
  intros Hv Hwf.
  destruct (tick_total cfg smp st time Hv Hwf) as (st' & Hst' & _).
  destruct (tick_inv _ _ _ _ _ Hst') as (qs & st2 & Hqs & H2 & H3).
  exists qs, st'. split; [exact Hqs|]. split; [exact Hst'|].
  apply record_utilization_rooms in H3 as (_ & -> & _).
  assert (Hlen : length (queues (open_minute cfg time st qs)) = n_classes cfg).
  { destruct (arrivals_total cfg smp time (queues st) (wf_queues _ _ Hwf))
      as (qs0 & Hqs0 & Hl). simpl. congruence. }
  destruct (admissions_served cfg smp time (capacity_at cfg time)
              (seq 0 (n_classes cfg)) (NoDup_seq _ _) (Forall_seq_lt _)
              (open_minute cfg time st qs) Hlen)
    as (st2' & H2' & _ & _ & Hserved).
  assert (st2' = st2) as -> by congruence.
  intros j q Hq. rewrite Hserved. simpl queues. rewrite Hq.
  destruct (bool_decide _); reflexivity.
Qed.

(** With one room open class 0 alone is served; with two, classes 0
    and 2, each once, although class 2 has two patients waiting. *)
Example served_waiting_room :
  spec_served 1 waiting_room (seq 0 3) = [0%nat] /\
  spec_served 2 waiting_room (seq 0 3) = [0%nat; 2%nat] /\
  spec_served 3 waiting_room (seq 0 3) = [0%nat; 2%nat] /\
  queues <$> foldM (admit_class (small_config 3 3 3 8 5) (scripted [] 3) 7 3)
                   waiting_room (seq 0 3)
  = Ok [[]; []; [0]].
Proof. vm_compute. repeat split. Qed.

(** ** Outcome records *)

Lemma Qgt_bool_true x y : Qgt_bool x y = true <-> (y < x)%Q.
Proof.
  unfold Qgt_bool. rewrite negb_true_iff. split.
  - intros H. apply Qnot_le_lt. intros Hle.
    apply Qle_bool_iff in Hle. congruence.
  - intros H. destruct (Qle_bool x y) eqn:E; [|reflexivity].
    apply Qle_bool_iff in E. apply Qlt_not_le in H. contradiction.
Qed.

Lemma Qgt_bool_false x y : Qgt_bool x y = false <-> ~ (y < x)%Q.
Proof.
  rewrite <- Qgt_bool_true. destruct (Qgt_bool x y); split; congruence.
Qed.

(** [int(a - w)] on integers is the difference. *)
Lemma py_int_sub (a w : Z) : py_int (inject_Z a - inject_Z w) = a - w.
Proof.
  unfold Qminus. rewrite <- inject_Z_opp, <- inject_Z_plus.
  unfold py_int. destruct (Qle_bool _ _); [apply Qfloor_Z | apply Qceiling_Z].
Qed.

Lemma time_of_day_day cfg arrival :
  time_of_day cfg arrival = "day"%string <->
  (night_length cfg * inject_Z hour_to_min
   < inject_Z (arrival mod day_to_min))%Q.
Proof.
  unfold time_of_day, is_day. rewrite <- Qgt_bool_true.
  destruct (Qgt_bool _ _); split; congruence.
Qed.

(** When class [j] is served at minute [time] (a room is free and
    [head] is the first of its queue), [results] gains a row exactly
    when [head > converge_time], a strict comparison: the patient who
    arrives at the minute [converge_time] itself leaves no row.  The
    row is the class, the arrival time less the warm-up, the tag, the
    wait [time - head] and the surgery time drawn for this patient.
    The tag is "day" exactly when the arrival minute, not [time],
    passes the test of the day; when the warm-up is an integer the
    second field is [head - warmup]. *)
Lemma outcome_recorded cfg smp time n st j head rest :
  occupied st < n ->
  queues st !! j = Some (head :: rest) ->
  (j < n_classes cfg)%nat ->
  exists st' x,
    distribution_parameters cfg !! j = Some x /\
    admit_class cfg smp time n st j = Ok st' /\
    ((converge_time cfg < inject_Z head)%Q ->
     results st' =
       results st ++
         [ {| o_class := j;
              o_arrival := py_int (inject_Z head - converge_time cfg);
              o_time_of_day := time_of_day cfg head;
              o_wait_time := time - head;
              o_surgery_time := lognormal smp time j x.1.2 x.2 |} ]) /\
    (~ (converge_time cfg < inject_Z head)%Q -> results st' = results st) /\
    (time_of_day cfg head = "day"%string <->
     (night_length cfg * 60 < inject_Z (head mod 1440))%Q) /\
    (time_of_day cfg head = "day"%string \/
     time_of_day cfg head = "night"%string) /\
    (forall w : Z,
       converge_time cfg = inject_Z w ->
       py_int (inject_Z head - converge_time cfg) = head - w).
Proof.
  intros Hn Hq Hj.
  destruct (getitem_lt (distribution_parameters cfg) j Hj) as (x & Hx & _).
  exists (admitted cfg smp time st j head rest x), x.
  split; [exact Hx|].
  split; [apply admit_class_admits; assumption|].
  split; [|split; [|split; [|split]]].
  - intros Hw. simpl. apply Qgt_bool_true in Hw. rewrite Hw. reflexivity.
  - intros Hw. simpl. apply Qgt_bool_false in Hw. rewrite Hw. reflexivity.
  - apply time_of_day_day.
  - unfold time_of_day. destruct (is_day cfg head); auto.
  - intros w ->. apply py_int_sub.
Qed.

(** C7, at the threshold: one room, no warm-up ([converge_time = 0]),
    twelve minutes.  The patient who arrives at minute 0, the minute
    at which the warm-up ends, is served at minute 0 and leaves no
    row; the patient who arrives at minute 1 is served at minute 10
    and leaves the row (class 0, arrival 1 - 0, tag of minute 1,
    wait 10 - 1, surgery 10).  The call returns that one row. *)
Theorem C7_arrival_at_threshold_not_recorded :
  typecheck threshold_args = Ok (embed threshold_config) /\
  converge_time threshold_config = inject_Z 0 /\
  n_patients threshold_config threshold_sampler 0 = [1%nat] /\
  (fun st => (queues st, length (operating_rooms st), results st)) <$>
    run_ticks threshold_config threshold_sampler 1
  = Ok ([[]], 1%nat, []) /\
  fst <$> model_ors threshold_args threshold_sampler
  = Ok [ {| o_class := 0; o_arrival := 1; o_time_of_day := "night";
            o_wait_time := 9; o_surgery_time := 10 |} ].
Proof.
  split; [reflexivity|]. split; [reflexivity|]. split; [reflexivity|].
  split; vm_compute; reflexivity.
Qed.

(** A patient who arrives at minute 480 and is served at minute 481 is
    tagged by the arrival minute (night), not by the minute of
    admission (day). *)
Example tag_of_late_arrival :
  is_day (small_config 1 1 1 8 5) 481 = true /\
  results <$> admit_class (small_config 1 1 1 8 5) (scripted [] 3) 481 1
                late_arrival 0
  = Ok [ {| o_class := 0; o_arrival := 480; o_time_of_day := "night";
            o_wait_time := 1; o_surgery_time := 3 |} ].
Proof. vm_compute. split; reflexivity. Qed.

(** ** Queues stay sorted *)

Lemma queue_ok_weaken b b' q : b <= b' -> queue_ok b q -> queue_ok b' q.
Proof.
  intros Hb [Hs Hall]. split; [exact Hs|].
  eapply Forall_impl; [exact Hall|]. simpl. intros; lia.
Qed.

Lemma StronglySorted_replicate n (t : Z) : StronglySorted Z.le (replicate n t).
Proof.
  induction n as [|n IH]; simpl; constructor; [exact IH|].
  apply Forall_forall. intros a Ha. apply elem_of_replicate in Ha. lia.
Qed.

Lemma queue_ok_append t n q :
  queue_ok (t + 1) q -> queue_ok (t + 1) (q ++ replicate n t).
Proof.
  intros [Hs Hall]. split.
  - apply StronglySorted_app_2; [|exact Hs|apply StronglySorted_replicate].
    intros a b Ha Hb. apply elem_of_replicate in Hb as [-> _].
    apply (proj1 (Forall_forall _ _) Hall) in Ha. lia.
  - apply Forall_app. split; [exact Hall|].
    apply Forall_forall. intros a Ha. apply elem_of_replicate in Ha. lia.
Qed.

Lemma queue_ok_tail b head rest :
  queue_ok b (head :: rest) -> queue_ok b rest /\ Forall (Z.le head) rest.
Proof.
  intros [Hs Hall]. apply StronglySorted_cons in Hs as [Hle Hs].
  apply Forall_cons in Hall as [_ Hall]. repeat split; assumption.
Qed.

(** Arrivals of minute [time] keep the queues sorted. *)
Lemma arrivals_sorted cfg smp time qs qs' :
  foldM (enqueue time (n_patients cfg smp time)) qs (seq 0 (n_classes cfg))
    = Ok qs' ->
  Forall (queue_ok time) qs -> Forall (queue_ok (time + 1)) qs'.
Proof.
  intros H Hall.
  apply (foldM_inv_Ok _ (Forall (queue_ok (time + 1))) (fun _ => True)
           _ _ _ (proj2 (Forall_forall _ _) (fun _ _ => I))) in H;
    [exact H | |].
  - eapply Forall_impl; [exact Hall|]. intros q.
    apply queue_ok_weaken. lia.
  - intros s j s' _ Hs Hstep. unfold enqueue in Hstep.
    apply bind_Ok in Hstep as (n & _ & Hstep).
    destruct (decide (n = 0%nat)); [injection Hstep as <-; exact Hs|].
    apply bind_Ok in Hstep as (q & Hq & Hstep). injection Hstep as <-.
    unfold getitem in Hq. destruct (s !! j) as [q0|] eqn:E; [|discriminate].
    injection Hq as ->.
    apply Forall_insert; [exact Hs|].
    apply queue_ok_append. eapply Forall_lookup_1; eassumption.
Qed.

(** The loop over classes keeps the queues sorted. *)
Lemma admissions_sorted cfg smp time n b st st' :
  length (queues st) = n_classes cfg ->
  foldM (admit_class cfg smp time n) st (seq 0 (n_classes cfg)) = Ok st' ->
  Forall (queue_ok b) (queues st) ->
  length (queues st') = n_classes cfg /\ Forall (queue_ok b) (queues st').
Proof.
  intros Hlen H Hall.
  apply (foldM_inv_Ok _
           (fun s => length (queues s) = n_classes cfg /\
                     Forall (queue_ok b) (queues s))
           (fun j => (j < n_classes cfg)%nat) _ _ _ (Forall_seq_lt _)) in H;
    [exact H | split; assumption |].
  intros s j s' Hj [Hl Hs] Hstep.
  apply admit_class_inv in Hstep; [|assumption..].
  destruct Hstep as [ | |head rest x _ Hq _]; [auto | auto |].
  simpl. rewrite length_insert. split; [exact Hl|].
  apply Forall_insert; [exact Hs|].
  apply (queue_ok_tail b head). eapply Forall_lookup_1; eassumption.
Qed.

Lemma tick_sorted cfg smp st time st' :
  tick cfg smp st time = Ok st' ->
  length (queues st) = n_classes cfg ->
  Forall (queue_ok time) (queues st) ->
  length (queues st') = n_classes cfg /\
  Forall (queue_ok (time + 1)) (queues st').
Proof.
  intros H Hlen Hall.
  apply tick_inv in H as (qs & st2 & Hqs & H2 & H3).
  apply record_utilization_rooms in H3 as (_ & -> & _).
  assert (Hlq : length qs = n_classes cfg).
  { destruct (arrivals_total cfg smp time (queues st) Hlen)
      as (qs0 & Hqs0 & Hl). congruence. }
  apply arrivals_sorted in Hqs; [|exact Hall].
  eapply admissions_sorted; [|exact H2|]; [exact Hlq | exact Hqs].
Qed.

Lemma run_ticks_sorted cfg smp k st :
  run_ticks cfg smp k = Ok st ->
  length (queues st) = n_classes cfg /\
  Forall (queue_ok (Z.of_nat k)) (queues st).
Proof.
  revert st; induction k as [|k IH]; intros st H.
  - injection H as <-. simpl. split; [apply length_replicate|].
    apply Forall_forall. intros q Hq. apply elem_of_replicate in Hq as [-> _].
    split; constructor.
  - rewrite run_ticks_S in H. apply bind_Ok in H as (st0 & H0 & H).
    destruct (IH st0 H0) as [Hlen Hall].
    apply tick_sorted in H; [|assumption..].
    replace (Z.of_nat (S k)) with (Z.of_nat k + 1) by lia. exact H.
Qed.

Lemma queue_ok_fifo b q :
  queue_ok b q ->
  Sorted Z.le q /\
  forall head rest,
    spec_pop_head q = Some (head, rest) ->
    py_remove head q = Ok rest /\ Forall (Z.le head) rest.
Proof.
  intros Hq. split; [apply StronglySorted_Sorted, Hq|].
  intros head rest Hpop. destruct q as [|a q]; [discriminate|].
  injection Hpop as -> ->.
  split; [apply py_remove_head | apply (queue_ok_tail b), Hq].
Qed.

(** A class that is served had a patient waiting. *)
Lemma served_waiting n st l j :
  j ∈ spec_served n st l -> waiting (queues st) j = true.
Proof.
  unfold spec_served, waiting_classes. intros Hj.
  apply subseteq_take in Hj. apply list_elem_of_filter in Hj. tauto.
Qed.

(** C8: under a valid configuration, at any minute [k] of the run,
    every class queue is non-decreasing, both as the minute finds it
    and once the arrivals of the minute are appended (the queues the
    admissions pop from, where equal timestamps occur).  The minute
    ends without an exception and leaves the queue [q] of a class
    that is not served as it is; of a class that is served it leaves
    what [remove], applied to the value at the head of [q], gives,
    which is what taking the head by position gives, every timestamp
    left being at least the one removed. *)
Theorem C8_queue_fifo cfg smp k :
  valid cfg ->
  exists st qs st',
    run_ticks cfg smp k = Ok st /\
    foldM (enqueue (Z.of_nat k) (n_patients cfg smp (Z.of_nat k)))
      (queues st) (seq 0 (n_classes cfg)) = Ok qs /\
    run_ticks cfg smp (S k) = Ok st' /\
    (forall j q,
       queues st !! j = Some q \/ qs !! j = Some q -> Sorted Z.le q) /\
    forall j q,
      qs !! j = Some q ->
      if bool_decide
           (j ∈ spec_served (capacity_at cfg (Z.of_nat k))
                  (open_minute cfg (Z.of_nat k) st qs)
                  (seq 0 (n_classes cfg)))
      then exists head rest,
             spec_pop_head q = Some (head, rest) /\
             py_remove head q = Ok rest /\
             queues st' !! j = Some rest /\
             Forall (Z.le head) rest
      else queues st' !! j = Some q.
Proof.
  intros Hv.
  destruct (run_ticks_total cfg smp k Hv) as (st & Hst & Hwf).
  destruct (tick_serves cfg smp st (Z.of_nat k) Hv Hwf)
    as (qs & st' & Hqs & Hst' & Hserved).
  exists st, qs, st'. split; [exact Hst|]. split; [exact Hqs|].
  split; [rewrite run_ticks_S, Hst; exact Hst'|].
  destruct (run_ticks_sorted cfg smp k st Hst) as [_ Hall].
  pose proof (arrivals_sorted _ _ _ _ _ Hqs Hall) as Hall'.
  split.
  - intros j q [Hq|Hq].
    + apply (queue_ok_fifo (Z.of_nat k)). eapply Forall_lookup_1; eassumption.
    + apply (queue_ok_fifo (Z.of_nat k + 1)).
      eapply Forall_lookup_1; eassumption.
  - intros j q Hq. rewrite (Hserved j q Hq).
    destruct (bool_decide _) eqn:E; [|reflexivity].
    apply bool_decide_eq_true in E. apply served_waiting in E.
    unfold waiting in E. simpl queues in E. rewrite Hq in E.
    destruct q as [|head rest]; [discriminate|].
    exists head, rest. split; [reflexivity|].
    split; [apply py_remove_head|]. split; [reflexivity|].
    apply (queue_ok_tail (Z.of_nat k + 1)).
    eapply Forall_lookup_1; eassumption.
Qed.

Lemma C8_queue_fifo_witness :
  valid (small_config 1 1 1 8 5) /\
  exists st qs st',
    run_ticks (small_config 1 1 1 8 5)
      (scripted [(0, 0%nat); (0, 0%nat); (1, 0%nat)] 9) 0 = Ok st /\
    foldM (enqueue (Z.of_nat 0)
             (n_patients (small_config 1 1 1 8 5)
                (scripted [(0, 0%nat); (0, 0%nat); (1, 0%nat)] 9)
                (Z.of_nat 0)))
      (queues st) (seq 0 (n_classes (small_config 1 1 1 8 5))) = Ok qs /\
    run_ticks (small_config 1 1 1 8 5)
      (scripted [(0, 0%nat); (0, 0%nat); (1, 0%nat)] 9) 1 = Ok st' /\
    (forall j q,
       queues st !! j = Some q \/ qs !! j = Some q -> Sorted Z.le q) /\
    forall j q,
      qs !! j = Some q ->
      if bool_decide
           (j ∈ spec_served
                  (capacity_at (small_config 1 1 1 8 5) (Z.of_nat 0))
                  (open_minute (small_config 1 1 1 8 5) (Z.of_nat 0) st qs)
                  (seq 0 (n_classes (small_config 1 1 1 8 5))))
      then exists head rest,
             spec_pop_head q = Some (head, rest) /\
             py_remove head q = Ok rest /\
             queues st' !! j = Some rest /\
             Forall (Z.le head) rest
      else queues st' !! j = Some q.
Proof.
  split; [unfold valid; simpl; lia|].
  apply (C8_queue_fifo (small_config 1 1 1 8 5)
           (scripted [(0, 0%nat); (0, 0%nat); (1, 0%nat)] 9) 0).
  unfold valid; simpl; lia.
Defined.

(** Two patients of one class arrive at minute 0 and one is served:
    the queue, which held [0; 0], holds [0] after the minute, and
    [0; 1] once the arrival of minute 1 is appended. *)
Example duplicate_timestamps :
  queues <$> run_ticks (small_config 1 1 1 8 5)
               (scripted [(0, 0%nat); (0, 0%nat); (1, 0%nat)] 9) 1
  = Ok [[0]] /\
  py_remove 0 [0; 0; 1] = Ok [0; 1] /\
  spec_pop_head [0; 0; 1] = Some (0, [0; 1]).
Proof. vm_compute. repeat split. Qed.

(** ** The loop on finite numbers

    On a configuration of finite numbers the code of [Full] is the
    loop of the first part, step by step. *)

Lemma fmap_Ok {A B} (g : A -> B) (m : result A) a :
  m = Ok a -> g <$> m = Ok (g a).
Proof. intros ->. reflexivity. Qed.

Lemma foldM_embed {A S T} (emb : S -> T) (f : S -> A -> result S)
    (F : T -> A -> result T) l :
  (forall s a, F (emb s) a = emb <$> f s a) ->
  forall s, foldM F (emb s) l = emb <$> foldM f s l.
Proof.
  intros Hstep. induction l as [|a l IH]; intros s; simpl; [reflexivity|].
  rewrite Hstep. destruct (f s a) as [s'|e]; simpl; [apply IH | reflexivity].
Qed.

Lemma full_n_patients_from smp time (l : list (Q * Q * Q)) :
  forall j,
    Full.n_patients_from smp time j
      ((fun x => (Fin x.1.1, Fin x.1.2, Fin x.2)) <$> l)
    = Ok (imap (fun i x => poisson smp time (j + i) x.1.1) l).
Proof.
  induction l as [|x l IH]; intros j; simpl; [reflexivity|].
  rewrite IH. simpl. rewrite Nat.add_0_r. do 2 f_equal.
  apply imap_ext. intros i y _. simpl. f_equal. lia.
Qed.

Lemma full_n_patients cfg smp time :
  Full.n_patients (embed cfg) smp time = Ok (n_patients cfg smp time).
Proof. apply (full_n_patients_from smp time _ 0%nat). Qed.

Lemma full_release time rooms :
  Full.release time (Fin <$> rooms) = Fin <$> release time rooms.
Proof.
  unfold Full.release, release.
  induction rooms as [|x rooms IH]; [reflexivity|]. simpl.
  destruct (Qeq_bool x (inject_Z time)); simpl; [exact IH | f_equal; exact IH].
Qed.

Lemma full_admit_class cfg smp time n st j :
  Full.admit_class (embed cfg) (converge_time cfg) smp time n
    (embed_state st) j
  = embed_state <$> admit_class cfg smp time n st j.
Proof.
  unfold Full.admit_class, admit_class. simpl Full.operating_rooms.
  rewrite length_fmap.
  destruct (_ <? n); [|reflexivity]. simpl Full.queues.
  destruct (getitem (queues st) j) as [q|e]; [|reflexivity]. simpl.
  destruct q as [|head rest]; [reflexivity|].
  unfold getitem. rewrite list_lookup_fmap.
  destruct (distribution_parameters cfg !! j) as [x|]; [|reflexivity].
  simpl. rewrite Z.eqb_refl. unfold embed_state. simpl.
  rewrite fmap_app. reflexivity.
Qed.

Lemma full_record_utilization cfg time st :
  Full.record_utilization (converge_time cfg) time (embed_state st)
  = embed_state <$> record_utilization cfg time st.
Proof.
  unfold Full.record_utilization, record_utilization.
  destruct (Qgt_bool _ _); [|reflexivity].
  simpl. rewrite length_fmap.
  destruct (getitem (utilization_frac st) _); reflexivity.
Qed.

Lemma full_tick cfg smp st time :
  Full.tick (embed cfg) (converge_time cfg) smp (embed_state st) time
  = embed_state <$> tick cfg smp st time.
Proof.
  unfold Full.tick, tick. rewrite full_n_patients. simpl.
  assert (Hn : Full.n_classes (embed cfg) = n_classes cfg)
    by (unfold Full.n_classes, n_classes; simpl; apply length_fmap).
  rewrite Hn.
  destruct (foldM (enqueue time _) (queues st) _) as [qs|e]; [|reflexivity].
  simpl.
  assert (Hopen : Full.open_minute (embed cfg) time (embed_state st) qs
                  = embed_state (open_minute cfg time st qs)).
  { unfold Full.open_minute, open_minute, embed_state. simpl.
    rewrite full_release. reflexivity. }
  rewrite Hopen.
  change (Full.capacity_at (embed cfg) time) with (capacity_at cfg time).
  rewrite (foldM_embed embed_state
             (admit_class cfg smp time (capacity_at cfg time)))
    by (intros; apply full_admit_class).
  destruct (foldM (admit_class _ _ _ _) _ _) as [st2|e]; [|reflexivity].
  simpl. apply full_record_utilization.
Qed.

Lemma full_utilization_rows cfg st elems :
  forall i,
    Full.utilization_rows (experiment_length cfg) (converge_time cfg)
      (embed_state st) i elems
    = utilization_rows cfg st i elems.
Proof.
  induction elems as [|elem rest IH]; intros i; simpl; [reflexivity|].
  rewrite IH. reflexivity.
Qed.

(** On a configuration of finite numbers [Full.simulate] is
    [simulate]. *)
Lemma full_simulate cfg smp :
  Full.simulate (embed cfg) smp = simulate cfg smp.
Proof.
  unfold Full.simulate, simulate, run. simpl.
  change (Full.init_state (embed cfg)) with
    (embed_state
       {| operating_rooms := [];
          queues := replicate (Full.n_classes (embed cfg)) [];
          utilization_frac := replicate (Z.to_nat (n_day_oprooms cfg + 1)) 0;
          results := [];
          n_oprooms := None |}).
  assert (Hn : Full.n_classes (embed cfg) = n_classes cfg)
    by (unfold Full.n_classes, n_classes; simpl; apply length_fmap).
  rewrite Hn.
  change {| operating_rooms := []; queues := replicate (n_classes cfg) [];
            utilization_frac := replicate (Z.to_nat (n_day_oprooms cfg + 1)) 0;
            results := []; n_oprooms := None |}
    with (init_state cfg).
  rewrite (foldM_embed embed_state (tick cfg smp))
    by (intros; apply full_tick).
  unfold total_ticks.
  destruct (foldM (tick cfg smp) _ _) as [st|e]; [|reflexivity].
  simpl. unfold utilization_results. rewrite full_utilization_rows.
  reflexivity.
Qed.

(** When the checks leave a configuration of finite numbers, the call
    is the simulation of the first part. *)
Lemma model_ors_finite a cfg smp :
  typecheck a = Ok (embed cfg) -> model_ors a smp = simulate cfg smp.
Proof.
  intros H. unfold model_ors. rewrite H. apply full_simulate.
Qed.

(** ** The argument checks *)

Lemma is_ok_bind {A B} (m : result A) (k : A -> result B) :
  is_ok (m ≫= k) = match m with Ok a => is_ok (k a) | Raise _ => false end.
Proof. destruct m; reflexivity. Qed.

Lemma is_ok_true {A} (m : result A) : is_ok m = true -> exists a, m = Ok a.
Proof. destruct m; [eauto | discriminate]. Qed.

Lemma config_only_bind {A B} (m : result A) (k : A -> result B) :
  config_only m -> (forall a, config_only (k a)) -> config_only (m ≫= k).
Proof. destruct m; simpl; auto. Qed.

Lemma check_number_ok v : is_ok (check_number v) = accepted_number v.
Proof.
  destruct v as [| | z | z | q | | negative | | |]; simpl; try reflexivity.
  - destruct (z <? 0); reflexivity.
  - destruct (z <? 0); reflexivity.
  - destruct (Qgt_bool 0 q); reflexivity.
  - destruct negative; reflexivity.
Qed.

Lemma check_number_config v : config_only (check_number v).
Proof.
  destruct v as [| | z | z | q | | negative | | |]; simpl; try reflexivity.
  - destruct (z <? 0); simpl; reflexivity.
  - destruct (z <? 0); simpl; reflexivity.
  - destruct (Qgt_bool 0 q); simpl; reflexivity.
  - destruct negative; simpl; reflexivity.
Qed.

(** A value of the right type is rejected for its range only. *)
Lemma check_number_typed v e :
  typed_number v = true -> check_number v = Raise e -> e = ValueError.
Proof.
  destruct v as [| | z | z | q | | negative | | |]; simpl;
    try discriminate; intros _.
  - destruct (z <? 0); [congruence | discriminate].
  - destruct (z <? 0); [congruence | discriminate].
  - destruct (Qgt_bool 0 q); [congruence | discriminate].
  - destruct negative; [congruence | discriminate].
Qed.

Lemma check_number_finite v x :
  finite_number v = true -> check_number v = Ok x -> exists q, x = Fin q.
Proof.
  destruct v as [| | z | z | q | | negative | | |]; simpl;
    try discriminate; intros _.
  - destruct (z <? 0); [discriminate|]. intros E; injection E as <-. eauto.
  - destruct (z <? 0); [discriminate|]. intros E; injection E as <-. eauto.
  - destruct (Qgt_bool 0 q); [discriminate|]. intros E; injection E as <-.
    eauto.
Qed.

Lemma check_elem_ok v : is_ok (check_elem v) = accepted_triple v.
Proof.
  assert (H : forall items,
    is_ok (check_elem (PyList items))
    = Nat.eqb (length items) 3 && forallb accepted_number items).
  { intros [|a [|b [|c [|d items]]]]; simpl; try reflexivity.
    rewrite !is_ok_bind, <- !check_number_ok.
    destruct (check_number a); simpl; [|reflexivity].
    rewrite is_ok_bind.
    destruct (check_number b); simpl; [|reflexivity].
    rewrite is_ok_bind.
    destruct (check_number c); simpl; reflexivity. }
  destruct v; try reflexivity; apply H.
Qed.

Lemma check_elem_config v : config_only (check_elem v).
Proof.
  assert (H : forall items, config_only (check_elem (PyList items))).
  { intros [|a [|b [|c [|d items]]]]; simpl; try reflexivity.
    repeat (apply config_only_bind; [apply check_number_config | intros ?]).
    exact I. }
  destruct v; try reflexivity; apply H.
Qed.

Lemma check_elems_ok elems :
  is_ok (check_elems elems) = forallb accepted_triple elems.
Proof.
  induction elems as [|elem rest IH]; simpl; [reflexivity|].
  rewrite is_ok_bind, <- check_elem_ok.
  destruct (check_elem elem); simpl; [|reflexivity].
  rewrite is_ok_bind, <- IH. destruct (check_elems rest); reflexivity.
Qed.

Lemma check_elems_config elems : config_only (check_elems elems).
Proof.
  induction elems as [|elem rest IH]; simpl; [exact I|].
  apply config_only_bind; [apply check_elem_config | intros ?].
  apply config_only_bind; [exact IH | intros ?]. exact I.
Qed.

Lemma check_distribution_parameters_ok v :
  is_ok (check_distribution_parameters v) = accepted_distribution_parameters v.
Proof. destruct v; try reflexivity; apply check_elems_ok. Qed.

Lemma check_distribution_parameters_config v :
  config_only (check_distribution_parameters v).
Proof. destruct v; try reflexivity; apply check_elems_config. Qed.

Lemma check_distribution_parameters_typed v e :
  typed_elems v = true ->
  check_distribution_parameters v = Raise e -> e = ValueError.
Proof.
  assert (Helem : forall items,
    match items with
    | [a; b; c] => typed_number a && typed_number b && typed_number c
    | _ => true
    end = true ->
    check_elem (PyList items) = Raise e -> e = ValueError).
  { intros [|a [|b [|c [|d items]]]]; simpl; try congruence.
    intros Ht. apply andb_true_iff in Ht as [Ht Hc].
    apply andb_true_iff in Ht as [Ha Hb].
    destruct (check_number a) eqn:Ea; simpl;
      [|intros E; injection E as <-; exact (check_number_typed a _ Ha Ea)].
    destruct (check_number b) eqn:Eb; simpl;
      [|intros E; injection E as <-; exact (check_number_typed b _ Hb Eb)].
    destruct (check_number c) eqn:Ec; simpl; [discriminate|].
    intros E; injection E as <-. exact (check_number_typed c _ Hc Ec). }
  assert (H : forall elems,
    forallb (fun elem =>
               match elem with
               | PyList items | PyTuple items =>
                   match items with
                   | [a; b; c] =>
                       typed_number a && typed_number b && typed_number c
                   | _ => true
                   end
               | _ => false
               end) elems = true ->
    check_elems elems = Raise e -> e = ValueError).
  { induction elems as [|elem rest IH]; simpl; [discriminate|].
    intros Ht. apply andb_true_iff in Ht as [Ht Hrest].
    destruct (check_elem elem) eqn:Ee; simpl.
    - destruct (check_elems rest) eqn:Er; simpl; [discriminate|].
      intros E; injection E as <-. apply IH; [exact Hrest | reflexivity].
    - intros E; injection E as <-.
      destruct elem; try discriminate; eapply Helem; eassumption. }
  destruct v; try discriminate; apply H.
Qed.

Lemma check_distribution_parameters_finite v l :
  finite_elems v = true ->
  check_distribution_parameters v = Ok l ->
  exists l' : list (Q * Q * Q),
    l = (fun x => (Fin x.1.1, Fin x.1.2, Fin x.2)) <$> l'.
Proof.
  assert (Helem : forall items x,
    forallb finite_number items = true ->
    check_elem (PyList items) = Ok x ->
    exists x' : Q * Q * Q, x = (Fin x'.1.1, Fin x'.1.2, Fin x'.2)).
  { intros [|a [|b [|c [|d items]]]] x; simpl; try discriminate.
    intros Hf. apply andb_true_iff in Hf as [Ha Hf].
    apply andb_true_iff in Hf as [Hb Hf].
    apply andb_true_iff in Hf as [Hc _].
    destruct (check_number a) as [a'|] eqn:Ea; simpl; [|discriminate].
    destruct (check_number b) as [b'|] eqn:Eb; simpl; [|discriminate].
    destruct (check_number c) as [c'|] eqn:Ec; simpl; [|discriminate].
    intros E; injection E as <-.
    destruct (check_number_finite _ _ Ha Ea) as (qa & ->).
    destruct (check_number_finite _ _ Hb Eb) as (qb & ->).
    destruct (check_number_finite _ _ Hc Ec) as (qc & ->).
    exists (qa, qb, qc). reflexivity. }
  assert (H : forall elems l,
    forallb (fun elem =>
               match elem with
               | PyList items | PyTuple items => forallb finite_number items
               | _ => true
               end) elems = true ->
    check_elems elems = Ok l ->
    exists l' : list (Q * Q * Q),
      l = (fun x => (Fin x.1.1, Fin x.1.2, Fin x.2)) <$> l').
  { induction elems as [|elem rest IH]; intros l0; simpl.
    - intros _ E; injection E as <-. exists []. reflexivity.
    - intros Hf. apply andb_true_iff in Hf as [Hf Hrest].
      destruct (check_elem elem) as [x|] eqn:Ee; simpl; [|discriminate].
      destruct (check_elems rest) as [r|] eqn:Er; simpl; [|discriminate].
      intros E; injection E as <-.
      destruct (IH r Hrest eq_refl) as (r' & ->).
      assert (exists x' : Q * Q * Q, x = (Fin x'.1.1, Fin x'.1.2, Fin x'.2))
        as (x' & ->)
        by (destruct elem; try discriminate; eapply Helem; eassumption).
      exists (x' :: r'). reflexivity. }
  destruct v; try discriminate; apply H.
Qed.

Lemma check_n_day_oprooms_config v : config_only (check_n_day_oprooms v).
Proof. destruct v; try reflexivity. simpl. destruct (z <=? 0); reflexivity. Qed.

Lemma check_n_night_oprooms_config d v :
  config_only (check_n_night_oprooms d v).
Proof.
  destruct v; try reflexivity. simpl.
  destruct (z >? d); [reflexivity|]. destruct (z <? 0); reflexivity.
Qed.

Lemma check_n_day_oprooms_Ok v d :
  check_n_day_oprooms v = Ok d -> v = PyInt d /\ 0 < d.
Proof.
  destruct v; try discriminate. simpl.
  destruct (Z.leb_spec z 0); [discriminate|].
  intros E; injection E as <-. auto.
Qed.

Lemma check_n_night_oprooms_Ok d v n :
  0 < d -> check_n_night_oprooms d v = Ok n -> 0 <= n <= d.
Proof.
  intros Hd. destruct v; try discriminate; simpl.
  - intros E; injection E as <-. lia.
  - destruct (Z.gtb_spec z d); [discriminate|].
    destruct (Z.ltb_spec z 0); [discriminate|].
    intros E; injection E as <-. lia.
Qed.

(** Once [n_day_oprooms] has passed its check, the value that the
    check of [n_night_oprooms] sees is not [None]. *)
Lemma n_night_oprooms_defaulted a d :
  check_n_day_oprooms (arg_n_day_oprooms a) = Ok d ->
  match arg_n_night_oprooms a with
  | PyNone => arg_n_day_oprooms a
  | v => v
  end <> PyNone.
Proof.
  intros Hd. apply check_n_day_oprooms_Ok in Hd as [Hd _].
  destruct (arg_n_night_oprooms a); try discriminate.
  rewrite Hd. discriminate.
Qed.

(** The checks raise nothing but [TypeError] and [ValueError]. *)
Lemma typecheck_config a : config_only (typecheck a).
Proof.
  unfold typecheck.
  apply config_only_bind; [apply check_n_day_oprooms_config | intros ?].
  apply config_only_bind;
    [apply check_distribution_parameters_config | intros ?].
  apply config_only_bind; [apply check_n_night_oprooms_config | intros ?].
  repeat (apply config_only_bind; [apply check_number_config | intros ?]).
  exact I.
Qed.

(** The checks pass exactly on the accepted arguments. *)
Lemma typecheck_ok a : is_ok (typecheck a) = accepted a.
Proof.
  unfold typecheck, accepted, accepted_capacities.
  rewrite <- check_distribution_parameters_ok, <- !check_number_ok.
  destruct (arg_n_day_oprooms a) as [| | d | | | | | | |] eqn:Ed;
    try reflexivity.
  simpl check_n_day_oprooms.
  destruct (Z.leb_spec d 0) as [Hd|Hd], (Z.ltb_spec 0 d) as [Hd'|Hd'];
    try lia; [reflexivity|].
  simpl. rewrite is_ok_bind.
  destruct (check_distribution_parameters _); simpl;
    [|rewrite andb_false_r; reflexivity].
  rewrite is_ok_bind.
  assert (Hn : is_ok (check_n_night_oprooms d
            match arg_n_night_oprooms a with
            | PyNone => PyInt d
            | v => v
            end)
          = match arg_n_night_oprooms a with
            | PyNone => true
            | PyInt n => (0 <=? n) && (n <=? d)
            | _ => false
            end).
  { destruct (arg_n_night_oprooms a) as [| | n | | | | | | |]; simpl;
      try reflexivity.
    - destruct (Z.gtb_spec d d), (Z.ltb_spec d 0); (reflexivity || lia).
    - destruct (Z.gtb_spec n d), (Z.ltb_spec n 0), (Z.leb_spec 0 n),
        (Z.leb_spec n d); simpl; (reflexivity || lia). }
  destruct (check_n_night_oprooms d _); simpl in Hn; rewrite <- Hn; simpl;
    [|reflexivity].
  repeat (rewrite is_ok_bind;
          match goal with
          | |- context [check_number ?v] =>
              destruct (check_number v); simpl;
              [|rewrite ?andb_false_r; reflexivity]
          end).
  reflexivity.
Qed.

Lemma typecheck_valid a (cfg : config) :
  typecheck a = Ok (embed cfg) -> 0 < n_day_oprooms cfg /\ valid cfg.
Proof.
  unfold typecheck. intros H.
  apply bind_Ok in H as (d & Hd & H). apply check_n_day_oprooms_Ok in Hd as [_ Hd].
  apply bind_Ok in H as (dist & _ & H).
  apply bind_Ok in H as (n & Hn & H). apply check_n_night_oprooms_Ok in Hn; [|exact Hd].
  apply bind_Ok in H as (nl & _ & H).
  apply bind_Ok in H as (ct & _ & H).
  apply bind_Ok in H as (el & _ & H).
  apply bind_Ok in H as (cl & _ & H).
  injection H as Hd' _ Hn' _. unfold valid. lia.
Qed.

Lemma bind_only {A B} (m : result A) (k : A -> result B) (e0 e : exn) :
  (forall e', m = Raise e' -> e' = e0) ->
  (forall a, m = Ok a -> k a = Raise e -> e = e0) ->
  m ≫= k = Raise e -> e = e0.
Proof.
  destruct m as [a|e']; simpl; intros Hm Hk.
  - apply Hk. reflexivity.
  - intros E; injection E as <-. apply Hm. reflexivity.
Qed.

(** Arguments of the right types are rejected by [ValueError] only. *)
Lemma typecheck_typed a e :
  well_typed a = true -> typecheck a = Raise e -> e = ValueError.
Proof.
  unfold well_typed, int_capacities. intros Ht.
  apply andb_true_iff in Ht as [Ht Hcl].
  apply andb_true_iff in Ht as [Ht Hel].
  apply andb_true_iff in Ht as [Ht Hct].
  apply andb_true_iff in Ht as [Ht Hnl].
  apply andb_true_iff in Ht as [Hcap Hdist].
  unfold typecheck.
  destruct (arg_n_day_oprooms a) as [| | d | | | | | | |]; try discriminate.
  apply bind_only.
  { simpl. intros e'. destruct (d <=? 0); congruence. }
  intros d' _. apply bind_only.
  { intros e'. apply check_distribution_parameters_typed. exact Hdist. }
  intros dist _. apply bind_only.
  { intros e'.
    destruct (arg_n_night_oprooms a) as [| | n | | | | | | |];
      try discriminate; simpl.
    - destruct (d >? d'); [congruence|]. destruct (d <? 0); congruence.
    - destruct (n >? d'); [congruence|]. destruct (n <? 0); congruence. }
  intros n _. apply bind_only.
  { intros e'. apply check_number_typed. exact Hnl. }
  intros nl _. apply bind_only.
  { intros e'. apply check_number_typed. exact Hct. }
  intros ct _. apply bind_only.
  { intros e'. apply check_number_typed. exact Hel. }
  intros el _. apply bind_only.
  { intros e'. apply check_number_typed. exact Hcl. }
  intros cl _. discriminate.
Qed.

(** Accepted arguments whose numbers are finite leave a configuration
    of finite numbers. *)
Lemma typecheck_finite a :
  accepted a = true -> finite_args a = true ->
  exists cfg : config, typecheck a = Ok (embed cfg).
Proof.
  intros Hacc Hfin. rewrite <- typecheck_ok in Hacc.
  apply is_ok_true in Hacc as (c & Hc). revert Hc.
  unfold finite_args in Hfin.
  apply andb_true_iff in Hfin as [Hfin Hfcl].
  apply andb_true_iff in Hfin as [Hfin Hfel].
  apply andb_true_iff in Hfin as [Hfin Hfct].
  apply andb_true_iff in Hfin as [Hfin Hfnl].
  unfold typecheck. intros H.
  apply bind_Ok in H as (d & Hd & H).
  apply bind_Ok in H as (dist & Hdist & H).
  apply bind_Ok in H as (n & Hn & H).
  apply bind_Ok in H as (nl & Hnl & H).
  apply bind_Ok in H as (ct & Hct & H).
  apply bind_Ok in H as (el & Hel & H).
  apply bind_Ok in H as (cl & Hcl & H).
  destruct (check_distribution_parameters_finite _ _ Hfin Hdist) as (l' & ->).
  destruct (check_number_finite _ _ Hfnl Hnl) as (qnl & ->).
  destruct (check_number_finite _ _ Hfct Hct) as (qct & ->).
  destruct (check_number_finite _ _ Hfel Hel) as (qel & ->).
  destruct (check_number_finite _ _ Hfcl Hcl) as (qcl & ->).
  exists {| n_day_oprooms := d; distribution_parameters := l';
            n_night_oprooms := n;
            min_dayonly_class := arg_min_dayonly_class a;
            night_length := qnl; converge_time := qct;
            experiment_length := qel; cleaning_time := qcl |}.
  rewrite Hd; simpl. rewrite Hdist; simpl. rewrite Hn; simpl.
  rewrite Hnl; simpl. rewrite Hct; simpl. rewrite Hel; simpl.
  rewrite Hcl; simpl. reflexivity.
Qed.

(** Where the interface and the checks agree: a non-negative number
    of the interface is accepted, and an accepted number that is
    neither NaN nor infinite is one. *)
Lemma spec_nonneg_number_accepted v :
  spec_nonneg_number v = true -> accepted_number v = true.
Proof.
  destruct v as [| | z | z | q | | negative | | |]; simpl; try discriminate;
    try (destruct (Z.leb_spec 0 z), (Z.ltb_spec z 0);
         (reflexivity || discriminate || lia)).
  - unfold Qgt_bool. intros ->. reflexivity.
  - auto.
Qed.

Lemma accepted_number_spec v :
  accepted_number v = true -> finite_number v = true ->
  spec_nonneg_number v = true.
Proof.
  destruct v as [| | z | z | q | | negative | | |]; simpl; try discriminate;
    try (destruct (Z.leb_spec 0 z), (Z.ltb_spec z 0);
         (reflexivity || discriminate || lia)).
  unfold Qgt_bool. destruct (Qle_bool 0 q); [reflexivity | discriminate].
Qed.

Lemma forallb_impl {A} (f g : A -> bool) l :
  (forall x, f x = true -> g x = true) ->
  forallb f l = true -> forallb g l = true.
Proof.
  intros H. induction l as [|x l IH]; simpl; [reflexivity|].
  intros E. apply andb_true_iff in E as [Hx Hl].
  rewrite (H x Hx), (IH Hl). reflexivity.
Qed.

Lemma conforming_accepted a :
  spec_conforming a = true -> no_long_capacity a = true -> accepted a = true.
Proof.
  unfold spec_conforming, accepted, no_long_capacity. intros Hc Hi.
  repeat (apply andb_true_iff in Hc as [Hc ?]).
  repeat (apply andb_true_iff; split);
    try (apply spec_nonneg_number_accepted; assumption).
  - unfold spec_capacities in Hc. unfold accepted_capacities.
    destruct (arg_n_day_oprooms a); try discriminate. simpl in Hc.
    destruct (arg_n_night_oprooms a); try discriminate; exact Hc.
  - destruct (arg_distribution_parameters a); try discriminate; simpl in *;
      (eapply forallb_impl; [|eassumption]);
      intros elem; destruct elem; try discriminate; simpl;
      intros E; apply andb_true_iff in E as [-> E]; simpl;
      (eapply forallb_impl; [|exact E]);
      apply spec_nonneg_number_accepted.
Qed.

Lemma forallb_impl2 {A} (f g h : A -> bool) l :
  (forall x, f x = true -> g x = true -> h x = true) ->
  forallb f l = true -> forallb g l = true -> forallb h l = true.
Proof.
  intros H. induction l as [|x l IH]; simpl; [reflexivity|].
  intros E E'. apply andb_true_iff in E as [Hx Hl].
  apply andb_true_iff in E' as [Hx' Hl'].
  rewrite (H x Hx Hx'), (IH Hl Hl'). reflexivity.
Qed.

Lemma accepted_conforming a :
  accepted a = true -> finite_args a = true ->
  spec_threshold (arg_min_dayonly_class a) = true ->
  spec_conforming a = true.
Proof.
  unfold spec_conforming, accepted, finite_args. intros Hc Hf Ht.
  repeat (apply andb_true_iff in Hc as [Hc ?]).
  repeat (apply andb_true_iff in Hf as [Hf ?]).
  assert (Htriple : forall elem,
            accepted_triple elem = true ->
            match elem with
            | PyList items | PyTuple items => forallb finite_number items
            | _ => true
            end = true ->
            spec_triple elem = true).
  { intros elem. destruct elem; try discriminate; simpl;
      intros E E'; apply andb_true_iff in E as [-> E]; simpl;
      apply (forallb_impl2 accepted_number finite_number);
      try assumption; apply accepted_number_spec. }
  repeat (apply andb_true_iff; split);
    try (apply accepted_number_spec; assumption); [| |exact Ht].
  - unfold accepted_capacities in Hc. unfold spec_capacities.
    destruct (arg_n_day_oprooms a); try discriminate. simpl.
    destruct (arg_n_night_oprooms a); simpl; try exact Hc;
      rewrite andb_false_r in Hc; discriminate.
  - destruct (arg_distribution_parameters a); try discriminate; simpl in *;
      apply (forallb_impl2 accepted_triple
               (fun elem =>
                  match elem with
                  | PyList items | PyTuple items =>
                      forallb finite_number items
                  | _ => true
                  end)); assumption.
Qed.

Lemma utilization_rows_raises cfg st i elems e :
  utilization_rows cfg st i elems = Raise e ->
  e = UnboundLocalError \/ e = ZeroDivisionError.
Proof.
  revert i; induction elems as [|elem rest IH]; intros i; simpl;
    [discriminate|].
  unfold utilization_row at 1.
  destruct (n_oprooms st); simpl; [|intros E; injection E as <-; auto].
  destruct (Qeq_bool _ 0); simpl; [intros E; injection E as <-; auto|].
  destruct (utilization_rows cfg st (S i) rest) eqn:E; simpl;
    [discriminate|].
  intros E'; injection E' as <-. eapply IH, E.
Qed.

(** Once the arguments are checked the simulation on finite numbers
    raises neither [TypeError] nor [ValueError] (nor [IndexError]). *)
Lemma simulate_raises cfg smp e :
  valid cfg -> simulate cfg smp = Raise e ->
  e = UnboundLocalError \/ e = ZeroDivisionError.
Proof.
  intros Hv. unfold simulate. rewrite run_run_ticks.
  destruct (run_ticks_total cfg smp (Z.to_nat (total_ticks cfg)) Hv)
    as (st & -> & _); simpl.
  unfold utilization_results.
  destruct (utilization_rows cfg st 0 (utilization_frac st)) eqn:E; simpl;
    [discriminate|].
  intros E'; injection E' as <-. eapply utilization_rows_raises, E.
Qed.

(** C9, as the code has it.  Arguments that the checks do not accept
    (a capacity that is not of type [int] or is out of range, a
    [distribution_parameters] that is not a list or tuple of lists or
    tuples of three numbers, a number that is negative or not a
    number) make [model_ors] raise [TypeError] or [ValueError] from
    the checks, whatever the random source: no state is created, no
    draw is made, no minute is run; arguments of the right types are
    rejected by [ValueError].  Accepted arguments pass the checks; when
    their numbers are finite, every prefix of the run then ends
    without an exception, and whatever [model_ors] raises in the end
    is neither [TypeError] nor [ValueError].  Where no capacity is a
    [long], no number is NaN or infinite and [min_dayonly_class] is an
    integer, the accepted arguments are the conforming ones. *)
Theorem C9_configuration_errors a :
  (accepted a = false ->
   exists e,
     typecheck a = Raise e /\ is_config_error e = true /\
     (well_typed a = true -> e = ValueError) /\
     forall smp, model_ors a smp = Raise e) /\
  (accepted a = true ->
   (exists c, typecheck a = Ok c) /\
   (finite_args a = true ->
    exists cfg : config,
      typecheck a = Ok (embed cfg) /\
      (forall smp k, exists st, run_ticks cfg smp k = Ok st) /\
      forall smp e, model_ors a smp = Raise e -> is_config_error e = false)) /\
  (no_long_capacity a = true -> finite_args a = true ->
   spec_threshold (arg_min_dayonly_class a) = true ->
   accepted a = spec_conforming a).
Proof.
  pose proof (typecheck_ok a) as Hok.
  pose proof (typecheck_config a) as Hcfg.
  split; [|split].
  - intros Hc. rewrite Hc in Hok.
    destruct (typecheck a) as [cfg|e] eqn:E; [discriminate|].
    exists e. split; [reflexivity|]. split; [exact Hcfg|].
    split; [intros Ht; eapply typecheck_typed; eassumption|].
    intros smp. unfold model_ors. rewrite E. reflexivity.
  - intros Hc. split.
    + rewrite Hc in Hok. apply is_ok_true in Hok. exact Hok.
    + intros Hf. destruct (typecheck_finite a Hc Hf) as (cfg & E).
      exists cfg. split; [exact E|].
      destruct (typecheck_valid a cfg E) as [_ Hv].
      split.
      * intros smp k.
        destruct (run_ticks_total cfg smp k Hv) as (st & Hst & _). eauto.
      * intros smp e. rewrite (model_ors_finite a cfg smp E). intros Hr.
        destruct (simulate_raises cfg smp e Hv Hr) as [-> | ->]; reflexivity.
  - intros Hl Hf Ht.
    destruct (spec_conforming a) eqn:Es.
    + apply conforming_accepted; assumption.
    + destruct (accepted a) eqn:Ea; [|reflexivity].
      rewrite (accepted_conforming a Ea Hf Ht) in Es. discriminate.
Qed.

Lemma C9_configuration_errors_witness :
  (exists e,
     typecheck bad_args = Raise e /\ is_config_error e = true /\
     (well_typed bad_args = true -> e = ValueError) /\
     forall smp, model_ors bad_args smp = Raise e) /\
  ((exists c, typecheck good_args = Ok c) /\
   (finite_args good_args = true ->
    exists cfg : config,
      typecheck good_args = Ok (embed cfg) /\
      (forall smp k, exists st, run_ticks cfg smp k = Ok st) /\
      forall smp e, model_ors good_args smp = Raise e ->
                    is_config_error e = false)) /\
  accepted good_args = spec_conforming good_args.
Proof.
  split; [|split].
  - apply (proj1 (C9_configuration_errors bad_args)). reflexivity.
  - apply (proj1 (proj2 (C9_configuration_errors good_args))). reflexivity.
  - apply (proj2 (proj2 (C9_configuration_errors good_args))); reflexivity.
Defined.

(** Where the description of the interface fails.  One room given as a
    [long] conforms, and the call raises [TypeError].  A warm-up that
    is NaN does not conform; it passes the checks, and the call raises
    [ValueError] at line 146, once the state is created.  A
    [min_dayonly_class] that is a string does not conform, and the
    call returns. *)
Lemma C9_counterexample :
  (spec_conforming long_args = true /\
   model_ors long_args no_arrivals = Raise TypeError) /\
  (spec_conforming nan_args = false /\
   is_ok (typecheck nan_args) = true /\
   model_ors nan_args no_arrivals = Raise ValueError) /\
  (spec_conforming string_threshold_args = false /\
   is_ok (model_ors string_threshold_args no_arrivals) = true).
Proof. vm_compute. repeat split. Qed.

(** A [mu] that is NaN passes the checks too; the call then runs
    minutes 0 and 1 and raises [ValueError] in minute 2, at the first
    admission ([int(round(nan))] on line 176), when numpy's draw for
    such a [mu] is NaN. *)
Example nan_mu_raises_mid_run :
  exists c,
    typecheck nan_mu_args = Ok c /\
    is_ok (foldM (Full.tick c 0 (scripted [(2, 0%nat)] 10))
             (Full.init_state c) (range 2)) = true /\
    foldM (Full.tick c 0 (scripted [(2, 0%nat)] 10))
      (Full.init_state c) (range 3) = Raise ValueError /\
    model_ors nan_mu_args (scripted [(2, 0%nat)] 10) = Raise ValueError.
Proof. eexists. split; [reflexivity|]. vm_compute. repeat split. Qed.

(** The violations the interface lists, one by one, with the error
    each raises; the other arguments are conforming. *)
Example listed_violations :
  let call day dist night nl ct el cl :=
    typecheck (Build_args day dist night (PyInt 3) nl ct el cl) in
  let triple := PyTuple [PyFloat (1 # 10); PyInt 5; PyFloat (1 # 2)] in
  let ok := PyInt 8 in
  call (PyInt 0) (PyTuple [triple]) PyNone ok ok ok ok = Raise ValueError /\
  call (PyStr "3") (PyTuple [triple]) PyNone ok ok ok ok = Raise TypeError /\
  call (PyLong 3) (PyTuple [triple]) PyNone ok ok ok ok = Raise TypeError /\
  call (PyInt 2) (PyTuple [triple]) (PyInt (-1)) ok ok ok ok
    = Raise ValueError /\
  call (PyInt 2) (PyTuple [triple]) (PyInt 3) ok ok ok ok = Raise ValueError /\
  call (PyInt 2) (PyTuple [triple]) (PyFloat 1) ok ok ok ok = Raise TypeError /\
  call (PyInt 2) (PyStr "x") PyNone ok ok ok ok = Raise TypeError /\
  call (PyInt 2) (PyTuple [PyInt 1]) PyNone ok ok ok ok = Raise TypeError /\
  call (PyInt 2) (PyTuple [PyTuple [PyInt 1; PyInt 2]]) PyNone ok ok ok ok
    = Raise ValueError /\
  call (PyInt 2) (PyTuple [PyTuple [PyInt 1; PyInt (-2); PyInt 3]]) PyNone
       ok ok ok ok = Raise ValueError /\
  call (PyInt 2) (PyTuple [PyTuple [PyInt 1; PyBool true; PyInt 3]]) PyNone
       ok ok ok ok = Raise TypeError /\
  call (PyInt 2) (PyTuple [triple]) PyNone (PyInt (-8)) ok ok ok
    = Raise ValueError /\
  call (PyInt 2) (PyTuple [triple]) PyNone ok (PyFloat (-1)) ok ok
    = Raise ValueError /\
  call (PyInt 2) (PyTuple [triple]) PyNone ok ok (PyInt (-1)) ok
    = Raise ValueError /\
  call (PyInt 2) (PyTuple [triple]) PyNone ok ok ok (PyInt (-60))
    = Raise ValueError /\
  call (PyInt 2) (PyTuple [triple]) PyNone ok ok ok PyNone = Raise TypeError /\
  call (PyInt 2) (PyTuple [triple]) PyNone ok ok ok (PyInf true)
    = Raise ValueError /\
  is_ok (call (PyInt 2) (PyTuple [triple]) PyNone ok ok ok ok) = true /\
  is_ok (call (PyInt 2) (PyTuple [triple]) PyNone PyNaN ok ok (PyInf false))
    = true.
Proof. vm_compute. repeat split. Qed.

(** The argument [min_dayonly_class] is neither checked nor read. *)
Lemma simulate_ignores_min_dayonly_class
    n_day dist n_night v v' nl ct el cl smp :
  Full.simulate
    {| Full.n_day_oprooms := n_day; Full.distribution_parameters := dist;
       Full.n_night_oprooms := n_night; Full.min_dayonly_class := v;
       Full.night_length := nl; Full.converge_time := ct;
       Full.experiment_length := el; Full.cleaning_time := cl |} smp
  = Full.simulate
      {| Full.n_day_oprooms := n_day; Full.distribution_parameters := dist;
         Full.n_night_oprooms := n_night; Full.min_dayonly_class := v';
         Full.night_length := nl; Full.converge_time := ct;
         Full.experiment_length := el; Full.cleaning_time := cl |} smp.
Proof. reflexivity. Qed.

Lemma model_ors_ignores_min_dayonly_class v a smp :
  model_ors (set_min_dayonly_class v a) smp = model_ors a smp.
Proof.
  unfold model_ors, typecheck; simpl.
  destruct (check_n_day_oprooms _); [|reflexivity]; simpl.
  destruct (check_distribution_parameters _); [|reflexivity]; simpl.
  destruct (check_n_night_oprooms _ _); [|reflexivity]; simpl.
  repeat (match goal with
          | |- context [check_number ?x] =>
              destruct (check_number x); [|reflexivity]; simpl
          end).
  apply simulate_ignores_min_dayonly_class.
Qed.

(** ** Day and night *)

(** A minute counts as night when its minute of the day is at most
    [night_length * 60]: the boundary minute itself is a night minute. *)
Lemma is_day_false cfg time :
  is_day cfg time = false <->
  (inject_Z (time mod day_to_min) <= night_length cfg * inject_Z hour_to_min)%Q.
Proof.
  unfold is_day. rewrite Qgt_bool_false. split.
  - apply Qnot_lt_le.
  - apply Qle_not_lt.
Qed.

Lemma capacity_at_night cfg time :
  (inject_Z (time mod day_to_min) <= night_length cfg * inject_Z hour_to_min)%Q ->
  capacity_at cfg time = n_night_oprooms cfg.
Proof.
  intros H. apply is_day_false in H. unfold capacity_at. rewrite H. reflexivity.
Qed.

Lemma capacity_at_day cfg time :
  (night_length cfg * inject_Z hour_to_min < inject_Z (time mod day_to_min))%Q ->
  capacity_at cfg time = n_day_oprooms cfg.
Proof.
  intros H. unfold capacity_at, is_day.
  apply Qgt_bool_true in H. rewrite H. reflexivity.
Qed.

(** Off the boundary minute the capacity is the night capacity exactly
    within the first [night_length * 60] minutes of the day. *)
Lemma capacity_at_off_boundary cfg time :
  ~ (inject_Z (time mod day_to_min) == night_length cfg * inject_Z hour_to_min)%Q ->
  (is_day cfg time = false <->
   (inject_Z (time mod day_to_min) < night_length cfg * inject_Z hour_to_min)%Q).
Proof.
  intros Hne. rewrite is_day_false. split.
  - intros Hle. apply Qle_lt_or_eq in Hle as [Hlt|Heq];
      [exact Hlt | contradiction].
  - apply Qlt_le_weak.
Qed.

(** C4, at the boundary: with the default night of eight hours, two
    rooms by day and one by night, minute 480 is not within the first
    [8 * 60] minutes of the day, and yet one room is open and an
    arrival at that minute is tagged "night". *)
Theorem C4_boundary_minute_is_night :
  exists cfg : config,
    typecheck boundary_args = Ok (embed cfg) /\
    n_day_oprooms cfg = 2 /\ n_night_oprooms cfg = 1 /\
    night_length cfg = inject_Z 8 /\
    ~ (480 mod 1440 < 8 * 60) /\
    is_day cfg 480 = false /\
    capacity_at cfg 480 = 1 /\
    time_of_day cfg 480 = "night"%string /\
    capacity_at cfg 481 = 2.
Proof.
  exists {| n_day_oprooms := 2; distribution_parameters := [];
            n_night_oprooms := 1; min_dayonly_class := PyInt 3;
            night_length := inject_Z 8; converge_time := 100000;
            experiment_length := 2000000; cleaning_time := inject_Z 60 |}.
  split; [reflexivity|].
  repeat split; try reflexivity. vm_compute. discriminate.
Qed.

(** With [night_length = 0] one minute of every day is still a night
    minute. *)
Example no_night_still_one_minute :
  is_day (small_config 2 1 0 0 5) 0 = false /\
  capacity_at (small_config 2 1 0 0 5) 1440 = 1.
Proof. split; reflexivity. Qed.

(** ** Day-only classes *)

(** C1, at a night minute: class 3 is at the threshold
    [min_dayonly_class = 3]; minute 0 is a night minute; the one
    patient, of class 3, who arrives at minute 0 is served in that
    minute: after it the queue of class 3 is empty and one room is
    occupied. *)
Theorem C1_dayonly_class_admitted_at_night :
  exists (cfg : config) st,
    typecheck dayonly_args = Ok (embed cfg) /\
    min_dayonly_class cfg = PyInt 3 /\
    is_day cfg 0 = false /\
    n_patients cfg dayonly_sampler 0 = [0; 0; 0; 1]%nat /\
    foldM (enqueue 0 (n_patients cfg dayonly_sampler 0))
      (queues (init_state cfg)) (seq 0 4) = Ok [[]; []; []; [0]] /\
    spec_served (capacity_at cfg 0)
      (open_minute cfg 0 (init_state cfg) [[]; []; []; [0]]) (seq 0 4)
      = [3%nat] /\
    run_ticks cfg dayonly_sampler 1 = Ok st /\
    queues st = [[]; []; []; []] /\
    occupied st = 1.
Proof.
  exists {| n_day_oprooms := 1;
            distribution_parameters :=
              replicate 4 (1 # 1000, inject_Z 5, inject_Z 1);
            n_night_oprooms := 1; min_dayonly_class := PyInt 3;
            night_length := inject_Z 8; converge_time := 100000;
            experiment_length := 2000000; cleaning_time := inject_Z 60 |}.
  eexists. split; [reflexivity|].
  split; [reflexivity|]. split; [reflexivity|]. split; [reflexivity|].
  split; [reflexivity|]. split; [reflexivity|].
  split; [vm_compute; reflexivity|].
  split; reflexivity.
Qed.

(** In the earlier script, [is_day] reads two global names that the
    module does not bind: every call raises [NameError].  Had the
    module bound them as [model_ors] binds its locals, the test of a
    day-only class would fail on every night minute, whatever the
    rooms and the queue, and be the test of the other classes by
    day. *)
Lemma script_is_day_unbound time night_hours :
  Script.is_day Script.module_globals time night_hours = Raise NameError.
Proof. reflexivity. Qed.

Lemma script_is_day cfg time :
  night_length cfg = inject_Z 8 ->
  Script.is_day {| Script.g_day_to_min := Some day_to_min;
                   Script.g_hour_to_min := Some hour_to_min |} time 8
  = Ok (is_day cfg time).
Proof.
  intros Hn. unfold Script.is_day, is_day. simpl. rewrite Hn. f_equal.
  rewrite <- inject_Z_mult.
  destruct (Z.ltb_spec (8 * hour_to_min) (time mod day_to_min)) as [H|H].
  - symmetry. apply Qgt_bool_true. rewrite <- Zlt_Qlt. exact H.
  - symmetry. apply Qgt_bool_false. rewrite <- Zlt_Qlt. lia.
Qed.

Lemma script_dayonly_test_night g occupied n_oprooms queue time :
  Script.is_day g time 8 = Ok false ->
  Script.dayonly_test g occupied n_oprooms queue time = Ok false.
Proof.
  intros Hn. unfold Script.dayonly_test, Script.py_and. rewrite Hn.
  destruct (occupied <? n_oprooms); simpl; [|reflexivity].
  destruct (Z.of_nat (length queue) =? 0) eqn:E; simpl; [|reflexivity].
  apply Z.eqb_eq in E. rewrite E. reflexivity.
Qed.

Lemma script_dayonly_test_day g occupied n_oprooms queue time :
  Script.is_day g time 8 = Ok true ->
  Script.dayonly_test g occupied n_oprooms queue time
  = Ok (Script.anytime_test occupied n_oprooms queue).
Proof.
  intros Hd. unfold Script.dayonly_test, Script.anytime_test, Script.py_and.
  rewrite Hd. destruct (occupied <? n_oprooms); simpl; [|reflexivity].
  destruct queue; reflexivity.
Qed.

(** ** The utilization histogram *)

Lemma total_insert hist i c d :
  hist !! i = Some c -> total (<[i := c + d]> hist) = total hist + d.
Proof.
  revert i; induction hist as [|x hist IH]; intros [|i] H; simpl in *;
    try discriminate.
  - injection H as ->. lia.
  - rewrite (IH i H). lia.
Qed.

Lemma admit_class_hist cfg smp time n st j st' :
  admit_class cfg smp time n st j = Ok st' ->
  utilization_frac st' = utilization_frac st.
Proof.
  unfold admit_class. destruct (_ <? n); [|intros E; injection E as <-; done].
  intros H. apply bind_Ok in H as (q & _ & H).
  destruct q as [|head rest]; [injection H as <-; done|].
  apply bind_Ok in H as (x & _ & H).
  apply bind_Ok in H as (q' & _ & H). injection H as <-. reflexivity.
Qed.

Lemma record_utilization_total_sum cfg time st st' :
  record_utilization cfg time st = Ok st' ->
  total (utilization_frac st') =
    total (utilization_frac st) +
    (if Qgt_bool (inject_Z time) (converge_time cfg) then 1 else 0).
Proof.
  unfold record_utilization. destruct (Qgt_bool _ _).
  - intros H. apply bind_Ok in H as (c & Hc & H). injection H as <-. simpl.
    apply total_insert. unfold getitem in Hc.
    destruct (_ !! _); [congruence | discriminate].
  - intros E; injection E as <-. lia.
Qed.

Lemma tick_total_sum cfg smp st time st' :
  tick cfg smp st time = Ok st' ->
  total (utilization_frac st') =
    total (utilization_frac st) +
    (if Qgt_bool (inject_Z time) (converge_time cfg) then 1 else 0).
Proof.
  intros H. apply tick_inv in H as (qs & st2 & _ & H2 & H3).
  apply record_utilization_total_sum in H3. rewrite H3. f_equal. f_equal.
  apply (foldM_rel _ (fun s s' => utilization_frac s' = utilization_frac s))
    in H2; [exact H2 | reflexivity | congruence |].
  intros s j s' _. apply admit_class_hist.
Qed.

Lemma sampled_minutes_S cfg k :
  sampled_minutes cfg (S k) =
    sampled_minutes cfg k ++
    (if Qgt_bool (inject_Z (Z.of_nat k)) (converge_time cfg)
     then [Z.of_nat k] else []).
Proof.
  unfold sampled_minutes. rewrite seq_S, fmap_app, filter_app. f_equal.
  change (Z.of_nat <$> [(0 + k)%nat]) with [Z.of_nat k].
  rewrite filter_cons, filter_nil.
  destruct (decide _) as [E|E].
  - rewrite E. reflexivity.
  - apply not_true_is_false in E. rewrite E. reflexivity.
Qed.

(** The buckets sum to the number of minutes [t] of the run with
    [t > converge_time]. *)
Lemma histogram_total cfg smp k st :
  run_ticks cfg smp k = Ok st ->
  total (utilization_frac st) = Z.of_nat (length (sampled_minutes cfg k)).
Proof.
  revert st; induction k as [|k IH]; intros st H.
  - injection H as <-. simpl.
    induction (Z.to_nat _) as [|n IHn]; simpl; [reflexivity | exact IHn].
  - rewrite run_ticks_S in H. apply bind_Ok in H as (st0 & H0 & H).
    apply tick_total_sum in H. rewrite H, (IH st0 H0), sampled_minutes_S.
    rewrite length_app. destruct (Qgt_bool _ _); simpl; lia.
Qed.

(** With an integer warm-up [w], the first [k] minutes hold
    [k - w - 1] sampled minutes (none when [k <= w]): the minute [w]
    itself is not sampled. *)
Lemma sampled_minutes_integer cfg (w : Z) k :
  converge_time cfg = inject_Z w -> 0 <= w ->
  Z.of_nat (length (sampled_minutes cfg k)) = Z.max 0 (Z.of_nat k - w - 1).
Proof.
  intros HW Hw. induction k as [|k IH]; [simpl; lia|].
  rewrite sampled_minutes_S, length_app, Nat2Z.inj_add, IH, HW.
  destruct (Qgt_bool _ _) eqn:E.
  - apply Qgt_bool_true in E. rewrite <- Zlt_Qlt in E. simpl. lia.
  - apply Qgt_bool_false in E. rewrite <- Zlt_Qlt in E. simpl. lia.
Qed.

Lemma total_ticks_integer cfg (w e : Z) :
  converge_time cfg = inject_Z w -> experiment_length cfg = inject_Z e ->
  total_ticks cfg = e + w.
Proof.
  intros HW HE. unfold total_ticks. rewrite HW, HE, <- inject_Z_plus.
  unfold py_int. destruct (Qle_bool _ _); [apply Qfloor_Z | apply Qceiling_Z].
Qed.

(** For an integer warm-up [w >= 0] and an integer experiment length
    [e >= 1] the whole run, of [w + e] minutes, leaves a histogram that
    sums to [e - 1]. *)
Lemma histogram_total_integer cfg smp (w e : Z) :
  valid cfg ->
  converge_time cfg = inject_Z w -> experiment_length cfg = inject_Z e ->
  0 <= w -> 1 <= e ->
  exists st, run cfg smp = Ok st /\ total (utilization_frac st) = e - 1.
Proof.
  intros Hv HW HE Hw He. rewrite run_run_ticks.
  destruct (run_ticks_total cfg smp (Z.to_nat (total_ticks cfg)) Hv)
    as (st & Hst & _).
  exists st. split; [exact Hst|].
  rewrite (histogram_total _ _ _ _ Hst), (sampled_minutes_integer cfg w) by assumption.
  rewrite (total_ticks_integer cfg w e HW HE). lia.
Qed.

(** C5, on a run of [2 + 3] minutes (warm-up 2, experiment length 3,
    no patient): the histogram is updated at minutes 3 and 4 only, and
    its buckets sum to 2, one short of the experiment length. *)
Theorem C5_histogram_total_one_short :
  typecheck (idle_args 2 3) = Ok (embed (idle_config 2 3)) /\
  total_ticks (idle_config 2 3) = 2 + 3 /\
  sampled_minutes (idle_config 2 3) 5 = [3; 4] /\
  exists st,
    run (idle_config 2 3) no_arrivals = Ok st /\
    utilization_frac st = [2; 0] /\
    total (utilization_frac st) = 3 - 1.
Proof.
  split; [reflexivity|]. split; [reflexivity|]. split; [reflexivity|].
  eexists. split; [vm_compute; reflexivity|]. split; reflexivity.
Qed.

(** ** The utilization table *)

(** Every row of the table holds the bucket divided by
    [experiment_length - converge_time]. *)
Lemma utilization_rows_quotient cfg st elems :
  forall i table k row,
    utilization_rows cfg st i elems = Ok table ->
    table !! k = Some row ->
    exists elem,
      elems !! k = Some elem /\
      row.2 = (inject_Z elem / (experiment_length cfg - converge_time cfg))%Q.
Proof.
  induction elems as [|elem rest IH]; intros i table k row H Hk; simpl in H.
  - injection H as <-. discriminate.
  - apply bind_Ok in H as (r & Hr & H).
    apply bind_Ok in H as (rs & Hrs & H). injection H as <-.
    destruct k as [|k]; simpl in Hk.
    + injection Hk as <-. exists elem. split; [reflexivity|].
      unfold utilization_row in Hr. destruct (n_oprooms st); [|discriminate].
      destruct (Qeq_bool _ 0); [discriminate|]. injection Hr as <-. reflexivity.
    + apply (IH _ _ _ _ Hrs Hk).
Qed.

(** C3, on the same run: the bucket of occupancy 0 holds 2, the run
    has [5 - 2 = 3] minutes after the warm-up, and the table gives
    [2 / (3 - 2) = 2] where the bucket over the minutes after the
    warm-up is [2 / 3]. *)
Theorem C3_table_divides_by_difference :
  typecheck (idle_args 2 3) = Ok (embed (idle_config 2 3)) /\
  total_ticks (idle_config 2 3) - 2 = 3 /\
  exists st,
    run (idle_config 2 3) no_arrivals = Ok st /\
    utilization_frac st = [2; 0] /\
    utilization_results (idle_config 2 3) st
    = Ok [("0/1"%string, 2%Q); ("1/1"%string, 0%Q)] /\
    model_ors (idle_args 2 3) no_arrivals
    = Ok ([], [("0/1"%string, 2%Q); ("1/1"%string, 0%Q)]) /\
    ~ (2 == 2 # 3)%Q.
Proof.
  split; [reflexivity|]. split; [reflexivity|].
  eexists. split; [vm_compute; reflexivity|]. split; [reflexivity|].
  split; [vm_compute; reflexivity|]. split; [vm_compute; reflexivity|].
  intros H. vm_compute in H. discriminate.
Qed.

(** A run whose experiment length equals its warm-up ends in a
    division by zero, and a run of no minute in an unbound
    [n_oprooms]. *)
Example degenerate_lengths :
  model_ors (idle_args 3 3) no_arrivals = Raise ZeroDivisionError /\
  model_ors (idle_args 0 0) no_arrivals = Raise UnboundLocalError.
Proof. split; vm_compute; reflexivity. Qed.


(** * Further properties of [model_ors] *)

(** ** What a bucket of the histogram counts *)

Lemma tick_hist cfg smp st time st' :
  tick cfg smp st time = Ok st' ->
  if Qgt_bool (inject_Z time) (converge_time cfg) then
    exists c,
      utilization_frac st !! length (operating_rooms st') = Some c /\
      utilization_frac st' =
        <[length (operating_rooms st') := c + 1]> (utilization_frac st)
  else utilization_frac st' = utilization_frac st.
Proof.
  intros H. apply tick_inv in H as (qs & st2 & _ & H2 & H3).
  apply (foldM_rel _ (fun s s' => utilization_frac s' = utilization_frac s))
    in H2; [| reflexivity | congruence | intros s j s' _; apply admit_class_hist].
  simpl in H2. unfold record_utilization in H3.
  destruct (Qgt_bool _ _).
  - apply bind_Ok in H3 as (c & Hc & H3). injection H3 as <-. simpl.
    exists c. rewrite <- H2. split; [|reflexivity].
    unfold getitem in Hc. destruct (_ !! _); [congruence | discriminate].
  - injection H3 as <-. exact H2.
Qed.

Lemma occupancy_at_run cfg smp k st :
  run_ticks cfg smp (S k) = Ok st ->
  occupancy_at cfg smp (Z.of_nat k) = Some (length (operating_rooms st)).
Proof. unfold occupancy_at. rewrite Nat2Z.id. intros ->. reflexivity. Qed.

Lemma minutes_at_level_S cfg smp k i :
  minutes_at_level cfg smp (S k) i =
    minutes_at_level cfg smp k i ++
    (if Qgt_bool (inject_Z (Z.of_nat k)) (converge_time cfg)
     then if decide (occupancy_at cfg smp (Z.of_nat k) = Some i)
          then [Z.of_nat k] else []
     else []).
Proof.
  unfold minutes_at_level. rewrite sampled_minutes_S, filter_app. f_equal.
  destruct (Qgt_bool _ _); [|reflexivity].
  rewrite filter_cons, filter_nil. reflexivity.
Qed.

(** X1: under a valid configuration, after any number [k] of minutes,
    bucket [i] of the histogram holds the number of minutes [t < k]
    with [t > converge_time] at whose end exactly [i] rooms were
    occupied. *)
Theorem X1_bucket_counts_minutes_at_level cfg smp k :
  valid cfg ->
  exists st,
    run_ticks cfg smp k = Ok st /\
    forall i : nat,
      Z.of_nat i <= n_day_oprooms cfg ->
      utilization_frac st !! i
      = Some (Z.of_nat (length (minutes_at_level cfg smp k i))).
Proof.
  intros Hv. induction k as [|k (st & Hst & IH)].
  - exists (init_state cfg). split; [reflexivity|]. intros i Hi. simpl.
    apply lookup_replicate_2. lia.
  - destruct (run_ticks_total cfg smp (S k) Hv) as (st' & Hst' & _).
    exists st'. split; [exact Hst'|]. intros i Hi.
    rewrite minutes_at_level_S, length_app, (occupancy_at_run _ _ _ _ Hst').
    rewrite run_ticks_S, Hst in Hst'. simpl in Hst'.
    apply tick_hist in Hst'.
    destruct (Qgt_bool _ _).
    + destruct Hst' as (c & Hc & ->).
      destruct (decide (Some (length (operating_rooms st')) = Some i))
        as [E|E].
      * injection E as E. rewrite E in *.
        rewrite list_lookup_insert_eq by (eapply lookup_lt_Some; eassumption).
        rewrite (IH i Hi) in Hc. injection Hc as <-. simpl. f_equal. lia.
      * rewrite list_lookup_insert_ne by congruence.
        rewrite (IH i Hi). simpl. f_equal. lia.
    + rewrite Hst', (IH i Hi). simpl. f_equal. lia.
Qed.

Lemma X1_bucket_counts_minutes_at_level_witness :
  valid evening_config /\
  exists st,
    run_ticks evening_config evening_sampler 1441 = Ok st /\
    forall i : nat,
      Z.of_nat i <= n_day_oprooms evening_config ->
      utilization_frac st !! i
      = Some (Z.of_nat
                (length (minutes_at_level evening_config evening_sampler
                           1441 i))).
Proof.
  split; [unfold valid; simpl; lia|].
  apply (X1_bucket_counts_minutes_at_level evening_config evening_sampler 1441).
  unfold valid; simpl; lia.
Defined.

(** ** A minute, step by step *)

(** What holds when the loop over classes starts, is kept by every
    admission and by the update of the histogram, holds after the
    minute. *)
Lemma tick_preserves (P : state -> Prop) cfg smp st time st' :
  tick cfg smp st time = Ok st' ->
  length (queues st) = n_classes cfg ->
  (forall qs,
     foldM (enqueue time (n_patients cfg smp time)) (queues st)
       (seq 0 (n_classes cfg)) = Ok qs ->
     P (open_minute cfg time st qs)) ->
  (forall s j head rest x,
     P s -> occupied s < capacity_at cfg time ->
     queues s !! j = Some (head :: rest) ->
     distribution_parameters cfg !! j = Some x ->
     P (admitted cfg smp time s j head rest x)) ->
  (forall s s', P s -> record_utilization cfg time s = Ok s' -> P s') ->
  P st'.
Proof.
  intros H Hlen Hopen Hadmit Hrec.
  apply tick_inv in H as (qs & st2 & Hqs & H2 & H3).
  apply (Hrec st2); [|exact H3].
  assert (Hlq : length qs = n_classes cfg).
  { destruct (arrivals_total cfg smp time (queues st) Hlen)
      as (qs0 & Hqs0 & Hl). congruence. }
  apply (foldM_inv_Ok _
           (fun s => P s /\ length (queues s) = n_classes cfg)
           (fun j => (j < n_classes cfg)%nat) _ _ _ (Forall_seq_lt _)) in H2;
    [tauto | split; [apply Hopen, Hqs | exact Hlq] |].
  intros s j s' Hj [Hs Hl] Hstep.
  apply admit_class_inv in Hstep; [|assumption..].
  destruct Hstep as [ | |head rest x Hfree Hq Hx]; [auto | auto |].
  split; [apply Hadmit; assumption|].
  simpl. rewrite length_insert. exact Hl.
Qed.

(** The same over a whole prefix of the run. *)
Lemma run_ticks_preserves (P : nat -> state -> Prop) cfg smp :
  P 0%nat (init_state cfg) ->
  (forall k st st',
     run_ticks cfg smp k = Ok st -> P k st ->
     tick cfg smp st (Z.of_nat k) = Ok st' -> P (S k) st') ->
  forall k st, run_ticks cfg smp k = Ok st -> P k st.
Proof.
  intros H0 Hstep. induction k as [|k IH]; intros st H.
  - injection H as <-. exact H0.
  - rewrite run_ticks_S in H. apply bind_Ok in H as (st0 & Hst0 & H).
    eapply Hstep; eauto.
Qed.

(** The queues once the arrivals of a minute are appended. *)
Lemma enqueue_lookup time counts l :
  NoDup l ->
  forall qs qs',
    foldM (enqueue time counts) qs l = Ok qs' ->
    forall j,
      qs' !! j =
        if bool_decide (j ∈ l)
        then (fun q => q ++ replicate (default 0%nat (counts !! j)) time)
               <$> qs !! j
        else qs !! j.
Proof.
  induction l as [|j0 l IH]; intros Hnd qs qs' H j.
  - injection H as <-. reflexivity.
  - apply NoDup_cons in Hnd as [Hj0 Hnd]. simpl in H.
    apply bind_Ok in H as (qs1 & H1 & H).
    rewrite (IH Hnd qs1 qs' H j).
    unfold enqueue in H1. apply bind_Ok in H1 as (n & Hn & H1).
    unfold getitem in Hn.
    destruct (counts !! j0) as [n0|] eqn:Ec; [|discriminate].
    injection Hn as ->.
    destruct (decide (j = j0)) as [->|Hne].
    + rewrite bool_decide_eq_false_2 by exact Hj0.
      rewrite bool_decide_eq_true_2 by apply list_elem_of_here.
      rewrite Ec. simpl.
      destruct (decide (n = 0%nat)) as [->|Hn0].
      * injection H1 as <-. destruct (qs !! j0); simpl; [|reflexivity].
        rewrite app_nil_r. reflexivity.
      * apply bind_Ok in H1 as (q & Hq & H1). injection H1 as <-.
        unfold getitem in Hq. destruct (qs !! j0) as [q0|] eqn:Eq;
          [|discriminate].
        injection Hq as ->. simpl.
        rewrite list_lookup_insert_eq; [reflexivity|].
        eapply lookup_lt_Some; eassumption.
    + assert (Hsame : qs1 !! j = qs !! j).
      { destruct (decide (n = 0%nat)); [injection H1 as <-; reflexivity|].
        apply bind_Ok in H1 as (q & _ & H1). injection H1 as <-.
        apply list_lookup_insert_ne. congruence. }
      rewrite Hsame.
      destruct (decide (j ∈ l)) as [Hin|Hnin].
      * rewrite !bool_decide_eq_true_2;
          [reflexivity | apply list_elem_of_further, Hin | exact Hin].
      * rewrite !bool_decide_eq_false_2; [reflexivity | | exact Hnin].
        intros Hin. apply elem_of_cons in Hin as [?|?]; contradiction.
Qed.

Lemma arrivals_lookup cfg smp time qs qs' j q x :
  foldM (enqueue time (n_patients cfg smp time)) qs (seq 0 (n_classes cfg))
    = Ok qs' ->
  qs !! j = Some q -> distribution_parameters cfg !! j = Some x ->
  qs' !! j = Some (q ++ replicate (poisson smp time j x.1.1) time).
Proof.
  intros H Hq Hx.
  rewrite (enqueue_lookup _ _ _ (NoDup_seq _ _) _ _ H j).
  rewrite bool_decide_eq_true_2.
  - rewrite Hq. unfold n_patients. rewrite list_lookup_imap, Hx. reflexivity.
  - apply elem_of_seq. apply lookup_lt_Some in Hx. unfold n_classes. lia.
Qed.

(** ** Conservation of arrivals *)

Lemma drop_cons_inv {A} (l : list A) m h r :
  drop m l = h :: r -> drop (S m) l = r /\ (S m <= length l)%nat.
Proof.
  revert m; induction l as [|a l IH]; intros [|m] H; simpl in *;
    try discriminate.
  - injection H as -> ->. split; [apply drop_0 | lia].
  - destruct (IH m H) as [H1 H2]. split; [exact H1 | lia].
Qed.

(** X2: under a valid configuration, after any number [k] of minutes
    the queue of a class is what is left of its arrival stream once a
    number [m] of patients have been taken from its front: no arrival
    is lost, duplicated or overtaken while it waits. *)
Theorem X2_queue_is_suffix_of_arrivals cfg smp k j :
  valid cfg -> (j < n_classes cfg)%nat ->
  exists st m,
    run_ticks cfg smp k = Ok st /\
    (m <= length (arrival_stream cfg smp j k))%nat /\
    queues st !! j = Some (drop m (arrival_stream cfg smp j k)).
Proof.
  intros Hv Hj.
  destruct (run_ticks_total cfg smp k Hv) as (st & Hst & _).
  exists st.
  cut (length (queues st) = n_classes cfg /\
       forall i, (i < n_classes cfg)%nat ->
         exists m, (m <= length (arrival_stream cfg smp i k))%nat /\
                   queues st !! i = Some (drop m (arrival_stream cfg smp i k))).
  { intros [_ H]. destruct (H j Hj) as (m & Hm & Hq). exists m. auto. }
  clear Hj j.
  revert k st Hst.
  apply (run_ticks_preserves
    (fun k st =>
       length (queues st) = n_classes cfg /\
       forall i, (i < n_classes cfg)%nat ->
         exists m, (m <= length (arrival_stream cfg smp i k))%nat /\
                   queues st !! i = Some (drop m (arrival_stream cfg smp i k)))).
  - split; [apply length_replicate|]. intros i Hi. exists 0%nat.
    split; [simpl; lia|]. simpl. apply lookup_replicate_2, Hi.
  - intros k st st' Hst [Hlen IH] Htick.
    split; [apply (tick_sorted _ _ _ _ _ Htick Hlen),
              (proj2 (run_ticks_sorted _ _ _ _ Hst))|].
    refine (tick_preserves
      (fun s => forall i, (i < n_classes cfg)%nat ->
         exists m, (m <= length (arrival_stream cfg smp i (S k)))%nat /\
                   queues s !! i
                   = Some (drop m (arrival_stream cfg smp i (S k))))
      _ _ _ _ _ Htick Hlen _ _ _).
    + intros qs Hqs i Hi. destruct (IH i Hi) as (m & Hm & Hq).
      destruct (lookup_lt_is_Some_2 (distribution_parameters cfg) i Hi)
        as [x Hx].
      exists m. simpl arrival_stream. rewrite length_app.
      split; [lia|]. simpl queues.
      rewrite (arrivals_lookup _ _ _ _ _ _ _ _ Hqs Hq Hx).
      rewrite drop_app_le by exact Hm.
      unfold arrival_rate. rewrite Hx. reflexivity.
    + intros s j head rest x Hs _ Hq _ i Hi.
      destruct (Hs i Hi) as (m & Hm & Hqi). simpl queues.
      destruct (decide (i = j)) as [->|Hne].
      * rewrite Hq in Hqi. injection Hqi as Hqi. symmetry in Hqi.
        apply drop_cons_inv in Hqi as [Hd Hl].
        exists (S m). split; [exact Hl|].
        rewrite list_lookup_insert_eq by (eapply lookup_lt_Some; eassumption).
        f_equal. symmetry. exact Hd.
      * exists m. split; [exact Hm|].
        rewrite list_lookup_insert_ne by congruence. exact Hqi.
    + intros s s' Hs Hrec i Hi.
      apply record_utilization_rooms in Hrec as (_ & -> & _). auto.
Qed.

Lemma X2_queue_is_suffix_of_arrivals_witness :
  valid one_room /\
  (0 < n_classes one_room)%nat /\
  exists st m,
    run_ticks one_room crowded 2 = Ok st /\
    (m <= length (arrival_stream one_room crowded 0 2))%nat /\
    queues st !! 0%nat = Some (drop m (arrival_stream one_room crowded 0 2)).
Proof.
  split; [unfold valid; simpl; lia|]. split; [vm_compute; lia|].
  apply (X2_queue_is_suffix_of_arrivals one_room crowded 2 0).
  - unfold valid; simpl; lia.
  - vm_compute; lia.
Defined.

(** ** How long a room stays occupied *)

Lemma release_keeps time rooms x :
  x ∈ rooms -> ~ (x == inject_Z time)%Q -> x ∈ release time rooms.
Proof.
  intros Hin Hne. unfold release. apply list_elem_of_In, List.filter_In.
  split; [apply list_elem_of_In, Hin|].
  destruct (Qeq_bool x (inject_Z time)) eqn:E; [|reflexivity].
  apply Qeq_bool_iff in E. contradiction.
Qed.

Lemma release_inv time rooms x :
  x ∈ release time rooms -> x ∈ rooms /\ ~ (x == inject_Z time)%Q.
Proof.
  unfold release. intros H. apply list_elem_of_In, List.filter_In in H as [Hin E].
  split; [apply list_elem_of_In, Hin|].
  apply negb_true_iff, Qeq_bool_neq in E. exact E.
Qed.

Lemma tick_keeps_room cfg smp st time st' x :
  tick cfg smp st time = Ok st' ->
  length (queues st) = n_classes cfg ->
  x ∈ operating_rooms st -> ~ (x == inject_Z time)%Q ->
  x ∈ operating_rooms st'.
Proof.
  intros H Hlen Hin Hne.
  refine (tick_preserves (fun s => x ∈ operating_rooms s)
            _ _ _ _ _ H Hlen _ _ _).
  - intros qs _. simpl. apply release_keeps; assumption.
  - intros s j head rest y Hs _ _ _. simpl. apply elem_of_app. left. exact Hs.
  - intros s s' Hs Hrec.
    apply record_utilization_rooms in Hrec as (-> & _). exact Hs.
Qed.

(** X3: under a valid configuration, a room occupied after [k] minutes
    is still occupied after [k + d] minutes unless its release time is
    one of the minutes [k .. k + d - 1]: rooms are released by equality
    with the clock only.  So a room whose release time is already past
    (a surgery of length 0 with no cleaning time gives one, released
    at the minute it was taken) or is not a whole minute stays
    occupied for the rest of the run. *)
Theorem X3_room_kept_until_due cfg smp k d x :
  valid cfg ->
  exists st st',
    run_ticks cfg smp k = Ok st /\
    run_ticks cfg smp (k + d) = Ok st' /\
    (x ∈ operating_rooms st ->
     (forall t : nat, (k <= t < k + d)%nat -> ~ (x == inject_Z (Z.of_nat t))%Q) ->
     x ∈ operating_rooms st') /\
    (x ∈ operating_rooms st -> (x < inject_Z (Z.of_nat k))%Q ->
     x ∈ operating_rooms st').
Proof.
  intros Hv.
  destruct (run_ticks_total cfg smp k Hv) as (st & Hst & _).
  destruct (run_ticks_total cfg smp (k + d) Hv) as (st' & Hst' & _).
  exists st, st'. split; [exact Hst|]. split; [exact Hst'|].
  assert (Hmain : x ∈ operating_rooms st ->
     (forall t : nat, (k <= t < k + d)%nat -> ~ (x == inject_Z (Z.of_nat t))%Q) ->
     x ∈ operating_rooms st').
  { intros Hin. revert st' Hst'. induction d as [|d IH]; intros st' Hst' Hne.
    - rewrite Nat.add_0_r in Hst'. congruence.
    - destruct (run_ticks_total cfg smp (k + d) Hv) as (st1 & Hst1 & _).
      replace (k + S d)%nat with (S (k + d)) in Hst' by lia.
      rewrite run_ticks_S, Hst1 in Hst'. simpl in Hst'.
      apply (tick_keeps_room _ _ _ _ _ _ Hst').
      + apply (run_ticks_sorted _ _ _ _ Hst1).
      + apply (IH st1 Hst1). intros t Ht. apply Hne. lia.
      + apply Hne. lia. }
  split; [exact Hmain|].
  intros Hin Hlt. apply Hmain; [exact Hin|].
  intros t Ht Heq. rewrite Heq in Hlt. rewrite <- Zlt_Qlt in Hlt. lia.
Qed.

Lemma X3_room_kept_until_due_witness :
  valid evening_config /\
  exists st st',
    run_ticks evening_config evening_sampler 1440 = Ok st /\
    run_ticks evening_config evening_sampler (1440 + 1) = Ok st' /\
    (inject_Z 1448 ∈ operating_rooms st ->
     (forall t : nat, (1440 <= t < 1440 + 1)%nat ->
                      ~ (inject_Z 1448 == inject_Z (Z.of_nat t))%Q) ->
     inject_Z 1448 ∈ operating_rooms st') /\
    (inject_Z 1448 ∈ operating_rooms st ->
     (inject_Z 1448 < inject_Z (Z.of_nat 1440))%Q ->
     inject_Z 1448 ∈ operating_rooms st').
Proof.
  split; [unfold valid; simpl; lia|].
  apply (X3_room_kept_until_due evening_config evening_sampler 1440 1
           (inject_Z 1448)).
  unfold valid; simpl; lia.
Defined.

(** With no cleaning time a surgery of length 0 takes the one room at
    minute 0 for good: the second patient is still waiting after ten
    minutes. *)
Example zero_length_surgery_blocks_room :
  (fun st => (operating_rooms st, queues st)) <$>
    run_ticks (small_config 1 1 1 8 10)
      (scripted [(0, 0%nat); (1, 0%nat)] 0) 10
  = Ok ([inject_Z 0 + inject_Z 0 + 0]%Q, [[1]]).
Proof. vm_compute. reflexivity. Qed.

Lemma Forall_release (P : Q -> Prop) time rooms :
  Forall P rooms ->
  Forall (fun x => P x /\ ~ (x == inject_Z time)%Q) (release time rooms).
Proof.
  intros H. apply Forall_forall. intros x Hx.
  apply release_inv in Hx as [Hin Hne].
  split; [eapply (proj1 (Forall_forall _ _) H), Hin | exact Hne].
Qed.

(** X4: under a valid configuration with a whole number [c] of
    cleaning minutes and surgeries such that [surgery_time + c >= 1],
    every room occupied after [k] minutes has a release time that is a
    whole minute not before [k]: a room is free again at the minute
    [time + surgery_time + cleaning_time] at the latest. *)
Theorem X4_rooms_released_when_due cfg smp (c : Z) k :
  valid cfg ->
  cleaning_time cfg = inject_Z c ->
  (forall time j mu sigma, 1 <= lognormal smp time j mu sigma + c) ->
  exists st,
    run_ticks cfg smp k = Ok st /\
    Forall (fun x => exists z, x = inject_Z z /\ Z.of_nat k <= z)
           (operating_rooms st).
Proof.
  intros Hv Hc Hs.
  destruct (run_ticks_total cfg smp k Hv) as (st & Hst & _).
  exists st. split; [exact Hst|].
  revert k st Hst.
  apply (run_ticks_preserves
    (fun k st => Forall (fun x => exists z, x = inject_Z z /\ Z.of_nat k <= z)
                        (operating_rooms st))).
  - constructor.
  - intros k st st' Hst IH Htick.
    refine (tick_preserves
      (fun s => Forall (fun x => exists z, x = inject_Z z /\ Z.of_nat (S k) <= z)
                       (operating_rooms s))
      _ _ _ _ _ Htick (proj1 (run_ticks_sorted _ _ _ _ Hst)) _ _ _).
    + intros qs _. simpl.
      eapply Forall_impl; [apply Forall_release, IH|]. simpl.
      intros x [(z & -> & Hz) Hne]. exists z. split; [reflexivity|].
      assert (z <> Z.of_nat k) by (intros ->; apply Hne; reflexivity). lia.
    + intros s j head rest y Hall _ _ _. simpl.
      apply Forall_app. split; [exact Hall|]. constructor; [|constructor].
      exists (Z.of_nat k + lognormal smp (Z.of_nat k) j y.1.2 y.2 + c).
      split; [rewrite Hc, !inject_Z_plus; reflexivity|].
      specialize (Hs (Z.of_nat k) j y.1.2 y.2). lia.
    + intros s s' Hall Hrec.
      apply record_utilization_rooms in Hrec as (-> & _). exact Hall.
Qed.

Lemma X4_rooms_released_when_due_witness :
  valid one_room /\
  cleaning_time one_room = inject_Z 0 /\
  (forall time j mu sigma, 1 <= lognormal crowded time j mu sigma + 0) /\
  exists st,
    run_ticks one_room crowded 4 = Ok st /\
    Forall (fun x => exists z, x = inject_Z z /\ Z.of_nat 4 <= z)
           (operating_rooms st).
Proof.
  split; [unfold valid; simpl; lia|]. split; [reflexivity|].
  split; [intros; simpl; lia|].
  apply (X4_rooms_released_when_due one_room crowded 0 4).
  - unfold valid; simpl; lia.
  - reflexivity.
  - intros; simpl; lia.
Defined.

(** ** The rows of [results] *)

(** A loop over [range], with an invariant that knows the index. *)
Lemma foldM_seq_inv {St} (f : St -> nat -> result St)
    (P : nat -> St -> Prop)
    n i s s' :
  P i s ->
  (forall j s s', (i <= j < i + n)%nat -> P j s -> f s j = Ok s' -> P (S j) s') ->
  foldM f s (seq i n) = Ok s' -> P (i + n)%nat s'.
Proof.
  revert i s; induction n as [|n IH]; intros i s Hs Hstep H; simpl in H.
  - injection H as <-. rewrite Nat.add_0_r. exact Hs.
  - apply bind_Ok in H as (s1 & H1 & H).
    replace (i + S n)%nat with (S i + n)%nat by lia.
    apply (IH (S i) s1); [| |exact H].
    + apply (Hstep i s s1); [lia | exact Hs | exact H1].
    + intros j t t' Hj. apply Hstep. lia.
Qed.

Lemma rows_inv_next cfg smp w time j s :
  rows_inv cfg smp w time j s -> rows_inv cfg smp w time (S j) s.
Proof.
  intros [H1 H2 H3 H4 H5 H6]. split; try assumption.
  eapply Forall_impl; [exact H4|]. simpl. intros r Hr E. specialize (Hr E). lia.
Qed.

Lemma admitted_rows_inv cfg smp w time j s head rest x :
  converge_time cfg = inject_Z w ->
  rows_inv cfg smp w time j s ->
  queues s !! j = Some (head :: rest) ->
  distribution_parameters cfg !! j = Some x ->
  rows_inv cfg smp w time (S j) (admitted cfg smp time s j head rest x).
Proof.
  intros HW [Hlen Hqs Hrows Hturn Hsorted Hbehind] Hq Hx.
  assert (Hj : (j < n_classes cfg)%nat)
    by (apply lookup_lt_Some in Hx; exact Hx).
  assert (Hok : queue_ok (time + 1) (head :: rest))
    by (eapply Forall_lookup_1; eassumption).
  destruct (queue_ok_tail _ _ _ Hok) as [Hrest Hmin].
  assert (Hhead : head < time + 1).
  { destruct Hok as [_ Hall]. apply Forall_cons in Hall as [Hh _]. exact Hh. }
  assert (Hold : forall r q a,
             r ∈ results s ->
             <[j := rest]> (queues s) !! o_class r = Some q -> a ∈ q ->
             o_arrival r + w <= a).
  { intros r q a Hr Hlook Ha.
    destruct (decide (o_class r = j)) as [E|E].
    - rewrite E, list_lookup_insert_eq in Hlook by lia.
      injection Hlook as <-.
      apply (Hbehind r (head :: rest) a Hr); [rewrite E; exact Hq|].
      apply list_elem_of_further, Ha.
    - rewrite list_lookup_insert_ne in Hlook by congruence.
      apply (Hbehind r q a Hr Hlook Ha). }
  unfold admitted.
  destruct (Qgt_bool (inject_Z head) (converge_time cfg)) eqn:Egt.
  - rewrite HW in Egt. apply Qgt_bool_true in Egt. rewrite <- Zlt_Qlt in Egt.
    rewrite HW, py_int_sub.
    set (row := {| o_class := j; o_arrival := head - w |}).
    assert (Hadm : admission_minute w row = time)
      by (unfold admission_minute, row; simpl; lia).
    split; simpl.
    + rewrite length_insert. exact Hlen.
    + apply Forall_insert; assumption.
    + apply Forall_app. split; [exact Hrows|].
      constructor; [|constructor].
      unfold row_ok. rewrite Hadm. simpl.
      replace (head - w + w) with head by lia.
      repeat split; try lia. exists x. split; [exact Hx | reflexivity].
    + apply Forall_app. split.
      * eapply Forall_impl; [exact Hturn|]. simpl.
        intros r Hr E. specialize (Hr E). lia.
      * constructor; [|constructor]. intros _. simpl. lia.
    + apply StronglySorted_app_2; [|exact Hsorted|repeat constructor].
      intros r1 r2 Hr1 Hr2. apply list_elem_of_singleton in Hr2 as ->.
      pose proof (proj1 (Forall_forall _ _) Hrows r1 Hr1) as (_ & _ & _ & Hb & _).
      pose proof (proj1 (Forall_forall _ _) Hturn r1 Hr1) as Ht.
      split.
      * rewrite Hadm.
        destruct (decide (admission_minute w r1 = time)) as [E|E];
          [right; split; [exact E | simpl; apply Ht, E] | left; lia].
      * simpl. intros E.
        pose proof (Hbehind r1 (head :: rest) head Hr1) as Hb1.
        rewrite E in Hb1. specialize (Hb1 Hq (list_elem_of_here _ _)). lia.
    + intros r q a Hr Hlook Ha. apply elem_of_app in Hr as [Hr|Hr].
      * apply (Hold r q a Hr Hlook Ha).
      * apply list_elem_of_singleton in Hr as ->. simpl in *.
        rewrite list_lookup_insert_eq in Hlook by lia.
        injection Hlook as <-.
        pose proof (proj1 (Forall_forall _ _) Hmin a Ha). lia.
  - split; simpl.
    + rewrite length_insert. exact Hlen.
    + apply Forall_insert; assumption.
    + exact Hrows.
    + eapply Forall_impl; [exact Hturn|]. simpl.
      intros r Hr E. specialize (Hr E). lia.
    + exact Hsorted.
    + exact Hold.
Qed.

Lemma row_ok_weaken cfg smp w k k' r :
  k <= k' -> row_ok cfg smp w k r -> row_ok cfg smp w k' r.
Proof.
  unfold row_ok. intros Hk (H1 & H2 & H3 & H4 & H5).
  repeat split; try tauto; lia.
Qed.

Lemma rows_inv_ext cfg smp w time j s s' :
  queues s' = queues s -> results s' = results s ->
  rows_inv cfg smp w time j s -> rows_inv cfg smp w time j s'.
Proof.
  intros Eq Er [H1 H2 H3 H4 H5 H6].
  split; rewrite ?Eq, ?Er; assumption.
Qed.

Lemma tick_rows_inv cfg smp w st time st' :
  converge_time cfg = inject_Z w ->
  tick cfg smp st time = Ok st' ->
  rows_inv cfg smp w (time - 1) (n_classes cfg) st ->
  rows_inv cfg smp w time (n_classes cfg) st'.
Proof.
  intros HW H [Hlen Hqs Hrows Hturn Hsorted Hbehind].
  replace (time - 1 + 1) with time in * by lia.
  apply tick_inv in H as (qs & st2 & Harr & H2 & H3).
  apply record_utilization_rooms in H3 as (_ & Eq & Er & _).
  apply (rows_inv_ext _ _ _ _ _ st2); [exact Eq | exact Er |].
  assert (Hlq : length qs = n_classes cfg).
  { destruct (arrivals_total cfg smp time (queues st) Hlen)
      as (qs0 & Hqs0 & Hl). congruence. }
  apply (foldM_seq_inv _ (rows_inv cfg smp w time) _ _ _ _) in H2;
    [exact H2 | |].
  - split; simpl.
    + exact Hlq.
    + eapply arrivals_sorted; eassumption.
    + eapply Forall_impl; [exact Hrows|]. intros r.
      apply row_ok_weaken. lia.
    + apply Forall_forall. intros r Hr E.
      pose proof (proj1 (Forall_forall _ _) Hrows r Hr) as (_ & _ & _ & Hb & _).
      lia.
    + exact Hsorted.
    + intros r q' a Hr Hlook Ha.
      pose proof (proj1 (Forall_forall _ _) Hrows r Hr)
        as (Hc & Hwait & _ & Hb & _ & x & Hx & _).
      destruct (lookup_lt_is_Some_2 (queues st) (o_class r)) as [q Hq];
        [lia|].
      rewrite (arrivals_lookup _ _ _ _ _ _ _ _ Harr Hq Hx) in Hlook.
      injection Hlook as <-. apply elem_of_app in Ha as [Ha|Ha].
      * apply (Hbehind r q a Hr Hq Ha).
      * apply elem_of_replicate in Ha as [-> _].
        unfold admission_minute in Hb. lia.
  - intros j s s' Hj Hs Hstep.
    apply admit_class_inv in Hstep; [|apply (ri_len _ _ _ _ _ _ Hs) | lia].
    destruct Hstep as [ | |head rest x _ Hq Hx].
    + apply rows_inv_next, Hs.
    + apply rows_inv_next, Hs.
    + apply admitted_rows_inv; assumption.
Qed.

Lemma run_ticks_rows_inv cfg smp w k st :
  converge_time cfg = inject_Z w ->
  run_ticks cfg smp k = Ok st ->
  rows_inv cfg smp w (Z.of_nat k - 1) (n_classes cfg) st.
Proof.
  intros HW. revert k st.
  apply (run_ticks_preserves
           (fun k st => rows_inv cfg smp w (Z.of_nat k - 1) (n_classes cfg) st)).
  - split; simpl; try constructor.
    + apply length_replicate.
    + apply Forall_forall. intros q Hq.
      apply elem_of_replicate in Hq as [-> _]. split; constructor.
    + intros r q a Hr. apply elem_of_nil in Hr. contradiction.
  - intros k st st' _ IH Htick.
    replace (Z.of_nat (S k) - 1) with (Z.of_nat k) by lia.
    eapply tick_rows_inv; eassumption.
Qed.

(** X5: under a valid configuration with a whole number [w] of warm-up
    minutes, after any number [k] of minutes every row of [results]
    is of a class of the configuration, with a wait that is not
    negative, an arrival field of at least 1, an admission minute
    (arrival plus warm-up plus wait) among the first [k], the tag of
    its arrival minute and the surgery time drawn at its admission;
    the rows are in the order of their admission minutes, within one
    minute in the order of their classes, and the rows of one class in
    the order of their arrivals. *)
Theorem X5_rows_in_admission_order cfg smp (w : Z) k :
  valid cfg ->
  converge_time cfg = inject_Z w ->
  exists st,
    run_ticks cfg smp k = Ok st /\
    Forall (row_ok cfg smp w (Z.of_nat k)) (results st) /\
    StronglySorted (row_before w) (results st).
Proof.
  intros Hv HW.
  destruct (run_ticks_total cfg smp k Hv) as (st & Hst & _).
  exists st. split; [exact Hst|].
  destruct (run_ticks_rows_inv cfg smp w k st HW Hst)
    as [_ _ Hrows _ Hsorted _].
  replace (Z.of_nat k - 1 + 1) with (Z.of_nat k) in Hrows by lia.
  split; assumption.
Qed.

Lemma X5_rows_in_admission_order_witness :
  valid one_room /\
  converge_time one_room = inject_Z 0 /\
  exists st,
    run_ticks one_room crowded 19 = Ok st /\
    Forall (row_ok one_room crowded 0 (Z.of_nat 19)) (results st) /\
    StronglySorted (row_before 0) (results st).
Proof.
  split; [unfold valid; simpl; lia|]. split; [reflexivity|].
  apply (X5_rows_in_admission_order one_room crowded 0 19).
  - unfold valid; simpl; lia.
  - reflexivity.
Defined.

(** The patient who arrived at minute 1 behind two others is served at
    minute 18, once the room has been released twice. *)
Example crowded_results :
  results <$> run_ticks one_room crowded 19
  = Ok [ {| o_class := 0; o_arrival := 1; o_time_of_day := "night";
            o_wait_time := 17; o_surgery_time := 9 |} ].
Proof. vm_compute. reflexivity. Qed.

Lemma tick_results_prefix cfg smp st time st' :
  tick cfg smp st time = Ok st' ->
  length (queues st) = n_classes cfg ->
  results st `prefix_of` results st'.
Proof.
  intros H Hlen.
  refine (tick_preserves (fun s => results st `prefix_of` results s)
            _ _ _ _ _ H Hlen _ _ _).
  - intros qs _. simpl. reflexivity.
  - intros s j head rest x Hs _ _ _. simpl.
    destruct (Qgt_bool _ _); [|exact Hs].
    etransitivity; [exact Hs|]. apply prefix_app_r. reflexivity.
  - intros s s' Hs Hrec.
    apply record_utilization_rooms in Hrec as (_ & _ & -> & _). exact Hs.
Qed.

(** X6: under a valid configuration the rows after [k] minutes are the
    first rows after [k + d] minutes: a row, once appended, is neither
    changed nor removed, and running longer only appends. *)
Theorem X6_results_only_grow cfg smp k d :
  valid cfg ->
  exists st st',
    run_ticks cfg smp k = Ok st /\
    run_ticks cfg smp (k + d) = Ok st' /\
    results st `prefix_of` results st'.
Proof.
  intros Hv.
  destruct (run_ticks_total cfg smp k Hv) as (st & Hst & _).
  exists st. induction d as [|d (st1 & _ & Hst1 & IH)].
  - exists st. rewrite Nat.add_0_r. split; [exact Hst|].
    split; [exact Hst | reflexivity].
  - destruct (run_ticks_total cfg smp (k + S d) Hv) as (st' & Hst' & _).
    exists st'. split; [exact Hst|]. split; [exact Hst'|].
    replace (k + S d)%nat with (S (k + d)) in Hst' by lia.
    rewrite run_ticks_S, Hst1 in Hst'. simpl in Hst'.
    etransitivity; [exact IH|].
    eapply tick_results_prefix; [exact Hst'|].
    apply (run_ticks_sorted _ _ _ _ Hst1).
Qed.

Lemma X6_results_only_grow_witness :
  valid one_room /\
  exists st st',
    run_ticks one_room crowded 19 = Ok st /\
    run_ticks one_room crowded (19 + 3) = Ok st' /\
    results st `prefix_of` results st'.
Proof.
  split; [unfold valid; simpl; lia|].
  apply (X6_results_only_grow one_room crowded 19 3).
  unfold valid; simpl; lia.
Defined.

(** ** How a call ends *)

Lemma tick_n_oprooms cfg smp st time st' :
  tick cfg smp st time = Ok st' ->
  length (queues st) = n_classes cfg ->
  n_oprooms st' = Some (capacity_at cfg time).
Proof.
  intros H Hlen.
  refine (tick_preserves (fun s => n_oprooms s = Some (capacity_at cfg time))
            _ _ _ _ _ H Hlen _ _ _).
  - intros qs _. reflexivity.
  - intros s j head rest x Hs _ _ _. exact Hs.
  - intros s s' Hs Hrec.
    apply record_utilization_rooms in Hrec as (_ & _ & _ & ->). exact Hs.
Qed.

Lemma run_ticks_n_oprooms cfg smp k st :
  run_ticks cfg smp (S k) = Ok st ->
  n_oprooms st = Some (capacity_at cfg (Z.of_nat k)).
Proof.
  rewrite run_ticks_S. intros H. apply bind_Ok in H as (st0 & H0 & H).
  eapply tick_n_oprooms; [exact H|]. apply (run_ticks_sorted _ _ _ _ H0).
Qed.

Lemma utilization_rows_table cfg st n i elems :
  n_oprooms st = Some n ->
  Qeq_bool (experiment_length cfg - converge_time cfg) 0 = false ->
  utilization_rows cfg st i elems
  = Ok (imap (fun k elem =>
                ((pretty (Z.of_nat (i + k)) +:+ "/" +:+ pretty n)%string,
                 (inject_Z elem
                  / (experiment_length cfg - converge_time cfg))%Q))
             elems).
Proof.
  intros Hn Hd. revert i. induction elems as [|elem rest IH]; intros i.
  - reflexivity.
  - simpl. unfold utilization_row. rewrite Hn, Hd. simpl.
    rewrite (IH (S i)). simpl. rewrite Nat.add_0_r. do 2 f_equal.
    apply imap_ext. intros k x _. simpl.
    replace (i + S k)%nat with (S (i + k)) by lia. reflexivity.
Qed.

Lemma Qminus_eq_zero (x y : Q) : (x - y == 0)%Q <-> (x == y)%Q.
Proof.
  split; intros H.
  - apply Qeq_trans with (x - y + y)%Q; [ring | rewrite H; ring].
  - rewrite H. ring.
Qed.

(** X7: once the arguments have passed the checks, a call whose loop
    has no minute to run ([int(experiment_length + converge_time)] is
    0) ends in [UnboundLocalError], [n_oprooms] being read on line 204
    before it was ever assigned; and a call that runs at least one
    minute with [experiment_length] equal to [converge_time] ends,
    after the whole run, in [ZeroDivisionError]. *)
Theorem X7_degenerate_lengths_raise a (cfg : config) smp :
  typecheck a = Ok (embed cfg) ->
  (total_ticks cfg <= 0 -> model_ors a smp = Raise UnboundLocalError) /\
  (0 < total_ticks cfg ->
   (experiment_length cfg == converge_time cfg)%Q ->
   model_ors a smp = Raise ZeroDivisionError).
Proof.
  intros Ht. destruct (typecheck_valid a cfg Ht) as [Hd Hv].
  rewrite (model_ors_finite a cfg smp Ht). unfold simulate.
  split.
  - intros Hz. rewrite run_run_ticks.
    replace (Z.to_nat (total_ticks cfg)) with 0%nat by lia.
    simpl. unfold utilization_results. simpl.
    destruct (Z.to_nat (n_day_oprooms cfg + 1)) eqn:E; [lia|]. reflexivity.
  - intros Hz Heq. rewrite run_run_ticks.
    destruct (run_ticks_total cfg smp (Z.to_nat (total_ticks cfg)) Hv)
      as (st & Hst & Hwf).
    rewrite Hst. simpl.
    destruct (Z.to_nat (total_ticks cfg)) as [|k] eqn:E; [lia|].
    apply run_ticks_n_oprooms in Hst.
    unfold utilization_results.
    pose proof (wf_hist _ _ Hwf) as Hl.
    destruct (utilization_frac st) as [|elem rest]; [simpl in Hl; lia|].
    simpl. unfold utilization_row. rewrite Hst.
    apply (proj2 (Qminus_eq_zero _ _)) in Heq.
    apply (proj2 (Qeq_bool_iff _ _)) in Heq. rewrite Heq. reflexivity.
Qed.

Lemma X7_degenerate_lengths_raise_witness :
  typecheck (idle_args 3 3) = Ok (embed (idle_config 3 3)) /\
  (0 < total_ticks (idle_config 3 3) ->
   (experiment_length (idle_config 3 3) == converge_time (idle_config 3 3))%Q ->
   model_ors (idle_args 3 3) no_arrivals = Raise ZeroDivisionError) /\
  typecheck (idle_args 0 0) = Ok (embed (idle_config 0 0)) /\
  (total_ticks (idle_config 0 0) <= 0 ->
   model_ors (idle_args 0 0) no_arrivals = Raise UnboundLocalError).
Proof.
  split; [reflexivity|]. split.
  - apply (proj2 (X7_degenerate_lengths_raise (idle_args 3 3)
                    (idle_config 3 3) no_arrivals eq_refl)).
  - split; [reflexivity|].
    apply (proj1 (X7_degenerate_lengths_raise (idle_args 0 0)
                    (idle_config 0 0) no_arrivals eq_refl)).
Defined.

(** A call that runs at least one minute and does not divide by zero
    returns the rows and the table of its run. *)
Lemma model_ors_returns a (cfg : config) smp :
  typecheck a = Ok (embed cfg) ->
  0 < total_ticks cfg ->
  ~ (experiment_length cfg == converge_time cfg)%Q ->
  exists st,
    run cfg smp = Ok st /\
    Z.of_nat (length (utilization_frac st)) = n_day_oprooms cfg + 1 /\
    model_ors a smp
    = Ok (results st,
          table_of (capacity_at cfg (total_ticks cfg - 1))
                   (experiment_length cfg - converge_time cfg)
                   (utilization_frac st)).
Proof.
  intros Ht Hz Hne. destruct (typecheck_valid a cfg Ht) as [Hd Hv].
  rewrite run_run_ticks.
  destruct (run_ticks_total cfg smp (Z.to_nat (total_ticks cfg)) Hv)
    as (st & Hst & Hwf).
  exists st. split; [exact Hst|].
  split; [rewrite (wf_hist _ _ Hwf); lia|].
  rewrite (model_ors_finite a cfg smp Ht). unfold simulate.
  rewrite run_run_ticks, Hst. simpl.
  destruct (Z.to_nat (total_ticks cfg)) as [|k] eqn:E; [lia|].
  apply run_ticks_n_oprooms in Hst.
  replace (Z.of_nat k) with (total_ticks cfg - 1) in Hst by lia.
  unfold utilization_results.
  rewrite (utilization_rows_table cfg st _ 0 _ Hst).
  - reflexivity.
  - destruct (Qeq_bool _ 0) eqn:Eq; [|reflexivity].
    apply Qeq_bool_iff in Eq. apply (proj1 (Qminus_eq_zero _ _)) in Eq.
    destruct (Hne Eq).
Qed.


(** X8: once the arguments have passed the checks, a call that runs at
    least one minute with [experiment_length] different from
    [converge_time] returns; it returns the rows of the run and a table
    of [n_day_oprooms + 1] entries, entry [i] being the label
    [i/n], with [n] the number of rooms open at the last minute of the
    run and not [n_day_oprooms], and bucket [i] divided by
    [experiment_length - converge_time]. *)
Theorem X8_call_returns_table a (cfg : config) smp :
  typecheck a = Ok (embed cfg) ->
  0 < total_ticks cfg ->
  ~ (experiment_length cfg == converge_time cfg)%Q ->
  exists st,
    run cfg smp = Ok st /\
    Z.of_nat (length (utilization_frac st)) = n_day_oprooms cfg + 1 /\
    model_ors a smp
    = Ok (results st,
          table_of (capacity_at cfg (total_ticks cfg - 1))
                   (experiment_length cfg - converge_time cfg)
                   (utilization_frac st)).
Proof. apply model_ors_returns. Qed.

Lemma X8_call_returns_table_witness :
  typecheck (idle_args 2 3) = Ok (embed (idle_config 2 3)) /\
  0 < total_ticks (idle_config 2 3) /\
  ~ (experiment_length (idle_config 2 3) == converge_time (idle_config 2 3))%Q /\
  exists st,
    run (idle_config 2 3) no_arrivals = Ok st /\
    Z.of_nat (length (utilization_frac st))
    = n_day_oprooms (idle_config 2 3) + 1 /\
    model_ors (idle_args 2 3) no_arrivals
    = Ok (results st,
          table_of (capacity_at (idle_config 2 3)
                      (total_ticks (idle_config 2 3) - 1))
                   (experiment_length (idle_config 2 3)
                    - converge_time (idle_config 2 3))
                   (utilization_frac st)).
Proof.
  split; [reflexivity|]. split; [vm_compute; reflexivity|].
  split; [intros H; vm_compute in H; discriminate|].
  apply (X8_call_returns_table (idle_args 2 3) (idle_config 2 3) no_arrivals).
  - reflexivity.
  - vm_compute; reflexivity.
  - intros H; vm_compute in H; discriminate.
Defined.

(** A run that ends at night labels its table with the night
    capacity. *)
Example table_labelled_by_last_minute :
  snd <$> model_ors (small_args 2 1 0 8 3) no_arrivals
  = Ok [("0/1"%string, inject_Z 2 / (inject_Z 3 - 0));
        ("1/1"%string, inject_Z 0 / (inject_Z 3 - 0));
        ("2/1"%string, inject_Z 0 / (inject_Z 3 - 0))]%Q.
Proof. vm_compute. reflexivity. Qed.

(** ** A run without patients *)

Lemma arrivals_silent cfg smp time qs :
  silent smp ->
  foldM (enqueue time (n_patients cfg smp time)) (replicate (n_classes cfg) [])
    (seq 0 (n_classes cfg)) = Ok qs ->
  qs = replicate (n_classes cfg) [].
Proof.
  intros Hs H. apply list_eq. intros j.
  rewrite (enqueue_lookup _ _ _ (NoDup_seq _ _) _ _ H j).
  destruct (decide (j < n_classes cfg)%nat) as [Hj|Hj].
  - rewrite bool_decide_eq_true_2 by (apply elem_of_seq; lia).
    rewrite lookup_replicate_2 by exact Hj. simpl.
    unfold n_patients. rewrite list_lookup_imap.
    destruct (lookup_lt_is_Some_2 (distribution_parameters cfg) j Hj)
      as [x ->]. simpl. rewrite Hs. reflexivity.
  - rewrite bool_decide_eq_false_2; [reflexivity|].
    intros Hin. apply elem_of_seq in Hin. lia.
Qed.

(** X9: under a valid configuration, when no patient ever arrives (as
    with an empty [distribution_parameters], or with arrival rates 0)
    every prefix of the run leaves all rooms free, all queues empty and
    no row, and every minute after the warm-up is counted in bucket 0
    of the histogram. *)
Theorem X9_run_without_patients cfg smp k :
  valid cfg -> silent smp ->
  exists st,
    run_ticks cfg smp k = Ok st /\
    operating_rooms st = [] /\
    results st = [] /\
    queues st = replicate (n_classes cfg) [] /\
    utilization_frac st
    = Z.of_nat (length (sampled_minutes cfg k))
        :: replicate (Z.to_nat (n_day_oprooms cfg)) 0.
Proof.
  intros Hv Hs.
  destruct (run_ticks_total cfg smp k Hv) as (st & Hst & _).
  exists st. split; [exact Hst|].
  revert k st Hst.
  apply (run_ticks_preserves
    (fun k st =>
       operating_rooms st = [] /\ results st = [] /\
       queues st = replicate (n_classes cfg) [] /\
       utilization_frac st
       = Z.of_nat (length (sampled_minutes cfg k))
           :: replicate (Z.to_nat (n_day_oprooms cfg)) 0)).
  - simpl. repeat split.
    replace (Z.to_nat (n_day_oprooms cfg + 1))
      with (S (Z.to_nat (n_day_oprooms cfg))) by (unfold valid in Hv; lia).
    reflexivity.
  - intros k st st' _ (Hr & Hres & Hq & Hh) Htick.
    assert (Hlen : length (queues st) = n_classes cfg)
      by (rewrite Hq; apply length_replicate).
    assert (H3 : operating_rooms st' = [] /\ results st' = [] /\
                 queues st' = replicate (n_classes cfg) []).
    { refine (tick_preserves
        (fun s => operating_rooms s = [] /\ results s = [] /\
                  queues s = replicate (n_classes cfg) [])
        _ _ _ _ _ Htick Hlen _ _ _).
      - intros qs Hqs. simpl. rewrite Hr, Hres. repeat split.
        rewrite Hq in Hqs. eapply arrivals_silent; eassumption.
      - intros s j head rest x (_ & _ & Hqs) _ Hlook _.
        rewrite Hqs in Hlook. apply lookup_replicate in Hlook as [? _].
        discriminate.
      - intros s s' Hp Hrec.
        apply record_utilization_rooms in Hrec as (-> & -> & -> & _).
        exact Hp. }
    destruct H3 as (Hr' & Hres' & Hq').
    repeat split; try assumption.
    apply tick_hist in Htick. rewrite Hr' in Htick. simpl in Htick.
    rewrite sampled_minutes_S, length_app.
    destruct (Qgt_bool _ _).
    + destruct Htick as (c & Hc & ->). rewrite Hh in *. simpl in *.
      injection Hc as <-. f_equal. lia.
    + rewrite Htick, Hh. simpl. f_equal. lia.
Qed.

Lemma X9_run_without_patients_witness :
  valid (idle_config 2 3) /\ silent no_arrivals /\
  exists st,
    run_ticks (idle_config 2 3) no_arrivals 5 = Ok st /\
    operating_rooms st = [] /\
    results st = [] /\
    queues st = replicate (n_classes (idle_config 2 3)) [] /\
    utilization_frac st
    = Z.of_nat (length (sampled_minutes (idle_config 2 3) 5))
        :: replicate (Z.to_nat (n_day_oprooms (idle_config 2 3))) 0.
Proof.
  split; [unfold valid; simpl; lia|]. split; [intros t j lam; reflexivity|].
  apply (X9_run_without_patients (idle_config 2 3) no_arrivals 5).
  - unfold valid; simpl; lia.
  - intros t j lam; reflexivity.
Defined.

(** ** The sum of the histogram *)

(** X10: under a valid configuration, after any number [k] of minutes
    the buckets of the histogram sum to the number of minutes [t < k]
    with [t > converge_time]; for a whole number [w >= 0] of warm-up
    minutes that is [k - w - 1], or 0 when [k <= w]: minute [w] itself
    is not counted. *)
Theorem X10_histogram_sum cfg smp k :
  valid cfg ->
  exists st,
    run_ticks cfg smp k = Ok st /\
    total (utilization_frac st) = Z.of_nat (length (sampled_minutes cfg k)) /\
    forall w : Z,
      converge_time cfg = inject_Z w -> 0 <= w ->
      total (utilization_frac st) = Z.max 0 (Z.of_nat k - w - 1).
Proof.
  intros Hv.
  destruct (run_ticks_total cfg smp k Hv) as (st & Hst & _).
  exists st. split; [exact Hst|].
  rewrite (histogram_total _ _ _ _ Hst). split; [reflexivity|].
  intros w HW Hw. apply sampled_minutes_integer; assumption.
Qed.

Lemma X10_histogram_sum_witness :
  valid evening_config /\
  exists st,
    run_ticks evening_config evening_sampler 1441 = Ok st /\
    total (utilization_frac st)
    = Z.of_nat (length (sampled_minutes evening_config 1441)) /\
    forall w : Z,
      converge_time evening_config = inject_Z w -> 0 <= w ->
      total (utilization_frac st) = Z.max 0 (Z.of_nat 1441 - w - 1).
Proof.
  split; [unfold valid; simpl; lia|].
  apply (X10_histogram_sum evening_config evening_sampler 1441).
  unfold valid; simpl; lia.
Defined.

(** ** The command line *)

Lemma typecheck_main_args n :
  0 < n -> typecheck (main_args (PyInt n)) = Ok (embed (main_config n)).
Proof.
  intros Hn. unfold typecheck, main_args; simpl.
  destruct (Z.leb_spec n 0); [lia|]. simpl.
  destruct (Z.gtb_spec n n); [lia|].
  destruct (Z.ltb_spec n 0); [lia|]. reflexivity.
Qed.

Lemma snd_imap_pair {A B C} (lab : nat -> A) (g : B -> C) (l : list B) :
  snd <$> imap (fun i x => (lab i, g x)) l = g <$> l.
Proof.
  revert lab; induction l as [|x l IH]; intros lab; [reflexivity|].
  simpl. f_equal. apply (IH (lab ∘ S)).
Qed.

Lemma snd_table_of n d hist :
  snd <$> table_of n d hist = (fun elem => (inject_Z elem / d)%Q) <$> hist.
Proof. apply snd_imap_pair. Qed.

Lemma sum_fractions_table_of n d hist :
  (sum_fractions (table_of n d hist) == inject_Z (total hist) / d)%Q.
Proof.
  unfold sum_fractions. rewrite snd_table_of.
  induction hist as [|x hist IH]; simpl.
  - unfold Qdiv. ring.
  - rewrite IH, inject_Z_plus. unfold Qdiv. ring.
Qed.

Lemma main_config_valid n : 0 < n -> valid (main_config n).
Proof. unfold valid; simpl; lia. Qed.

(** X11: the program prints its usage message unless it is given
    exactly one argument.  Given one, it ends in the exception of
    [int] when that raises, in [TypeError] when [int] gives a [long],
    in [ValueError] when the number of rooms is not positive (each
    before any minute is simulated); and for a positive number [n] of
    rooms it always prints: the table has [n + 1] fractions, and
    these sum to 199999/100000, about 2 and not 1, because the run
    lasts 300000 minutes, counts the 199999 after minute 100000 and
    divides by 200000 - 100000. *)
Theorem X11_main_outcomes int argv smp :
  (length argv <> 2%nat -> main int argv smp = Usage) /\
  (forall prog s,
     argv = [prog; s] ->
     (forall e, int s = Raise e -> main int argv smp = Exception e) /\
     (forall n, int s = Ok (PyLong n) ->
                main int argv smp = Exception TypeError) /\
     (forall n, int s = Ok (PyInt n) -> n <= 0 ->
                main int argv smp = Exception ValueError) /\
     (forall n, int s = Ok (PyInt n) -> 0 < n ->
        exists RESULTS UTILIZATION_RESULTS,
          main int argv smp = Printed RESULTS UTILIZATION_RESULTS /\
          Z.of_nat (length UTILIZATION_RESULTS) = n + 1 /\
          (sum_fractions UTILIZATION_RESULTS == 199999 # 100000)%Q)).
Proof.
  split.
  - intros Hlen. destruct argv as [|a [|b [|c argv]]]; try reflexivity.
    simpl in Hlen. lia.
  - intros prog s ->. unfold main. repeat split.
    + intros e ->. reflexivity.
    + intros n ->. reflexivity.
    + intros n -> Hn. unfold model_ors, typecheck, main_args; simpl.
      destruct (Z.leb_spec n 0); [reflexivity | lia].
    + intros n -> Hn.
      pose proof (typecheck_main_args n Hn) as Ht.
      assert (Htot : total_ticks (main_config n) = 300000)
        by (apply (total_ticks_integer _ 100000 200000); reflexivity).
      destruct (model_ors_returns _ _ smp Ht) as (st & Hst & Hlen & Hm).
      { rewrite Htot. lia. }
      { intros H. vm_compute in H. discriminate. }
      rewrite Hm. eexists. eexists. split; [reflexivity|].
      split; [unfold table_of; rewrite length_imap; exact Hlen|].
      rewrite sum_fractions_table_of.
      rewrite run_run_ticks in Hst.
      rewrite (histogram_total _ _ _ _ Hst).
      rewrite (sampled_minutes_integer _ 100000) by (reflexivity || lia).
      rewrite Htot.
      replace (Z.max 0 (Z.of_nat (Z.to_nat 300000) - 100000 - 1))
        with 199999 by lia.
      vm_compute. reflexivity.
Qed.

Lemma X11_main_outcomes_witness :
  (length ["or_wait_times.py"%string] <> 2%nat ->
   main (fun _ => Ok (PyInt 4)) ["or_wait_times.py"%string] no_arrivals
   = Usage) /\
  exists RESULTS UTILIZATION_RESULTS,
    main (fun _ => Ok (PyInt 4)) ["or_wait_times.py"; "4"]%string no_arrivals
    = Printed RESULTS UTILIZATION_RESULTS /\
    Z.of_nat (length UTILIZATION_RESULTS) = 4 + 1 /\
    (sum_fractions UTILIZATION_RESULTS == 199999 # 100000)%Q.
Proof.
  split.
  - apply (proj1 (X11_main_outcomes (fun _ => Ok (PyInt 4))
                    ["or_wait_times.py"%string] no_arrivals)).
  - apply (proj2 (X11_main_outcomes (fun _ => Ok (PyInt 4))
                    ["or_wait_times.py"; "4"]%string no_arrivals)
             "or_wait_times.py"%string "4"%string eq_refl);
      [reflexivity | lia].
Defined.

(** * Arguments that are not finite *)

Lemma typecheck_fields a c :
  typecheck a = Ok c ->
  check_number (arg_night_length a) = Ok (Full.night_length c) /\
  check_number (arg_converge_time a) = Ok (Full.converge_time c) /\
  check_number (arg_experiment_length a) = Ok (Full.experiment_length c) /\
  check_number (arg_cleaning_time a) = Ok (Full.cleaning_time c).
Proof.
  unfold typecheck. intros H.
  apply bind_Ok in H as (d & _ & H).
  apply bind_Ok in H as (dist & _ & H).
  apply bind_Ok in H as (n & _ & H).
  apply bind_Ok in H as (nl & Hnl & H).
  apply bind_Ok in H as (ct & Hct & H).
  apply bind_Ok in H as (el & Hel & H).
  apply bind_Ok in H as (cl & Hcl & H).
  injection H as <-. simpl. auto.
Qed.



(** An experiment length that is infinite: [OverflowError]. *)
Example infinite_experiment_length :
  model_ors
    {| arg_n_day_oprooms := PyInt 1;
       arg_distribution_parameters := PyTuple [];
       arg_n_night_oprooms := PyNone;
       arg_min_dayonly_class := PyInt 3;
       arg_night_length := PyInt 8;
       arg_converge_time := PyFloat 100000;
       arg_experiment_length := PyInf false;
       arg_cleaning_time := PyInt 60 |} no_arrivals
  = Raise OverflowError.
Proof. reflexivity. Qed.

(** ** A night length that is not finite *)

Lemma foldM_ext {A S} (f g : S -> A -> result S) l :
  (forall s a, f s a = g s a) -> forall s, foldM f s l = foldM g s l.
Proof.
  intros H. induction l as [|a l IH]; intros s; simpl; [reflexivity|].
  rewrite H. destruct (g s a); simpl; [apply IH | reflexivity].
Qed.

(** No minute of the day exceeds the 1440 minutes of 24 hours. *)
Lemma full_is_day_24 c time :
  Full.is_day (with_night_length (Fin (inject_Z 24)) c) time = false.
Proof.
  unfold Full.is_day. simpl. apply Qgt_bool_false.
  rewrite <- inject_Z_mult, <- Zlt_Qlt.
  pose proof (Z.mod_pos_bound time day_to_min ltac:(reflexivity)).
  unfold day_to_min, hour_to_min in *. lia.
Qed.

Lemma full_tick_night c v v' w smp st time :
  (forall t, Full.is_day (with_night_length v c) t = false) ->
  (forall t, Full.is_day (with_night_length v' c) t = false) ->
  Full.tick (with_night_length v c) w smp st time
  = Full.tick (with_night_length v' c) w smp st time.
Proof.
  intros Hv Hv'. unfold Full.tick.
  change (Full.n_patients (with_night_length v c) smp time)
    with (Full.n_patients (with_night_length v' c) smp time).
  destruct (Full.n_patients _ smp time) as [counts|e]; [|reflexivity].
  simpl.
  change (Full.n_classes (with_night_length v c))
    with (Full.n_classes (with_night_length v' c)).
  destruct (foldM (enqueue time counts) _ _) as [qs|e]; [|reflexivity].
  simpl.
  assert (Hcap : Full.capacity_at (with_night_length v c) time
                 = Full.capacity_at (with_night_length v' c) time)
    by (unfold Full.capacity_at; rewrite Hv, Hv'; reflexivity).
  assert (Hopen : Full.open_minute (with_night_length v c) time st qs
                  = Full.open_minute (with_night_length v' c) time st qs)
    by (unfold Full.open_minute; rewrite Hcap; reflexivity).
  rewrite Hopen, Hcap.
  rewrite (foldM_ext
             (Full.admit_class (with_night_length v c) w smp time
                (Full.capacity_at (with_night_length v' c) time))
             (Full.admit_class (with_night_length v' c) w smp time
                (Full.capacity_at (with_night_length v' c) time)));
    [reflexivity|].
  intros s j. unfold Full.admit_class, Full.time_of_day.
  destruct (_ <? _); [|reflexivity].
  destruct (getitem (Full.queues s) j) as [[|head rest]|e];
    try reflexivity.
  simpl. rewrite Hv, Hv'. reflexivity.
Qed.

Lemma full_simulate_night c v v' smp :
  (forall t, Full.is_day (with_night_length v c) t = false) ->
  (forall t, Full.is_day (with_night_length v' c) t = false) ->
  Full.simulate (with_night_length v' c) smp
  = Full.simulate (with_night_length v c) smp.
Proof.
  intros Hv Hv'. unfold Full.simulate.
  change (Full.experiment_length (with_night_length v c))
    with (Full.experiment_length c).
  change (Full.converge_time (with_night_length v c))
    with (Full.converge_time c).
  change (Full.experiment_length (with_night_length v' c))
    with (Full.experiment_length c).
  change (Full.converge_time (with_night_length v' c))
    with (Full.converge_time c).
  destruct (Full.experiment_length c) as [e| |];
    destruct (Full.converge_time c) as [w| |]; try reflexivity.
  change (Full.init_state (with_night_length v c))
    with (Full.init_state (with_night_length v' c)).
  rewrite (foldM_ext (Full.tick (with_night_length v c) w smp)
             (Full.tick (with_night_length v' c) w smp));
    [reflexivity|].
  intros s t. apply full_tick_night; assumption.
Qed.

Lemma typecheck_set_night_length a c v x :
  typecheck a = Ok c -> check_number v = Ok x ->
  typecheck (set_night_length v a) = Ok (with_night_length x c).
Proof.
  unfold typecheck. simpl. intros H Hx.
  apply bind_Ok in H as (d & Hd & H). rewrite Hd. simpl.
  apply bind_Ok in H as (dist & Hdist & H). rewrite Hdist. simpl.
  apply bind_Ok in H as (n & Hn & H). rewrite Hn. simpl.
  apply bind_Ok in H as (nl & Hnl & H). rewrite Hx. simpl.
  apply bind_Ok in H as (ct & Hct & H). rewrite Hct. simpl.
  apply bind_Ok in H as (el & Hel & H). rewrite Hel. simpl.
  apply bind_Ok in H as (cl & Hcl & H). rewrite Hcl. simpl.
  injection H as <-. reflexivity.
Qed.

(** X15: a night length that is NaN or positive infinity passes the
    checks, and the call then does what it does for a night of 24
    hours: the test of the day, [time % 1440 > night_length * 60], is
    false at every minute, so that [n_night_oprooms] rooms are open
    throughout and every row is tagged "night". *)
Theorem X15_nonfinite_night_length a smp :
  accepted a = true ->
  arg_night_length a = PyNaN \/ arg_night_length a = PyInf false ->
  (exists c,
     typecheck a = Ok c /\
     forall time,
       Full.capacity_at c time = Full.n_night_oprooms c /\
       Full.time_of_day c time = "night"%string) /\
  model_ors a smp = model_ors (set_night_length (PyInt 24) a) smp.
Proof.
  intros Hacc Hnl. rewrite <- typecheck_ok in Hacc.
  apply is_ok_true in Hacc as (c & Hc).
  destruct (typecheck_fields a c Hc) as (Hn & _).
  assert (Hspecial : Full.night_length c = NaN \/ Full.night_length c = Inf).
  { destruct Hnl as [E|E]; rewrite E in Hn; simpl in Hn;
      injection Hn as <-; auto. }
  assert (Hnight : forall t, Full.is_day c t = false).
  { intros t. unfold Full.is_day. destruct Hspecial as [-> | ->]; reflexivity. }
  assert (Hnight' : forall t,
            Full.is_day (with_night_length (Full.night_length c) c) t = false).
  { intros t. replace (with_night_length (Full.night_length c) c) with c
      by (destruct c; reflexivity). apply Hnight. }
  split.
  - exists c. split; [exact Hc|]. intros time.
    unfold Full.capacity_at, Full.time_of_day. rewrite Hnight. auto.
  - unfold model_ors.
    rewrite (typecheck_set_night_length a c (PyInt 24) (Fin (inject_Z 24)) Hc
               eq_refl).
    rewrite Hc. simpl.
    rewrite (full_simulate_night c (Full.night_length c) (Fin (inject_Z 24))
               smp); [|exact Hnight'|apply full_is_day_24].
    replace (with_night_length (Full.night_length c) c) with c
      by (destruct c; reflexivity).
    reflexivity.
Qed.

Lemma X15_nonfinite_night_length_witness :
  accepted nan_night_args = true /\
  (arg_night_length nan_night_args = PyNaN \/
   arg_night_length nan_night_args = PyInf false) /\
  (exists c,
     typecheck nan_night_args = Ok c /\
     forall time,
       Full.capacity_at c time = Full.n_night_oprooms c /\
       Full.time_of_day c time = "night"%string) /\
  model_ors nan_night_args (scripted [(0, 0%nat); (0, 0%nat)] 2)
  = model_ors (set_night_length (PyInt 24) nan_night_args)
      (scripted [(0, 0%nat); (0, 0%nat)] 2).
Proof.
  split; [reflexivity|]. split; [left; reflexivity|].
  apply (X15_nonfinite_night_length nan_night_args
           (scripted [(0, 0%nat); (0, 0%nat)] 2));
    [reflexivity | left; reflexivity].
Defined.

(** * The earlier script *)

Module ScriptFacts.
Import ScriptLoop.
#[local] Set Warnings "-clear-no-such-hyp".

(** ** Its function [model_ors] *)

(** X12: the function [model_ors] of the script never returns: it
    raises [TypeError], [ValueError] or [NameError].  It raises
    [NameError], at the loop over the misspelt
    [distirbution_parameters], exactly when its first four checks
    pass: [n_day_oprooms] and [n_classes] are positive and of type
    [int], and [distribution_parameters] is a list or tuple of
    [n_classes] elements.  [TypeError] is for an argument of the wrong
    type and [ValueError] for one out of range, in the order of the
    checks.  Neither the elements of [distribution_parameters] nor the
    last three arguments, whose checks stand in the body of that
    loop, have any part in the outcome. *)
Theorem X12_script_model_ors_always_raises
    (n_day_oprooms n_classes distribution_parameters
     n_night_oprooms night_length converge_time : pyval) :
  let outcome :=
    model_ors n_day_oprooms n_classes distribution_parameters
      n_night_oprooms night_length converge_time in
  let sequence v :=
    match v with
    | PyList elems | PyTuple elems => Some (Z.of_nat (length elems))
    | _ => None
    end in
  (exists e, outcome = Raise e /\
             (e = TypeError \/ e = ValueError \/ e = NameError)) /\
  (outcome = Raise NameError <->
   exists d c,
     n_day_oprooms = PyInt d /\ 0 < d /\ n_classes = PyInt c /\ 0 < c /\
     sequence distribution_parameters = Some c) /\
  (outcome = Raise TypeError <->
   (forall d, n_day_oprooms <> PyInt d) \/
   (exists d, n_day_oprooms = PyInt d /\ 0 < d /\
              ((forall c, n_classes <> PyInt c) \/
               (exists c, n_classes = PyInt c /\ 0 < c /\
                          sequence distribution_parameters = None)))) /\
  (forall dist' x y z,
     sequence dist' = sequence distribution_parameters ->
     model_ors n_day_oprooms n_classes dist' x y z = outcome).
Proof.
  intros outcome sequence. subst outcome sequence. unfold model_ors.
  assert (Hfst : forall e : exn,
    e = TypeError \/ e = ValueError \/ e = NameError ->
    exists e', (Raise e : result unit) = Raise e' /\
               (e' = TypeError \/ e' = ValueError \/ e' = NameError))
    by eauto.
  destruct n_day_oprooms as [| | d | | | | | | |];
    try (split; [apply Hfst; auto|]; split; [naive_solver lia|];
         split; [naive_solver lia|]; reflexivity).
  destruct (Z.leb_spec d 0) as [Hd|Hd].
  { split; [apply Hfst; auto|]. split; [naive_solver lia|].
    split; [naive_solver lia|]. reflexivity. }
  destruct n_classes as [| | c | | | | | | |];
    try (split; [apply Hfst; auto|]; split; [naive_solver lia|];
         split; [naive_solver lia|]; reflexivity).
  destruct (Z.leb_spec c 0) as [Hc|Hc].
  { split; [apply Hfst; auto|]. split; [naive_solver lia|].
    split; [naive_solver lia|]. reflexivity. }
  destruct distribution_parameters as [| | | | | | | | elems | elems];
    try (split; [apply Hfst; auto|]; split; [naive_solver lia|];
         split; [naive_solver lia|];
         intros dist1 x1 x2 x3 Hs; destruct dist1; try reflexivity;
         discriminate).
  all: simpl; destruct (Z.eqb_spec (Z.of_nat (length elems)) c) as [E|E];
    simpl.
  all: split; [apply Hfst; auto|]; split; [naive_solver lia|];
    split; [naive_solver lia|].
  all: intros dist1 x1 x2 x3 Hs; destruct dist1; try discriminate;
    simpl in Hs; injection Hs as ->.
  all: try (rewrite E, Z.eqb_refl; reflexivity).
  all: destruct (Z.eqb_spec (Z.of_nat (length elems)) c);
    [contradiction | reflexivity].
Qed.

(** Conforming arguments, and arguments whose triples and night
    capacity are not: [NameError] both times. *)
Example script_model_ors_calls :
  model_ors (PyInt 3) (PyInt 1)
    (PyTuple [PyTuple [PyFloat (1 # 10); PyInt 5; PyInt 1]])
    PyNone (PyInt 8) (PyFloat 100000) = Raise NameError /\
  model_ors (PyInt 3) (PyInt 1) (PyTuple [PyInt 0])
    (PyStr "x") (PyInt (-8)) PyNone = Raise NameError /\
  model_ors (PyInt 3) (PyInt 2) (PyTuple [PyInt 0])
    PyNone (PyInt 8) (PyFloat 100000) = Raise ValueError /\
  model_ors (PyLong 3) (PyInt 1) (PyTuple [PyInt 0])
    PyNone (PyInt 8) (PyFloat 100000) = Raise TypeError.
Proof. repeat split. Qed.

(** ** Its loop *)

Lemma foldM_raise {A S} (f : S -> A -> result S) s a l e :
  f s a = Raise e -> foldM f s (a :: l) = Raise e.
Proof. intros H. simpl. rewrite H. reflexivity. Qed.

(** X13: the script cannot complete a minute.  Its [is_day] reads the
    global names [day_to_min] and [hour_to_min], which only
    [model_ors] binds, as locals: every call raises [NameError].  So
    whatever the two numbers of rooms and whatever the draws, the
    first minute stops at line 234, once its arrivals are queued and
    before any patient is served: the script ends in [NameError] and
    prints nothing.  The same holds of a minute started in any
    state. *)
Theorem X13_script_stops_in_first_minute smp argv1 argv2 :
  (forall time night_hours,
     Script.is_day Script.module_globals time night_hours = Raise NameError) /\
  (forall n_day_oprooms n_night_oprooms s,
     tick smp n_day_oprooms n_night_oprooms s = Raise NameError) /\
  (forall n_day_oprooms n_night_oprooms k,
     run_ticks smp n_day_oprooms n_night_oprooms (S k) = Raise NameError) /\
  script smp argv1 argv2 = Raise NameError.
Proof.
  assert (Htick : forall nd nn s, tick smp nd nn s = Raise NameError)
    by reflexivity.
  assert (Hrun : forall nd nn k, run_ticks smp nd nn (S k) = Raise NameError).
  { intros nd nn k. unfold run_ticks. rewrite <- cons_seq.
    apply foldM_raise, Htick. }
  split; [reflexivity|]. split; [exact Htick|]. split; [exact Hrun|].
  unfold script. destruct (capacities argv1 argv2) as [nd nn].
  assert (E : Z.to_nat experiment_length
              = S (Z.to_nat (experiment_length - 1)))
    by (unfold experiment_length; lia).
  rewrite E, Hrun. reflexivity.
Qed.

End ScriptFacts.
